(** * bank-system: the money-movement protocol, embedded and verified

    The development follows the package under [src/bank_system], the
    revision with HTTP Basic authentication that the test-suite imports:
    [core/auth.py], [api/auth.py], [api/users.py], [api/accounts.py] and
    [api/transactions.py].  The top-level [bank_system/] directory
    holds an earlier revision of the same modules, without callers and
    ownership; it is embedded in the module [Legacy].

    The relational store is a record of tables, each table a list of
    rows in insertion order, and every SQL statement of the source is a
    function on that record.  The in-memory credential dictionary
    [_users] is a finite map.  Requests are served one after the other:
    a handler runs from its first statement to its commit or rollback
    before the next one starts.

    Amounts and balances are Python [Decimal]s stored in fixed-point
    columns; they are represented by the integer number of smallest
    units, so that sums, differences and comparisons are exact. *)

From stdpp Require Import gmap strings list.
From Stdlib Require Import ZArith Lia Bool Sorting.Sorted Sorting.Permutation.

Local Open Scope string_scope.
Local Open Scope list_scope.
Local Open Scope Z_scope.

(** ** HTTP status codes used by the endpoints *)

Definition OK : Z := 200.
Definition CREATED : Z := 201.
Definition BAD_REQUEST : Z := 400.
Definition UNAUTHORIZED : Z := 401.
Definition NOT_FOUND : Z := 404.
Definition UNPROCESSABLE_ENTITY : Z := 422.

(** One entry of a pydantic validation report: the [Gt(0)] constraint
    failing at a field, or a [ValueError] raised by a field validator. *)
Inductive ErrorDetails :=
| greater_than (loc : string) (gt : Z)
| value_error (loc : string) (msg : string).

(** Exceptions that the modelled code raises or catches. *)
Inductive exn :=
| HTTPException (status_code : Z) (detail : string)
| RequestValidationError (errors : list ErrorDetails)
| ValueError (msg : string)
| UniqueViolationError
| AssertionError.

(** The outcome of a Python call: a returned value or a raised exception. *)
Inductive outcome (A : Type) :=
| Return (a : A)
| Raise (e : exn).
Arguments Return {A} a.
Arguments Raise {A} e.

(** ** The relational store *)

(** Modelled from the spec: the migration scripts are not part of the
    source tree.  Section 6 gives the logical layout
    [users(id, username unique)],
    [accounts(id, owner_user_id fk, balance, created_at)] and
    [transactions(id, from_account_id fk nullable, to_account_id fk
    nullable, amount, created_at)]; the column names are those of the
    SQL text in the source ([accounts.user_id]). *)
Record user_row := {
  u_id : Z;
  u_username : string
}.

Record account_row := {
  a_id : Z;
  a_user_id : Z;
  a_balance : Z;
  a_created_at : Z
}.

Record transaction_row := {
  t_id : Z;
  t_from_account_id : option Z;
  t_to_account_id : option Z;
  t_amount : Z;
  t_created_at : Z
}.

(** The three tables and the sequences that feed their [id] columns. *)
Record database := {
  users : list user_row;
  accounts : list account_row;
  transactions : list transaction_row;
  users_id_seq : Z;
  accounts_id_seq : Z;
  transactions_id_seq : Z
}.

Definition empty_database : database :=
  {| users := []; accounts := []; transactions := [];
     users_id_seq := 1; accounts_id_seq := 1; transactions_id_seq := 1 |}.

Definition set_accounts (rows : list account_row) (d : database) : database :=
  {| users := users d; accounts := rows; transactions := transactions d;
     users_id_seq := users_id_seq d; accounts_id_seq := accounts_id_seq d;
     transactions_id_seq := transactions_id_seq d |}.

(** [async with conn.transaction()]: when the block raises, the writes
    made to the tables inside it are undone; values already drawn from a
    sequence are not given back. *)
Definition rollback (before after : database) : database :=
  {| users := users before; accounts := accounts before;
     transactions := transactions before;
     users_id_seq := users_id_seq after;
     accounts_id_seq := accounts_id_seq after;
     transactions_id_seq := transactions_id_seq after |}.

Definition transaction {A : Type}
    (block : database -> database * outcome A) (d : database)
    : database * outcome A :=
  match block d with
  | (d', Return a) => (d', Return a)
  | (d', Raise e) => (rollback d d', Raise e)
  end.

(** ** SQL building blocks *)

(** [accounts AS a JOIN users AS u ON a.user_id = u.id WHERE u.username = name],
    seen from one row [a] of [accounts]. *)
Definition joined_with_username (d : database) (name : string) (a : account_row) : bool :=
  existsb (fun u => (a_user_id a =? u_id u) && String.eqb (u_username u) name) (users d).

(** [EXISTS (SELECT 1 FROM accounts AS a JOIN users AS u ON a.user_id = u.id
             WHERE a.id = account_id AND u.username = name)] *)
Definition account_check (d : database) (account_id : Z) (name : string) : bool :=
  existsb (fun a => (a_id a =? account_id) && joined_with_username d name a) (accounts d).

Definition add_balance (delta : Z) (a : account_row) : account_row :=
  {| a_id := a_id a; a_user_id := a_user_id a;
     a_balance := a_balance a + delta; a_created_at := a_created_at a |}.

(** [UPDATE accounts SET balance = balance + delta WHERE cond]: the new table. *)
Definition update_accounts (cond : account_row -> bool) (delta : Z)
    (rows : list account_row) : list account_row :=
  map (fun a => if cond a then add_balance delta a else a) rows.

(** [... RETURNING id, balance]: the updated rows, as (id, new balance). *)
Definition returning_id_balance (cond : account_row -> bool) (delta : Z)
    (rows : list account_row) : list (Z * Z) :=
  map (fun a => (a_id a, a_balance a + delta)) (List.filter cond rows).

(** [INSERT INTO transactions (from_account_id, to_account_id, amount)
     SELECT from_, to, amount WHERE guard]: one row when the guard holds,
    [created_at] defaulting to the current time. *)
Definition insert_transaction (guard : bool) (now : Z) (from_ to : option Z)
    (amount : Z) (d : database) : database :=
  if guard then
    {| users := users d; accounts := accounts d;
       transactions := transactions d ++
         [ {| t_id := transactions_id_seq d; t_from_account_id := from_;
              t_to_account_id := to; t_amount := amount;
              t_created_at := now |} ];
       users_id_seq := users_id_seq d; accounts_id_seq := accounts_id_seq d;
       transactions_id_seq := transactions_id_seq d + 1 |}
  else d.

(** [conn.fetchrow]: the first row of the result, or [None]. *)
Definition fetchrow {A : Type} (rows : list A) : option A := head rows.

Definition is_empty {A : Type} (rows : list A) : bool :=
  match rows with [] => true | _ => false end.

(** [ORDER BY key DESC] as a stable insertion sort.  SQL leaves the order
    among rows of equal key open; here it is the order of insertion.  The
    theorems on ordered results state what holds for every order of such
    rows: that the result is a permutation of the selected rows and is
    sorted, and an equality of results only where the keys are distinct. *)
Fixpoint insert_desc {A : Type} (key : A -> Z) (x : A) (l : list A) : list A :=
  match l with
  | [] => [x]
  | y :: l' => if key x <? key y then y :: insert_desc key x l' else x :: y :: l'
  end.

Definition order_by_desc {A : Type} (key : A -> Z) (l : list A) : list A :=
  fold_right (insert_desc key) [] l.

(** [l FULL JOIN r ON TRUE]: all pairs; when one side is empty, the rows
    of the other side padded with NULLs. *)
Definition full_join_on_true {A B : Type} (l : list A) (r : list B)
    : list (option A * option B) :=
  match l, r with
  | [], _ => map (fun b => (None, Some b)) r
  | _, [] => map (fun a => (Some a, None)) l
  | _, _ => flat_map (fun a => map (fun b => (Some a, Some b)) r) l
  end.

(** ** api/transactions.py *)

(** *** Request models

    A record holds the decoded JSON body; the [_validate] function
    returns the report of the model's constraints, empty when an
    instance of the model is built. *)

Record CreateDepositRequest := {
  deposit_account_id : Z;
  deposit_amount : Z
}.

Record CreateWithdrawalRequest := {
  withdrawal_account_id : Z;
  withdrawal_amount : Z
}.

Record CreateTransferRequest := {
  from_ : Z;
  to : Z;
  transfer_amount : Z
}.

(** [Annotated[Decimal, Gt(0)]] at field [amount]. *)
Definition Gt_0 (amount : Z) : list ErrorDetails :=
  if 0 <? amount then [] else [greater_than "amount" 0].

Definition CreateDepositRequest_validate (body : CreateDepositRequest)
    : list ErrorDetails :=
  Gt_0 (deposit_amount body).

Definition CreateWithdrawalRequest_validate (body : CreateWithdrawalRequest)
    : list ErrorDetails :=
  Gt_0 (withdrawal_amount body).

(** The field validator of [to]: the two accounts must differ. *)
Definition _different_accounts (from_ to : Z) : list ErrorDetails :=
  if from_ =? to then [value_error "to" "Cannot transfer to the same account."]
  else [].

(** Fields are checked in declaration order and every failure is reported. *)
Definition CreateTransferRequest_validate (body : CreateTransferRequest)
    : list ErrorDetails :=
  _different_accounts (from_ body) (to body) ++ Gt_0 (transfer_amount body).

(** *** Rows handed back by the statements *)

Record _DepositRecord := {
  dr_to_account_id : Z;
  dr_to_account_balance : Z
}.

Record _WithdrawalRecord := {
  wr_from_account_id : Z;
  wr_from_account_balance : Z
}.

Record _TransferRecord := {
  tr_from_account_id : option Z;
  tr_from_account_balance : option Z;
  tr_to_account_id : option Z
}.

(** The response model of the listing: the [id] column is not selected. *)
Record Transaction := {
  from_account_id : option Z;
  to_account_id : option Z;
  amount : Z;
  created_at : Z
}.

(** *** The statement of [create_deposit]

    CTE [check_to_account], then [deposit] (the UPDATE), then
    [transaction] (the INSERT); the outer SELECT reads [deposit].  All
    common table expressions see the tables as they were before the
    statement. *)
Definition deposit_statement (now : Z) (account_id amount : Z) (username : string)
    (d : database) : database * list _DepositRecord :=
  let check_to_account := account_check d account_id username in
  let cond := fun a => (a_id a =? account_id) && check_to_account in
  let deposit := returning_id_balance cond amount (accounts d) in
  let d1 := set_accounts (update_accounts cond amount (accounts d)) d in
  let d2 := insert_transaction (negb (is_empty deposit)) now
              None (Some account_id) amount d1 in
  (d2, map (fun r => {| dr_to_account_id := fst r;
                        dr_to_account_balance := snd r |}) deposit).

Definition create_deposit (now : Z) (request : CreateDepositRequest)
    (username : string) (d : database) : database * outcome unit :=
  transaction (fun d =>
    let (d', rows) := deposit_statement now (deposit_account_id request)
                        (deposit_amount request) username d in
    match fetchrow rows with
    | None => (d', Raise (HTTPException NOT_FOUND "Account not found"))
    | Some record => (d', Return tt)
    end) d.

(** *** The statement of [create_withdrawal] *)
Definition withdrawal_statement (now : Z) (account_id amount : Z) (username : string)
    (d : database) : database * list _WithdrawalRecord :=
  let from_account_check := account_check d account_id username in
  let cond := fun a => (a_id a =? account_id) && from_account_check in
  let withdrawal := returning_id_balance cond (- amount) (accounts d) in
  let d1 := set_accounts (update_accounts cond (- amount) (accounts d)) d in
  let d2 := insert_transaction (negb (is_empty withdrawal)) now
              (Some account_id) None amount d1 in
  (d2, map (fun r => {| wr_from_account_id := fst r;
                        wr_from_account_balance := snd r |}) withdrawal).

Definition create_withdrawal (now : Z) (request : CreateWithdrawalRequest)
    (username : string) (d : database) : database * outcome unit :=
  transaction (fun d =>
    let (d', rows) := withdrawal_statement now (withdrawal_account_id request)
                        (withdrawal_amount request) username d in
    match fetchrow rows with
    | None => (d', Raise (HTTPException NOT_FOUND "Account not found"))
    | Some record =>
        if wr_from_account_balance record <? 0 then
          (d', Raise (HTTPException BAD_REQUEST "Insufficient funds in this account"))
        else (d', Return tt)
    end) d.

(** *** The statement of [create_transfer]

    [withdrawal] updates the source row when the caller owns it;
    [deposit] updates the destination row whoever owns it; the INSERT
    runs when both returned a row.  The request model guarantees
    [from_ <> to], so that the two updates touch different rows. *)
Definition transfer_statement (now : Z) (from_ to amount : Z) (username : string)
    (d : database) : database * list _TransferRecord :=
  let from_account_check := account_check d from_ username in
  let is_from := fun a => (a_id a =? from_) && from_account_check in
  let is_to := fun a => a_id a =? to in
  let withdrawal := returning_id_balance is_from (- amount) (accounts d) in
  let deposit := map fst (returning_id_balance is_to amount (accounts d)) in
  let d1 := set_accounts
              (update_accounts is_to amount
                 (update_accounts is_from (- amount) (accounts d))) d in
  let d2 := insert_transaction
              (negb (is_empty withdrawal) && negb (is_empty deposit)) now
              (Some from_) (Some to) amount d1 in
  (d2, map (fun r => {| tr_from_account_id := fst <$> fst r;
                        tr_from_account_balance := snd <$> fst r;
                        tr_to_account_id := snd r |})
           (full_join_on_true withdrawal deposit)).

Definition create_transfer (now : Z) (request : CreateTransferRequest)
    (username : string) (d : database) : database * outcome unit :=
  transaction (fun d =>
    let (d', rows) := transfer_statement now (from_ request) (to request)
                        (transfer_amount request) username d in
    match fetchrow rows with
    | None =>
        (d', Raise (HTTPException NOT_FOUND "From account and to account not found"))
    | Some record =>
        match tr_from_account_id record with
        | None => (d', Raise (HTTPException NOT_FOUND "From account not found"))
        | Some _ =>
            match tr_to_account_id record with
            | None => (d', Raise (HTTPException NOT_FOUND "To account not found"))
            | Some _ =>
                match tr_from_account_balance record with
                | Some from_balance =>
                    if from_balance <? 0 then
                      (d', Raise (HTTPException BAD_REQUEST
                                    "Insufficient funds in from account"))
                    else (d', Return tt)
                | None => (d', Return tt)
                end
            end
        end
    end) d.

(** *** [get_transactions_by_account] *)

Definition involves (account_id : Z) (t : transaction_row) : bool :=
  match t_from_account_id t with Some i => i =? account_id | None => false end
  || match t_to_account_id t with Some i => i =? account_id | None => false end.

Definition select_transaction (t : transaction_row) : Transaction :=
  {| from_account_id := t_from_account_id t; to_account_id := t_to_account_id t;
     amount := t_amount t; created_at := t_created_at t |}.

Definition get_transactions_by_account (account_id : Z) (username : string)
    (d : database) : outcome (list Transaction) :=
  let records :=
    map select_transaction
      (order_by_desc t_created_at
         (List.filter (fun t => involves account_id t
                                && account_check d account_id username)
                      (transactions d))) in
  if is_empty records then
    let account_exists :=
      fetchrow (List.filter (fun a => (a_id a =? account_id)
                                      && joined_with_username d username a)
                            (accounts d)) in
    match account_exists with
    | None => Raise (HTTPException NOT_FOUND "Account not found")
    | Some _ => Return records
    end
  else Return records.

(** *** The routes: body validation, then the handler

    The caller's name is the value of the [verify_credentials]
    dependency.  A body that fails its model is answered with status 422
    and the handler is not called. *)

Definition post_deposit (now : Z) (body : CreateDepositRequest)
    (username : string) (d : database) : database * outcome unit :=
  match CreateDepositRequest_validate body with
  | [] => create_deposit now body username d
  | errors => (d, Raise (RequestValidationError errors))
  end.

Definition post_withdrawal (now : Z) (body : CreateWithdrawalRequest)
    (username : string) (d : database) : database * outcome unit :=
  match CreateWithdrawalRequest_validate body with
  | [] => create_withdrawal now body username d
  | errors => (d, Raise (RequestValidationError errors))
  end.

Definition post_transfer (now : Z) (body : CreateTransferRequest)
    (username : string) (d : database) : database * outcome unit :=
  match CreateTransferRequest_validate body with
  | [] => create_transfer now body username d
  | errors => (d, Raise (RequestValidationError errors))
  end.

(** ** api/accounts.py *)

Record CreateAccountResponse := {
  id : Z;
  balance : Z
}.

(** [INSERT INTO accounts (user_id, balance) SELECT id, 0 FROM users WHERE ...]:
    one new row per selected user id, numbered from the sequence. *)
Fixpoint insert_accounts (now : Z) (owners : list Z) (next : Z)
    : list account_row * Z :=
  match owners with
  | [] => ([], next)
  | owner :: owners' =>
      let (rows, next') := insert_accounts now owners' (next + 1) in
      ({| a_id := next; a_user_id := owner; a_balance := 0;
          a_created_at := now |} :: rows, next')
  end.

Definition create_account (now : Z) (username : string) (d : database)
    : database * outcome CreateAccountResponse :=
  let selected :=
    map u_id (List.filter (fun u => String.eqb (u_username u) username) (users d)) in
  let (rows, next) := insert_accounts now selected (accounts_id_seq d) in
  let d' := {| users := users d; accounts := accounts d ++ rows;
               transactions := transactions d;
               users_id_seq := users_id_seq d; accounts_id_seq := next;
               transactions_id_seq := transactions_id_seq d |} in
  match fetchrow rows with
  | None => (d', Raise AssertionError)
  | Some row => (d', Return {| id := a_id row; balance := a_balance row |})
  end.

(** The scalar subquery [(SELECT id FROM users WHERE username = name)]:
    NULL when no row is selected; [users.username] is unique, which
    leaves at most one row. *)
Definition user_id_of (d : database) (name : string) : option Z :=
  fetchrow (map u_id (List.filter (fun u => String.eqb (u_username u) name) (users d))).

(** [x = y] in a WHERE clause, where [y] may be NULL. *)
Definition eq_nullable (x : Z) (y : option Z) : bool :=
  match y with Some y' => x =? y' | None => false end.

Definition get_account (account_id : Z) (username : string) (d : database)
    : outcome CreateAccountResponse :=
  let row :=
    fetchrow (List.filter
                (fun a => (a_id a =? account_id)
                          && eq_nullable (a_user_id a) (user_id_of d username))
                (accounts d)) in
  match row with
  | None => Raise (HTTPException NOT_FOUND "Account not found")
  | Some a => Return {| id := a_id a; balance := a_balance a |}
  end.

(** ** api/users.py *)

Definition get_user (username : string) (d : database) : outcome unit :=
  match fetchrow (List.filter (fun u => String.eqb (u_username u) username)
                              (users d)) with
  | None => Raise (HTTPException NOT_FOUND "User not found")
  | Some _ => Return tt
  end.

(** ** core/auth.py and api/auth.py *)

Record HTTPBasicCredentials := {
  credentials_username : string;
  credentials_password : string
}.

Record RegisterRequest := {
  username : string;
  password : string
}.

(** The process: the store behind the connection pool and the module
    variable [_users] (username -> hashed password). *)
Record state := {
  db : database;
  _users : gmap string string
}.

Definition initial_state : state := {| db := empty_database; _users := ∅ |}.

(** A request to the application, with what it draws from its
    environment: the clock behind [created_at] and the salt of
    [bcrypt.gensalt].  [Lifespan] is a start of the process. *)
Inductive event :=
| Lifespan
| PostRegister (salt : string) (request : RegisterRequest)
| PostAccounts (now : Z) (credentials : option HTTPBasicCredentials)
| PostDeposit (now : Z) (credentials : option HTTPBasicCredentials)
    (body : CreateDepositRequest)
| PostWithdrawal (now : Z) (credentials : option HTTPBasicCredentials)
    (body : CreateWithdrawalRequest)
| PostTransfer (now : Z) (credentials : option HTTPBasicCredentials)
    (body : CreateTransferRequest).

(** [INSERT INTO users (username) VALUES (name) RETURNING id] under the
    unique constraint on [username]. *)
Definition insert_user (name : string) (d : database) : database * outcome Z :=
  let new_id := users_id_seq d in
  if existsb (fun u => String.eqb (u_username u) name) (users d) then
    ({| users := users d; accounts := accounts d; transactions := transactions d;
        users_id_seq := new_id + 1; accounts_id_seq := accounts_id_seq d;
        transactions_id_seq := transactions_id_seq d |},
     Raise UniqueViolationError)
  else
    ({| users := users d ++ [ {| u_id := new_id; u_username := name |} ];
        accounts := accounts d; transactions := transactions d;
        users_id_seq := new_id + 1; accounts_id_seq := accounts_id_seq d;
        transactions_id_seq := transactions_id_seq d |},
     Return new_id).

Section Bcrypt.

(** The two entry points of the bcrypt library used by [core/auth.py]. *)
Variable hashpw : string -> string -> string.
Variable checkpw : string -> string -> bool.

Definition clear_users (s : state) : state := {| db := db s; _users := ∅ |}.

Definition hash_password (salt : string) (password : string) : string :=
  hashpw password salt.

Definition verify_password (plain_password hashed_password : string) : bool :=
  checkpw plain_password hashed_password.

Definition register_user (salt : string) (username password : string)
    (s : state) : state * outcome unit :=
  match _users s !! username with
  | Some _ => (s, Raise (ValueError "Username already exists"))
  | None =>
      ({| db := db s;
          _users := <[username := hash_password salt password]> (_users s) |},
       Return tt)
  end.

Definition verify_credentials (credentials : HTTPBasicCredentials) (s : state)
    : outcome string :=
  match _users s !! credentials_username credentials with
  | None => Raise (HTTPException UNAUTHORIZED "Incorrect username or password")
  | Some hashed =>
      if verify_password (credentials_password credentials) hashed then
        Return (credentials_username credentials)
      else Raise (HTTPException UNAUTHORIZED "Incorrect username or password")
  end.

(** [register]: the INSERT, whose unique violation is logged and
    swallowed, then [register_user], whose [ValueError] becomes a 400. *)
Definition register (salt : string) (request : RegisterRequest) (s : state)
    : state * outcome unit :=
  match insert_user (username request) (db s) with
  | (d', Return _) | (d', Raise UniqueViolationError) =>
      let s1 := {| db := d'; _users := _users s |} in
      match register_user salt (username request) (password request) s1 with
      | (s2, Return _) => (s2, Return tt)
      | (s2, Raise (ValueError msg)) =>
          (s2, Raise (HTTPException BAD_REQUEST msg))
      | (s2, Raise e) => (s2, Raise e)
      end
  | (d', Raise e) => ({| db := d'; _users := _users s |}, Raise e)
  end.

(** [lifespan]: the credential map is emptied when the process starts;
    the store is the one the configured URL points at. *)
Definition lifespan (s : state) : state := clear_users s.

(** The [security] dependency followed by [verify_credentials]. *)
Definition authenticate (credentials : option HTTPBasicCredentials) (s : state)
    : outcome string :=
  match credentials with
  | None => Raise (HTTPException UNAUTHORIZED "Not authenticated")
  | Some c => verify_credentials c s
  end.

(** A route behind [Depends(verify_credentials)]: the handler runs with
    the authenticated name, or the request is refused and the store is
    left alone. *)
Definition with_auth {A : Type} (credentials : option HTTPBasicCredentials)
    (route : string -> database -> database * outcome A) (s : state) : state :=
  match authenticate credentials s with
  | Return name => {| db := fst (route name (db s)); _users := _users s |}
  | Raise _ => s
  end.

(** The state after one event. *)
Definition serve (e : event) (s : state) : state :=
  match e with
  | Lifespan => lifespan s
  | PostRegister salt request => fst (register salt request s)
  | PostAccounts now credentials => with_auth credentials (create_account now) s
  | PostDeposit now credentials body =>
      with_auth credentials (post_deposit now body) s
  | PostWithdrawal now credentials body =>
      with_auth credentials (post_withdrawal now body) s
  | PostTransfer now credentials body =>
      with_auth credentials (post_transfer now body) s
  end.

(** The state after a history of events, oldest first. *)
Definition run (history : list event) (s : state) : state :=
  fold_left (fun s e => serve e s) history s.

End Bcrypt.

(** ** The vocabulary of the specification *)

(** The three money movements and the route that serves each. *)
Inductive movement :=
| Deposit (body : CreateDepositRequest)
| Withdrawal (body : CreateWithdrawalRequest)
| Transfer (body : CreateTransferRequest).

Definition perform (now : Z) (m : movement) (username : string) (d : database)
    : database * outcome unit :=
  match m with
  | Deposit body => post_deposit now body username d
  | Withdrawal body => post_withdrawal now body username d
  | Transfer body => post_transfer now body username d
  end.

Definition movement_amount (m : movement) : Z :=
  match m with
  | Deposit body => deposit_amount body
  | Withdrawal body => withdrawal_amount body
  | Transfer body => transfer_amount body
  end.

(** The account a movement takes money from, if any. *)
Definition movement_source (m : movement) : option Z :=
  match m with
  | Deposit _ => None
  | Withdrawal body => Some (withdrawal_account_id body)
  | Transfer body => Some (from_ body)
  end.

(** The committed balance of an account: the [balance] column of the row
    with that [id]. *)
Definition balance_of (d : database) (account_id : Z) : option Z :=
  a_balance <$> List.find (fun a => a_id a =? account_id) (accounts d).

Definition account_exists (d : database) (account_id : Z) : Prop :=
  exists a, In a (accounts d) /\ a_id a = account_id.

(** The account exists and its owner is the user called [name]. *)
Definition owned_by (d : database) (account_id : Z) (name : string) : Prop :=
  exists a u, In a (accounts d) /\ In u (users d) /\
    a_id a = account_id /\ a_user_id a = u_id u /\ u_username u = name.

(** The account is an endpoint of the logged transaction. *)
Definition endpoint (account_id : Z) (t : transaction_row) : Prop :=
  t_from_account_id t = Some account_id \/ t_to_account_id t = Some account_id.

(** Newest first. *)
Definition newest_first (l : list Transaction) : Prop :=
  Sorted (fun x y => created_at y <= created_at x) l.

(** The listed entry shows the logged transaction: its source, its
    destination, its amount and its time. *)
Definition shows (entry : Transaction) (row : transaction_row) : Prop :=
  from_account_id entry = t_from_account_id row /\
  to_account_id entry = t_to_account_id row /\
  amount entry = t_amount row /\
  created_at entry = t_created_at row.

(** The unique constraint of [users.username]. *)
Definition users_username_key (d : database) : Prop :=
  NoDup (map u_username (users d)).

(** A user row carries the name. *)
Definition identity_exists (d : database) (name : string) : Prop :=
  exists u, In u (users d) /\ u_username u = name.

(** The source row as the [withdrawal] CTE sees it: the row with the
    source id, provided the caller owns it. *)
Definition visible_source (d : database) (from_ : Z) (name : string)
    : option account_row :=
  if account_check d from_ name
  then List.find (fun a => a_id a =? from_) (accounts d) else None.

(** The primary key of [accounts] with its sequence, and the balances. *)
Definition accounts_pkey (d : database) : Prop :=
  NoDup (map a_id (accounts d)) /\
  forall a, In a (accounts d) -> a_id a < accounts_id_seq d.

Definition balances_non_negative (d : database) : Prop :=
  forall a, In a (accounts d) -> 0 <= a_balance a.

(** Every name of the credential map has a row in [users]. *)
Definition credentials_backed (s : state) : Prop :=
  forall name, is_Some (_users s !! name) -> identity_exists (db s) name.

(** The primary key of [accounts] holds and no balance is negative. *)
Definition ledger_sound (d : database) : Prop :=
  accounts_pkey d /\ balances_non_negative d.

(** ** A sample run

    A stand-in for bcrypt, to run the model: the hash is the password. *)
Definition toy_hashpw (password salt : string) : string := password.
Definition toy_checkpw (password hashed : string) : bool := String.eqb password hashed.

Definition alice : HTTPBasicCredentials :=
  {| credentials_username := "alice"; credentials_password := "wonderland" |}.
Definition bob : HTTPBasicCredentials :=
  {| credentials_username := "bob"; credentials_password := "builder" |}.

(** Alice and Bob register and open an account each; Alice deposits 300. *)
Definition sample_history : list event :=
  [ PostRegister "salt1" {| username := "alice"; password := "wonderland" |};
    PostRegister "salt2" {| username := "bob"; password := "builder" |};
    PostAccounts 10 (Some alice);
    PostAccounts 11 (Some bob);
    PostDeposit 12 (Some alice) {| deposit_account_id := 1; deposit_amount := 300 |} ].

Definition sample_state : state :=
  run toy_hashpw toy_checkpw sample_history initial_state.

Definition sample_database : database :=
  {| users := [ {| u_id := 1; u_username := "alice" |};
                {| u_id := 2; u_username := "bob" |} ];
     accounts := [ {| a_id := 1; a_user_id := 1; a_balance := 300; a_created_at := 10 |};
                   {| a_id := 2; a_user_id := 2; a_balance := 0; a_created_at := 11 |} ];
     transactions := [ {| t_id := 1; t_from_account_id := None;
                          t_to_account_id := Some 1; t_amount := 300;
                          t_created_at := 12 |} ];
     users_id_seq := 3; accounts_id_seq := 3; transactions_id_seq := 2 |}.

(** The process is started again after Alice registered. *)
Definition restarted_state : state :=
  run toy_hashpw toy_checkpw
    [ PostRegister "salt1" {| username := "alice"; password := "wonderland" |};
      Lifespan ] initial_state.

(** ** More of the endpoints and of the vocabulary *)

(** [get_accounts] of api/accounts.py: the accounts whose [user_id] is
    the id the scalar subquery finds for the caller's name, newest
    first.  The two [except] clauses of the source catch errors that a
    SELECT does not raise. *)
Definition get_accounts (username : string) (d : database)
    : outcome (list CreateAccountResponse) :=
  let rows :=
    order_by_desc a_created_at
      (List.filter (fun a => eq_nullable (a_user_id a) (user_id_of d username))
                   (accounts d)) in
  Return (map (fun a => {| id := a_id a; balance := a_balance a |}) rows).

(** [get_current_user] of api/auth.py, behind [Depends(verify_credentials)]. *)
Definition get_current_user (username : string) : outcome string :=
  Return username.

Definition sum_Z (l : list Z) : Z := fold_right Z.add 0 l.

(** The money held by all accounts together. *)
Definition total_balance (d : database) : Z :=
  sum_Z (map a_balance (accounts d)).

(** What a logged transaction adds to an account: its amount when the
    account is the destination, minus its amount when it is the source. *)
Definition signed_amount (account_id : Z) (t : transaction_row) : Z :=
  (if decide (t_to_account_id t = Some account_id) then t_amount t else 0)
  - (if decide (t_from_account_id t = Some account_id) then t_amount t else 0).

(** The net sum of an account's history. *)
Definition net_flow (log : list transaction_row) (account_id : Z) : Z :=
  sum_Z (map (signed_amount account_id) log).

(** What identifies an account row apart from its balance. *)
Definition account_identity (a : account_row) : Z * Z * Z :=
  (a_id a, a_user_id a, a_created_at a).

(** The account is the caller's: its owner is the user called [name]. *)
Definition owner_is (d : database) (name : string) (a : account_row) : Prop :=
  exists u, In u (users d) /\ a_user_id a = u_id u /\ u_username u = name.

(** The net effect of a movement on the total: what an accepted deposit
    adds, what an accepted withdrawal removes, nothing otherwise. *)
Definition net_effect (m : movement) (answer : outcome unit) : Z :=
  match answer, m with
  | Return _, Deposit body => deposit_amount body
  | Return _, Withdrawal body => - withdrawal_amount body
  | _, _ => 0
  end.

(** What a logged transaction does to an account row. *)
Definition apply_row (t : transaction_row) (a : account_row) : account_row :=
  add_balance (signed_amount (a_id a) t) a.

(** The balance of every account is the net sum of its history; the
    ids of accounts, and the ids the log refers to, have been drawn from
    the sequence of [accounts]. *)
Definition books_balanced (d : database) : Prop :=
  (forall a, In a (accounts d) ->
     a_id a < accounts_id_seq d /\
     a_balance a = net_flow (transactions d) (a_id a)) /\
  (forall t i, In t (transactions d) -> endpoint i t -> i < accounts_id_seq d).

(** A log row as the data model wants it: a positive amount, and two
    different endpoints (so at least one is set), each an existing
    account. *)
Definition well_formed_row (d : database) (t : transaction_row) : Prop :=
  0 < t_amount t /\
  t_from_account_id t <> t_to_account_id t /\
  forall i, endpoint i t -> account_exists d i.

(** The keys of the schema: primary keys drawn from the sequences, the
    unique user name, and the owner of every account among the users. *)
Definition schema_constraints (d : database) : Prop :=
  NoDup (map u_id (users d)) /\
  (forall u, In u (users d) -> u_id u < users_id_seq d) /\
  users_username_key d /\
  accounts_pkey d /\
  (forall a, In a (accounts d) -> exists u, In u (users d) /\ u_id u = a_user_id a).

(** The account a movement gives money to, if any. *)
Definition movement_destination (m : movement) : option Z :=
  match m with
  | Deposit body => Some (deposit_account_id body)
  | Withdrawal _ => None
  | Transfer body => Some (to body)
  end.

(** The log row of an accepted movement. *)
Definition movement_row (seq now : Z) (m : movement) : transaction_row :=
  {| t_id := seq; t_from_account_id := movement_source m;
     t_to_account_id := movement_destination m;
     t_amount := movement_amount m; t_created_at := now |}.

(** ** The earlier revision: [bank_system/api] at the top of the tree

    The same endpoints before authentication: no caller, no ownership,
    a log with one row per account touched.  The three tables are
    [users(id, username)], [accounts(id, user_id, balance, created_at)]
    and [transactions(id, account_id, amount, transaction_type)]. *)

Module Legacy.

Definition INTERNAL_SERVER_ERROR : Z := 500.

(** Exceptions of the earlier revision: the HTTP answers of the
    handlers, the two constraint violations of the store, and the
    failure of a list index. *)
Inductive exception :=
| HTTPException (status_code : Z) (detail : string)
| UniqueViolationError
| ForeignKeyViolationError
| IndexError.

Inductive result (A : Type) :=
| Return (a : A)
| Raise (e : exception).
Arguments Return {A} a.
Arguments Raise {A} e.

(** Modelled from the spec: the migration scripts are not part of the
    source tree; the columns are those of the SQL text of the earlier
    revision, the keys those of section 6. *)
Record transaction_row := {
  t_id : Z;
  t_account_id : Z;
  t_amount : Z;
  t_transaction_type : string
}.

Record database := {
  users : list user_row;
  accounts : list account_row;
  transactions : list transaction_row;
  users_id_seq : Z;
  accounts_id_seq : Z;
  transactions_id_seq : Z
}.

(** [TransactionType] *)
Definition DEPOSIT : string := "deposit".
Definition WITHDRAWAL : string := "withdrawal".

Definition rollback (before after : database) : database :=
  {| users := users before; accounts := accounts before;
     transactions := transactions before;
     users_id_seq := users_id_seq after;
     accounts_id_seq := accounts_id_seq after;
     transactions_id_seq := transactions_id_seq after |}.

(** [async with conn.transaction()] *)
Definition transaction {A : Type}
    (block : database -> database * result A) (d : database)
    : database * result A :=
  match block d with
  | (d', Return a) => (d', Return a)
  | (d', Raise e) => (rollback d d', Raise e)
  end.

(** [SELECT id, balance FROM accounts WHERE id = account_id], first row. *)
Definition select_account (account_id : Z) (d : database) : option account_row :=
  fetchrow (List.filter (fun a => a_id a =? account_id) (accounts d)).

(** [UPDATE accounts SET balance = balance + change WHERE id = account_id] *)
Definition update_balance (change account_id : Z) (d : database) : database :=
  {| users := users d;
     accounts := update_accounts (fun a => a_id a =? account_id) change (accounts d);
     transactions := transactions d;
     users_id_seq := users_id_seq d; accounts_id_seq := accounts_id_seq d;
     transactions_id_seq := transactions_id_seq d |}.

(** [INSERT INTO transactions (account_id, amount, transaction_type)
     VALUES (...) RETURNING id, account_id, amount, transaction_type] *)
Definition insert_transaction (account_id amount : Z) (transaction_type : string)
    (d : database) : database * option transaction_row :=
  let row := {| t_id := transactions_id_seq d; t_account_id := account_id;
                t_amount := amount; t_transaction_type := transaction_type |} in
  ({| users := users d; accounts := accounts d;
      transactions := transactions d ++ [row];
      users_id_seq := users_id_seq d; accounts_id_seq := accounts_id_seq d;
      transactions_id_seq := transactions_id_seq d + 1 |},
   Some row).

(** *** api/transactions.py *)

Record DepositCreate := { deposit_account_id : Z; deposit_amount : Z }.
Record WithdrawalCreate := { withdrawal_account_id : Z; withdrawal_amount : Z }.
Record TransferCreate := {
  from_account_id : Z;
  to_account_id : Z;
  transfer_amount : Z
}.

Definition create_deposit (payload : DepositCreate) (d : database)
    : database * result transaction_row :=
  if deposit_amount payload <=? 0 then
    (d, Raise (HTTPException BAD_REQUEST "Deposit amount must be positive"))
  else
    match
      transaction (fun d =>
        match select_account (deposit_account_id payload) d with
        | None => (d, Raise (HTTPException NOT_FOUND "Account not found"))
        | Some account =>
            let d1 := update_balance (deposit_amount payload)
                        (deposit_account_id payload) d in
            let (d2, row) := insert_transaction (deposit_account_id payload)
                               (deposit_amount payload) DEPOSIT d1 in
            (d2, Return row)
        end) d
    with
    | (d', Raise e) => (d', Raise e)
    | (d', Return None) =>
        (d', Raise (HTTPException INTERNAL_SERVER_ERROR
                      "Failed to create deposit transaction"))
    | (d', Return (Some row)) => (d', Return row)
    end.

Definition create_withdrawal (payload : WithdrawalCreate) (d : database)
    : database * result transaction_row :=
  if withdrawal_amount payload <=? 0 then
    (d, Raise (HTTPException BAD_REQUEST "Withdrawal amount must be positive"))
  else
    match
      transaction (fun d =>
        match select_account (withdrawal_account_id payload) d with
        | None => (d, Raise (HTTPException NOT_FOUND "Account not found"))
        | Some account =>
            if a_balance account <? withdrawal_amount payload then
              (d, Raise (HTTPException BAD_REQUEST "Insufficient funds"))
            else
              let d1 := update_balance (- withdrawal_amount payload)
                          (withdrawal_account_id payload) d in
              let (d2, row) := insert_transaction (withdrawal_account_id payload)
                                 (withdrawal_amount payload) WITHDRAWAL d1 in
              (d2, Return row)
        end) d
    with
    | (d', Raise e) => (d', Raise e)
    | (d', Return None) =>
        (d', Raise (HTTPException INTERNAL_SERVER_ERROR
                      "Failed to create withdrawal transaction"))
    | (d', Return (Some row)) => (d', Return row)
    end.

(** The loop of [create_transfer] over [transfer_operations]: an UPDATE
    and an INSERT for each (account, change, type). *)
Fixpoint transfer_operations_loop (operations : list (Z * Z * string)) (amount : Z)
    (d : database) (transactions : list transaction_row)
    : database * result (list transaction_row) :=
  match operations with
  | [] => (d, Return transactions)
  | (account_id, balance_change, txn_type) :: rest =>
      let d1 := update_balance balance_change account_id d in
      let (d2, row) := insert_transaction account_id amount txn_type d1 in
      match row with
      | None =>
          (d2, Raise (HTTPException INTERNAL_SERVER_ERROR
                        "Failed to create transfer transaction"))
      | Some row => transfer_operations_loop rest amount d2 (transactions ++ [row])
      end
  end.

(** The answer of [create_transfer]: the rows under "from" and "to". *)
Definition create_transfer (payload : TransferCreate) (d : database)
    : database * result (transaction_row * transaction_row) :=
  if transfer_amount payload <=? 0 then
    (d, Raise (HTTPException BAD_REQUEST "Transfer amount must be positive"))
  else if from_account_id payload =? to_account_id payload then
    (d, Raise (HTTPException BAD_REQUEST "Cannot transfer to the same account"))
  else
    match
      transaction (fun d =>
        let from_account := select_account (from_account_id payload) d in
        let to_account := select_account (to_account_id payload) d in
        match from_account, to_account with
        | Some from_account, Some _ =>
            if a_balance from_account <? transfer_amount payload then
              (d, Raise (HTTPException BAD_REQUEST
                           "Insufficient funds in the source account"))
            else
              transfer_operations_loop
                [ (from_account_id payload, - transfer_amount payload, WITHDRAWAL);
                  (to_account_id payload, transfer_amount payload, DEPOSIT) ]
                (transfer_amount payload) d []
        | _, _ =>
            (d, Raise (HTTPException NOT_FOUND "One or both accounts not found"))
        end) d
    with
    | (d', Raise e) => (d', Raise e)
    | (d', Return (from_row :: to_row :: _)) => (d', Return (from_row, to_row))
    | (d', Return _) => (d', Raise IndexError)
    end.

(** [... WHERE account_id = $1 ORDER BY id DESC] *)
Definition get_transactions_by_account (account_id : Z) (d : database)
    : result (list transaction_row) :=
  Return (order_by_desc t_id
            (List.filter (fun t => t_account_id t =? account_id) (transactions d))).

(** *** api/accounts.py *)

Record Account := { id : Z; user_id : Z; balance : Z }.

Definition to_Account (a : account_row) : Account :=
  {| id := a_id a; user_id := a_user_id a; balance := a_balance a |}.

(** [INSERT INTO accounts (user_id, balance) VALUES (user_id, 0.0)
     RETURNING id, user_id, balance] under the foreign key to [users]. *)
Definition insert_account (now : Z) (owner : Z) (d : database)
    : database * result (option account_row) :=
  let new_id := accounts_id_seq d in
  if existsb (fun u => u_id u =? owner) (users d) then
    let row := {| a_id := new_id; a_user_id := owner; a_balance := 0;
                  a_created_at := now |} in
    ({| users := users d; accounts := accounts d ++ [row];
        transactions := transactions d;
        users_id_seq := users_id_seq d; accounts_id_seq := new_id + 1;
        transactions_id_seq := transactions_id_seq d |},
     Return (Some row))
  else
    ({| users := users d; accounts := accounts d; transactions := transactions d;
        users_id_seq := users_id_seq d; accounts_id_seq := new_id + 1;
        transactions_id_seq := transactions_id_seq d |},
     Raise ForeignKeyViolationError).

Definition create_account (now : Z) (payload_user_id : Z) (d : database)
    : database * result Account :=
  match insert_account now payload_user_id d with
  | (d', Raise e) => (d', Raise e)
  | (d', Return None) =>
      (d', Raise (HTTPException INTERNAL_SERVER_ERROR "Failed to create account"))
  | (d', Return (Some row)) => (d', Return (to_Account row))
  end.

Definition get_account (account_id : Z) (d : database) : result Account :=
  match select_account account_id d with
  | None => Raise (HTTPException NOT_FOUND "Account not found")
  | Some a => Return (to_Account a)
  end.

(** [get_accounts_by_user]: the handler returns [None] for no row. *)
Definition get_accounts_by_user (payload_user_id : Z) (d : database)
    : result (option (list Account)) :=
  let rows :=
    order_by_desc a_created_at
      (List.filter (fun a => a_user_id a =? payload_user_id) (accounts d)) in
  if is_empty rows then Return None else Return (Some (map to_Account rows)).

(** *** api/users.py *)

(** [INSERT INTO users (username) VALUES (name) RETURNING id, username]
    under the unique constraint on [username]. *)
Definition insert_user (name : string) (d : database)
    : database * result (option user_row) :=
  let new_id := users_id_seq d in
  if existsb (fun u => String.eqb (u_username u) name) (users d) then
    ({| users := users d; accounts := accounts d; transactions := transactions d;
        users_id_seq := new_id + 1; accounts_id_seq := accounts_id_seq d;
        transactions_id_seq := transactions_id_seq d |},
     Raise UniqueViolationError)
  else
    let row := {| u_id := new_id; u_username := name |} in
    ({| users := users d ++ [row]; accounts := accounts d;
        transactions := transactions d;
        users_id_seq := new_id + 1; accounts_id_seq := accounts_id_seq d;
        transactions_id_seq := transactions_id_seq d |},
     Return (Some row)).

Definition create_user (payload_username : string) (d : database)
    : database * result user_row :=
  match insert_user payload_username d with
  | (d', Raise UniqueViolationError) =>
      (d', Raise (HTTPException BAD_REQUEST "Username already exists"))
  | (d', Raise e) => (d', Raise e)
  | (d', Return None) =>
      (d', Raise (HTTPException INTERNAL_SERVER_ERROR "Failed to create user"))
  | (d', Return (Some row)) => (d', Return row)
  end.

Definition get_user (user_id : Z) (d : database) : result user_row :=
  match fetchrow (List.filter (fun u => u_id u =? user_id) (users d)) with
  | None => Raise (HTTPException NOT_FOUND "User not found")
  | Some u => Return u
  end.

(** *** Vocabulary *)

Definition balance_of (d : database) (account_id : Z) : option Z :=
  a_balance <$> select_account account_id d.

Definition balances_non_negative (d : database) : Prop :=
  forall a, In a (accounts d) -> 0 <= a_balance a.

End Legacy.

(** The sample store in the tables of the earlier revision. *)
Definition legacy_sample_database : Legacy.database :=
  {| Legacy.users := [ {| u_id := 1; u_username := "alice" |};
                       {| u_id := 2; u_username := "bob" |} ];
     Legacy.accounts :=
       [ {| a_id := 1; a_user_id := 1; a_balance := 300; a_created_at := 10 |};
         {| a_id := 2; a_user_id := 2; a_balance := 0; a_created_at := 11 |} ];
     Legacy.transactions :=
       [ {| Legacy.t_id := 1; Legacy.t_account_id := 1; Legacy.t_amount := 300;
            Legacy.t_transaction_type := "deposit" |} ];
     Legacy.users_id_seq := 3; Legacy.accounts_id_seq := 3;
     Legacy.transactions_id_seq := 2 |}.

(** ** Lemmas on the SQL building blocks *)

Lemma joined_with_username_spec d name a :
  joined_with_username d name a = true <->
  exists u, In u (users d) /\ a_user_id a = u_id u /\ u_username u = name.
Proof.
  unfold joined_with_username. rewrite existsb_exists. split.
  - intros (u & Hin & H). apply andb_true_iff in H as [H1 H2].
    exists u. rewrite Z.eqb_eq in H1. rewrite String.eqb_eq in H2. auto.
  - intros (u & Hin & H1 & H2). exists u. split; [done|].
    apply andb_true_iff. rewrite Z.eqb_eq, String.eqb_eq. auto.
Qed.

Lemma account_check_spec d account_id name :
  account_check d account_id name = true <-> owned_by d account_id name.
Proof.
  unfold account_check, owned_by. rewrite existsb_exists. split.
  - intros (a & Hin & H). apply andb_true_iff in H as [H1 H2].
    rewrite Z.eqb_eq in H1. apply joined_with_username_spec in H2 as (u & ? & ? & ?).
    exists a, u. auto.
  - intros (a & u & Ha & Hu & H1 & H2 & H3). exists a. split; [done|].
    apply andb_true_iff. rewrite Z.eqb_eq. split; [done|].
    apply joined_with_username_spec. exists u. auto.
Qed.

Lemma account_check_false d account_id name :
  account_check d account_id name = false <-> ~ owned_by d account_id name.
Proof.
  rewrite <- account_check_spec.
  destruct (account_check d account_id name); split; intros H; congruence.
Qed.

Lemma owned_by_exists d account_id name :
  owned_by d account_id name -> account_exists d account_id.
Proof. intros (a & u & ? & ? & ? & ?). exists a. auto. Qed.

Lemma find_id_Some d account_id :
  account_exists d account_id <->
  exists a, List.find (fun a => a_id a =? account_id) (accounts d) = Some a.
Proof.
  unfold account_exists. split.
  - intros (a & Hin & Hid).
    destruct (List.find (fun a => a_id a =? account_id) (accounts d)) eqn:E; [eauto|].
    eapply find_none in E; [|exact Hin]. simpl in E. lia.
  - intros (a & E). apply find_some in E as [? E]. exists a.
    rewrite Z.eqb_eq in E. auto.
Qed.

Lemma involves_spec account_id t :
  involves account_id t = true <-> endpoint account_id t.
Proof.
  unfold involves, endpoint. rewrite orb_true_iff.
  destruct (t_from_account_id t), (t_to_account_id t);
    rewrite ?Z.eqb_eq; split; intros [H|H]; try done;
    try (left; congruence); try (right; congruence).
Qed.

(** An update keyed on [id] keeps every [id] and acts on the looked-up row. *)
Lemma update_accounts_ids cond delta rows :
  map a_id (update_accounts cond delta rows) = map a_id rows.
Proof.
  unfold update_accounts. rewrite map_map. apply map_ext.
  intros a. by destruct (cond a).
Qed.

Lemma find_update_accounts cond delta rows i :
  List.find (fun a => a_id a =? i) (update_accounts cond delta rows) =
  (fun a => if cond a then add_balance delta a else a) <$>
    List.find (fun a => a_id a =? i) rows.
Proof.
  induction rows as [|a rows IH]; [done|]. simpl.
  assert (a_id (if cond a then add_balance delta a else a) = a_id a) as ->
    by (by destruct (cond a)).
  destruct (a_id a =? i); [done|exact IH].
Qed.

Lemma fetchrow_returning cond delta rows :
  fetchrow (returning_id_balance cond delta rows) =
  (fun a => (a_id a, a_balance a + delta)) <$> List.find cond rows.
Proof.
  unfold returning_id_balance, fetchrow.
  induction rows as [|a rows IH]; [done|]. simpl.
  destruct (cond a); [done|exact IH].
Qed.

Lemma find_checked i rows :
  List.find (fun a => (a_id a =? i) && true) rows =
  List.find (fun a => a_id a =? i) rows.
Proof.
  induction rows as [|a rows IH]; [done|]. simpl.
  rewrite andb_true_r. by rewrite IH.
Qed.

(** What a block that raised leaves behind. *)
Lemma transaction_raise {A : Type}
    (block : database -> database * outcome A) d d' e :
  transaction block d = (d', Raise e) ->
  users d' = users d /\ accounts d' = accounts d /\
  transactions d' = transactions d.
Proof.
  unfold transaction. destruct (block d) as [d1 [a|e1]]; [done|].
  intros [= <- _]. done.
Qed.

Lemma fetchrow_map {A B : Type} (f : A -> B) (l : list A) :
  fetchrow (map f l) = f <$> fetchrow l.
Proof. by destruct l. Qed.

Lemma is_empty_fetchrow {A : Type} (l : list A) :
  is_empty l = match fetchrow l with None => true | Some _ => false end.
Proof. by destruct l. Qed.

Lemma balance_of_find d i b :
  balance_of d i = Some b ->
  exists a, List.find (fun a => a_id a =? i) (accounts d) = Some a /\ a_balance a = b.
Proof.
  unfold balance_of. destruct (List.find _ _) as [a|]; [|done].
  intros [= <-]. eauto.
Qed.

Lemma Gt_0_valid amount : 0 < amount -> Gt_0 amount = [].
Proof. intros H. unfold Gt_0. by apply Z.ltb_lt in H as ->. Qed.

Lemma Gt_0_invalid amount : amount <= 0 -> Gt_0 amount = [greater_than "amount" 0].
Proof. intros H. unfold Gt_0. by apply Z.ltb_ge in H as ->. Qed.

(** *** Withdrawal, case by case *)

Lemma create_withdrawal_owned now request name d a :
  owned_by d (withdrawal_account_id request) name ->
  List.find (fun a => a_id a =? withdrawal_account_id request) (accounts d) = Some a ->
  create_withdrawal now request name d =
    let d2 :=
      insert_transaction true now (Some (withdrawal_account_id request)) None
        (withdrawal_amount request)
        (set_accounts
           (update_accounts (fun a => (a_id a =? withdrawal_account_id request) && true)
              (- withdrawal_amount request) (accounts d)) d) in
    if a_balance a + - withdrawal_amount request <? 0 then
      (rollback d d2,
       Raise (HTTPException BAD_REQUEST "Insufficient funds in this account"))
    else (d2, Return tt).
Proof.
  intros H%account_check_spec Hfind.
  unfold create_withdrawal, transaction, withdrawal_statement.
  rewrite H. rewrite fetchrow_map, is_empty_fetchrow, fetchrow_returning.
  rewrite find_checked, Hfind.
  simpl. by destruct (a_balance a + - withdrawal_amount request <? 0).
Qed.

(** *** Transfer, case by case *)

Lemma fetchrow_full_join {A B : Type} (l : list A) (r : list B) :
  fetchrow (full_join_on_true l r) =
  match fetchrow l, fetchrow r with
  | None, None => None
  | None, Some b => Some (None, Some b)
  | Some a, None => Some (Some a, None)
  | Some a, Some b => Some (Some a, Some b)
  end.
Proof. by destruct l, r. Qed.

Lemma create_transfer_cases now request name d :
  create_transfer now request name d =
    let d2 := fst (transfer_statement now (from_ request) (to request)
                     (transfer_amount request) name d) in
    match visible_source d (from_ request) name,
          List.find (fun a => a_id a =? to request) (accounts d) with
    | None, None =>
        (rollback d d2,
         Raise (HTTPException NOT_FOUND "From account and to account not found"))
    | None, Some _ =>
        (rollback d d2, Raise (HTTPException NOT_FOUND "From account not found"))
    | Some _, None =>
        (rollback d d2, Raise (HTTPException NOT_FOUND "To account not found"))
    | Some a, Some _ =>
        if a_balance a + - transfer_amount request <? 0 then
          (rollback d d2,
           Raise (HTTPException BAD_REQUEST "Insufficient funds in from account"))
        else (d2, Return tt)
    end.
Proof.
  unfold create_transfer, transaction, transfer_statement, visible_source.
  cbv zeta. unfold fst at 1 2 3 4 5.
  rewrite fetchrow_map, fetchrow_full_join, fetchrow_map, !fetchrow_returning.
  destruct (account_check d (from_ request) name).
  - rewrite find_checked.
    destruct (List.find (fun a => a_id a =? from_ request) (accounts d)) as [a|],
      (List.find (fun a => a_id a =? to request) (accounts d)) as [c|]; simpl; try done.
    by destruct (a_balance a + - transfer_amount request <? 0).
  - assert (List.find (fun a => (a_id a =? from_ request) && false) (accounts d) = None)
      as ->.
    { induction (accounts d) as [|x l IH]; [done|]. simpl. by rewrite andb_false_r. }
    by destruct (List.find (fun a => a_id a =? to request) (accounts d)).
Qed.

Lemma insert_transaction_accounts guard now f t amount d :
  accounts (insert_transaction guard now f t amount d) = accounts d.
Proof. by destruct guard. Qed.

Lemma insert_transaction_users guard now f t amount d :
  users (insert_transaction guard now f t amount d) = users d.
Proof. by destruct guard. Qed.

Lemma insert_transaction_accounts_id_seq guard now f t amount d :
  accounts_id_seq (insert_transaction guard now f t amount d) = accounts_id_seq d.
Proof. by destruct guard. Qed.

Lemma CreateTransferRequest_valid body :
  0 < transfer_amount body -> from_ body <> to body ->
  CreateTransferRequest_validate body = [].
Proof.
  intros Hpos Hne. unfold CreateTransferRequest_validate, _different_accounts.
  apply Z.eqb_neq in Hne as ->. by rewrite Gt_0_valid.
Qed.

Lemma CreateTransferRequest_valid_inv body :
  CreateTransferRequest_validate body = [] ->
  0 < transfer_amount body /\ from_ body <> to body.
Proof.
  unfold CreateTransferRequest_validate, _different_accounts, Gt_0.
  destruct (Z.eqb_spec (from_ body) (to body)); [done|].
  destruct (Z.ltb_spec 0 (transfer_amount body)); [done|done].
Qed.

Lemma find_id_eq i rows a :
  List.find (fun a => a_id a =? i) rows = Some a -> a_id a = i.
Proof. intros [_ H]%find_some. by apply Z.eqb_eq in H. Qed.

(** The balances after the two updates of a transfer between different
    accounts. *)
Lemma find_after_transfer (check : bool) from_ to amount rows i :
  from_ <> to ->
  a_balance <$>
    List.find (fun a => a_id a =? i)
      (update_accounts (fun a => a_id a =? to) amount
         (update_accounts (fun a => (a_id a =? from_) && check) (- amount) rows)) =
  (fun a => if (a_id a =? from_) && check then a_balance a - amount
            else if a_id a =? to then a_balance a + amount
            else a_balance a) <$>
    List.find (fun a => a_id a =? i) rows.
Proof.
  intros Hne. rewrite !find_update_accounts.
  destruct (List.find (fun a => a_id a =? i) rows) as [a|]; [|done]. simpl. f_equal.
  destruct (Z.eqb_spec (a_id a) from_) as [E|E]; simpl.
  - destruct check; simpl.
    + rewrite E. apply Z.eqb_neq in Hne as ->. simpl. lia.
    + by destruct (a_id a =? to).
  - by destruct (a_id a =? to).
Qed.

(** ** Money movements: rejection *)

(** What a refused movement leaves behind. *)
Lemma perform_raise_tables now m name d e :
  snd (perform now m name d) = Raise e ->
  users (fst (perform now m name d)) = users d /\
  accounts (fst (perform now m name d)) = accounts d /\
  transactions (fst (perform now m name d)) = transactions d.
Proof.
  destruct m as [body|body|body]; simpl;
    unfold post_deposit, post_withdrawal, post_transfer.
  - destruct (CreateDepositRequest_validate body); [|done].
    destruct (create_deposit now body name d) as [d' r] eqn:E. simpl.
    intros ->. exact (transaction_raise _ _ _ _ E).
  - destruct (CreateWithdrawalRequest_validate body); [|done].
    destruct (create_withdrawal now body name d) as [d' r] eqn:E. simpl.
    intros ->. exact (transaction_raise _ _ _ _ E).
  - destruct (CreateTransferRequest_validate body); [|done].
    destruct (create_transfer now body name d) as [d' r] eqn:E. simpl.
    intros ->. exact (transaction_raise _ _ _ _ E).
Qed.

(** C2. A deposit, withdrawal or transfer that is answered with a
    failure of any kind (a refused body, an account that is not found,
    insufficient funds) leaves the rows of [users], [accounts] and
    [transactions] exactly as they were before the call: no balance has
    changed and no row has been added to the log. *)
Theorem rejected_movement_leaves_tables now m name d e :
  snd (perform now m name d) = Raise e ->
  users (fst (perform now m name d)) = users d /\
  accounts (fst (perform now m name d)) = accounts d /\
  (forall account_id,
     balance_of (fst (perform now m name d)) account_id = balance_of d account_id) /\
  transactions (fst (perform now m name d)) = transactions d.
Proof.
  intros H. destruct (perform_raise_tables _ _ _ _ _ H) as (Hu & Ha & Ht).
  split; [done|]. split; [done|]. split; [|done].
  intros account_id. unfold balance_of. by rewrite Ha.
Qed.

(** C5. A deposit, withdrawal or transfer whose amount is zero or
    negative is refused by the request model: the answer is the
    validation report, which names the constraint [amount > 0], and the
    store handed back is the store received, untouched. *)
Theorem invalid_amount_rejected now m name d :
  movement_amount m <= 0 ->
  exists errors,
    perform now m name d = (d, Raise (RequestValidationError errors)) /\
    In (greater_than "amount" 0) errors.
Proof.
  intros H. destruct m as [body|body|body]; simpl in *;
    unfold post_deposit, post_withdrawal, post_transfer,
      CreateDepositRequest_validate, CreateWithdrawalRequest_validate,
      CreateTransferRequest_validate.
  - rewrite (Gt_0_invalid _ H). eexists. split; [done|]. by left.
  - rewrite (Gt_0_invalid _ H). eexists. split; [done|]. by left.
  - rewrite (Gt_0_invalid _ H). unfold _different_accounts.
    destruct (from_ body =? to body); simpl; eexists; (split; [done|]).
    + right. by left.
    + by left.
Qed.

(** ** Withdrawal *)

(** C4. A withdrawal of a positive amount from an account the caller
    owns, holding balance [b]: when [b - amount] is negative the answer
    is 400 "Insufficient funds in this account" and the tables are
    unchanged; otherwise, the case [amount = b] included, the call
    succeeds, the balance becomes [b - amount] (0 at the boundary), the
    other accounts keep theirs, and exactly one row is appended to the
    log, with [from_account_id] the account, [to_account_id] NULL and
    the amount. *)
Theorem withdrawal_semantics now body name d b :
  0 < withdrawal_amount body ->
  owned_by d (withdrawal_account_id body) name ->
  balance_of d (withdrawal_account_id body) = Some b ->
  let result := post_withdrawal now body name d in
  (b - withdrawal_amount body < 0 ->
     snd result =
       Raise (HTTPException BAD_REQUEST "Insufficient funds in this account") /\
     accounts (fst result) = accounts d /\
     transactions (fst result) = transactions d) /\
  (0 <= b - withdrawal_amount body ->
     snd result = Return tt /\
     balance_of (fst result) (withdrawal_account_id body) =
       Some (b - withdrawal_amount body) /\
     (forall other, other <> withdrawal_account_id body ->
        balance_of (fst result) other = balance_of d other) /\
     transactions (fst result) =
       transactions d ++
       [ {| t_id := transactions_id_seq d;
            t_from_account_id := Some (withdrawal_account_id body);
            t_to_account_id := None;
            t_amount := withdrawal_amount body;
            t_created_at := now |} ]) /\
  (withdrawal_amount body = b ->
     snd result = Return tt /\
     balance_of (fst result) (withdrawal_account_id body) = Some 0).
Proof.
  intros Hpos Hown Hbal result.
  destruct (balance_of_find _ _ _ Hbal) as (a & Hfind & Ha).
  assert (0 <= b - withdrawal_amount body ->
     snd result = Return tt /\
     balance_of (fst result) (withdrawal_account_id body) =
       Some (b - withdrawal_amount body) /\
     (forall other, other <> withdrawal_account_id body ->
        balance_of (fst result) other = balance_of d other) /\
     transactions (fst result) =
       transactions d ++
       [ {| t_id := transactions_id_seq d;
            t_from_account_id := Some (withdrawal_account_id body);
            t_to_account_id := None;
            t_amount := withdrawal_amount body;
            t_created_at := now |} ]) as Hok.
  { intros Hge. subst result. unfold post_withdrawal, CreateWithdrawalRequest_validate.
    rewrite (Gt_0_valid _ Hpos).
    rewrite (create_withdrawal_owned _ _ _ _ _ Hown Hfind). cbv zeta.
    assert ((a_balance a + - withdrawal_amount body <? 0) = false) as ->
      by (apply Z.ltb_ge; lia).
    simpl. split; [done|]. unfold balance_of. simpl.
    rewrite !find_update_accounts. split; [|split; [|done]].
    - rewrite Hfind. simpl.
      rewrite (find_id_eq _ _ _ Hfind), Z.eqb_refl. simpl. f_equal. lia.
    - intros other Hother. rewrite find_update_accounts.
      destruct (List.find (fun a0 => a_id a0 =? other) (accounts d)) as [x|] eqn:Ex;
        [|done].
      simpl. rewrite (find_id_eq _ _ _ Ex).
      by apply Z.eqb_neq in Hother as ->. }
  split; [|split; [exact Hok|]].
  - intros Hlt. subst result.
    unfold post_withdrawal, CreateWithdrawalRequest_validate.
    rewrite (Gt_0_valid _ Hpos).
    rewrite (create_withdrawal_owned _ _ _ _ _ Hown Hfind). cbv zeta.
    assert ((a_balance a + - withdrawal_amount body <? 0) = true) as ->
      by (apply Z.ltb_lt; lia).
    done.
  - intros Heq. destruct Hok as (H1 & H2 & _); [lia|].
    split; [done|]. rewrite H2. f_equal. lia.
Qed.

(** ** Transfer *)

Lemma transfer_statement_accounts now from_ to amount name d :
  accounts (fst (transfer_statement now from_ to amount name d)) =
  update_accounts (fun a => a_id a =? to) amount
    (update_accounts (fun a => (a_id a =? from_) && account_check d from_ name)
       (- amount) (accounts d)).
Proof.
  unfold transfer_statement. cbv zeta. unfold fst at 1.
  by rewrite insert_transaction_accounts.
Qed.

Lemma transfer_statement_transactions now from_ to amount name d a c :
  visible_source d from_ name = Some a ->
  List.find (fun a => a_id a =? to) (accounts d) = Some c ->
  transactions (fst (transfer_statement now from_ to amount name d)) =
  transactions d ++
    [ {| t_id := transactions_id_seq d; t_from_account_id := Some from_;
         t_to_account_id := Some to; t_amount := amount; t_created_at := now |} ].
Proof.
  unfold visible_source, transfer_statement. intros Hsrc Hdst. cbv zeta.
  unfold fst at 1.
  rewrite !is_empty_fetchrow, fetchrow_map, !fetchrow_returning, Hdst.
  destruct (account_check d from_ name); [|done].
  rewrite find_checked, Hsrc. done.
Qed.

(** C3. A transfer of a positive amount between two different existing
    accounts, the source owned by the caller and holding at least the
    amount, succeeds: the source balance goes down by exactly the
    amount, the destination balance goes up by exactly the amount, every
    other balance is kept, and exactly one row is appended to the log,
    carrying the request's source, destination and amount. *)
Theorem transfer_success now body name d b c :
  0 < transfer_amount body ->
  from_ body <> to body ->
  owned_by d (from_ body) name ->
  balance_of d (from_ body) = Some b ->
  balance_of d (to body) = Some c ->
  transfer_amount body <= b ->
  let result := post_transfer now body name d in
  snd result = Return tt /\
  balance_of (fst result) (from_ body) = Some (b - transfer_amount body) /\
  balance_of (fst result) (to body) = Some (c + transfer_amount body) /\
  (forall other, other <> from_ body -> other <> to body ->
     balance_of (fst result) other = balance_of d other) /\
  transactions (fst result) =
    transactions d ++
    [ {| t_id := transactions_id_seq d;
         t_from_account_id := Some (from_ body);
         t_to_account_id := Some (to body);
         t_amount := transfer_amount body;
         t_created_at := now |} ].
Proof.
  intros Hpos Hne Hown Hb Hc Hle result. subst result.
  destruct (balance_of_find _ _ _ Hb) as (a & Hfa & Ha).
  destruct (balance_of_find _ _ _ Hc) as (x & Hfx & Hx).
  pose proof Hown as Hcheck%account_check_spec.
  assert (visible_source d (from_ body) name = Some a) as Hsrc
    by (unfold visible_source; by rewrite Hcheck).
  unfold post_transfer. rewrite (CreateTransferRequest_valid _ Hpos Hne).
  rewrite create_transfer_cases. cbv zeta. rewrite Hsrc, Hfx.
  assert ((a_balance a + - transfer_amount body <? 0) = false) as ->
    by (apply Z.ltb_ge; lia).
  unfold snd at 1. unfold fst at 1 3 5 7.
  split; [done|].
  unfold balance_of. rewrite transfer_statement_accounts.
  rewrite (transfer_statement_transactions _ _ _ _ _ _ _ _ Hsrc Hfx).
  rewrite !(find_after_transfer _ _ _ _ _ _ Hne), Hfa, Hfx, Hcheck. simpl.
  rewrite (find_id_eq _ _ _ Hfa), (find_id_eq _ _ _ Hfx), !Z.eqb_refl. simpl.
  assert ((to body =? from_ body) = false) as -> by (apply Z.eqb_neq; congruence).
  simpl. subst b c.
  split; [f_equal; lia|]. split; [f_equal; lia|]. split; [|done].
  intros other H1 H2. rewrite (find_after_transfer _ _ _ _ _ _ Hne).
  destruct (List.find (fun a0 => a_id a0 =? other) (accounts d)) as [y|] eqn:Ey;
    [|done].
  simpl. rewrite (find_id_eq _ _ _ Ey).
  apply Z.eqb_neq in H1 as ->. by apply Z.eqb_neq in H2 as ->.
Qed.

Lemma visible_source_None d from_ name :
  visible_source d from_ name = None <-> ~ owned_by d from_ name.
Proof.
  unfold visible_source. rewrite <- account_check_false.
  destruct (account_check d from_ name) eqn:E; [|done].
  apply account_check_spec, owned_by_exists, find_id_Some in E as (a & ->). done.
Qed.

Lemma visible_source_Some d from_ name a :
  visible_source d from_ name = Some a ->
  owned_by d from_ name /\
  List.find (fun a => a_id a =? from_) (accounts d) = Some a.
Proof.
  unfold visible_source. destruct (account_check d from_ name) eqn:E; [|done].
  apply account_check_spec in E. done.
Qed.

Lemma find_id_None d account_id :
  List.find (fun a => a_id a =? account_id) (accounts d) = None <->
  ~ account_exists d account_id.
Proof.
  rewrite find_id_Some.
  destruct (List.find (fun a => a_id a =? account_id) (accounts d)) as [a|].
  - split; [done|]. intros []. eauto.
  - split; [|done]. intros _ (a & ?). done.
Qed.


(** ** Reading an account *)

Lemma fetchrow_filter {A : Type} (p : A -> bool) (l : list A) :
  fetchrow (List.filter p l) = List.find p l.
Proof.
  induction l as [|x l IH]; [done|]. simpl. by destruct (p x).
Qed.

Lemma NoDup_map_eq {A B : Type} (f : A -> B) (l : list A) x y :
  NoDup (map f l) -> In x l -> In y l -> f x = f y -> x = y.
Proof.
  induction l as [|z l IH]; [done|]. simpl.
  intros Hnd Hx Hy Hf. inversion Hnd as [|? ? Hz Hl]; subst.
  rewrite list_elem_of_In in Hz.
  destruct Hx as [->|Hx], Hy as [->|Hy]; auto.
  - destruct Hz. rewrite Hf. by apply in_map.
  - destruct Hz. rewrite <- Hf. by apply in_map.
Qed.

Lemma user_id_of_spec d name x :
  users_username_key d ->
  user_id_of d name = Some x <->
  exists u, In u (users d) /\ u_username u = name /\ u_id u = x.
Proof.
  intros Hkey. unfold user_id_of. rewrite fetchrow_map, fetchrow_filter. split.
  - destruct (List.find _ _) as [u|] eqn:E; [|done]. intros [= <-].
    apply find_some in E as [Hin E]. apply String.eqb_eq in E. eauto.
  - intros (u & Hin & Hname & Hid).
    destruct (List.find (fun u => String.eqb (u_username u) name) (users d))
      as [u'|] eqn:E.
    + apply find_some in E as [Hin' E]. apply String.eqb_eq in E.
      assert (u' = u) as -> by (eapply NoDup_map_eq; eauto; congruence).
      simpl. by rewrite Hid.
    + eapply find_none in E; [|exact Hin]. simpl in E.
      rewrite <- Hname, String.eqb_refl in E. done.
Qed.

Lemma get_account_row_spec d account_id name a :
  users_username_key d ->
  (a_id a =? account_id) && eq_nullable (a_user_id a) (user_id_of d name) = true <->
  a_id a = account_id /\
  exists u, In u (users d) /\ a_user_id a = u_id u /\ u_username u = name.
Proof.
  intros Hkey. rewrite andb_true_iff, Z.eqb_eq. unfold eq_nullable.
  split; intros [H1 H2]; (split; [done|]).
  - destruct (user_id_of d name) as [x|] eqn:E; [|done].
    apply (user_id_of_spec _ _ _ Hkey) in E as (u & ? & ? & ?).
    apply Z.eqb_eq in H2. exists u. split; [done|]. split; congruence.
  - destruct H2 as (u & Hin & Hid & Hname).
    assert (user_id_of d name = Some (u_id u)) as ->
      by (apply (user_id_of_spec _ _ _ Hkey); eauto).
    by apply Z.eqb_eq.
Qed.

Lemma get_account_not_found d account_id name :
  users_username_key d ->
  get_account account_id name d =
    Raise (HTTPException NOT_FOUND "Account not found") <->
  ~ owned_by d account_id name.
Proof.
  intros Hkey. unfold get_account. rewrite fetchrow_filter.
  destruct (List.find _ _) as [a|] eqn:E.
  - split; [done|]. intros []. apply find_some in E as [Hin E].
    apply (get_account_row_spec _ _ _ _ Hkey) in E as (? & u & ? & ? & ?).
    exists a, u. auto.
  - split; [|done]. intros _ (a & u & Ha & Hu & H1 & H2 & H3).
    eapply find_none in E; [|exact Ha]. simpl in E.
    assert ((a_id a =? account_id)
            && eq_nullable (a_user_id a) (user_id_of d name) = true) as E'
      by (apply (get_account_row_spec _ _ _ _ Hkey); eauto).
    congruence.
Qed.

(** C6. Reading an account fails exactly when no account has the id or
    the account is someone else's, and the failure is the same value,
    404 "Account not found", in both cases: the answer for an account of
    another user equals the answer for an id that was never issued.
    When the caller owns the account, the call returns one of its rows. *)
Theorem get_account_opacity account_id name d :
  users_username_key d ->
  (get_account account_id name d =
     Raise (HTTPException NOT_FOUND "Account not found") <->
   ~ account_exists d account_id \/
   (account_exists d account_id /\ ~ owned_by d account_id name)) /\
  (forall e, get_account account_id name d = Raise e ->
     e = HTTPException NOT_FOUND "Account not found") /\
  (forall missing,
     account_exists d account_id -> ~ owned_by d account_id name ->
     ~ account_exists d missing ->
     get_account account_id name d = get_account missing name d) /\
  (owned_by d account_id name ->
     exists a, In a (accounts d) /\ a_id a = account_id /\
       get_account account_id name d =
         Return {| id := a_id a; balance := a_balance a |}).
Proof.
  intros Hkey. split; [|split; [|split]].
  - rewrite (get_account_not_found _ _ _ Hkey). split.
    + intros Hno. destruct (find_id_Some d account_id) as [_ H].
      destruct (List.find (fun a => a_id a =? account_id) (accounts d)) eqn:E.
      * right. split; [|done]. apply H. eauto.
      * left. by apply find_id_None.
    + intros [Hno|[_ Hno]]; [|done]. intros Hown. by apply owned_by_exists in Hown.
  - intros e. unfold get_account. destruct (fetchrow _); [done|]. by intros [= <-].
  - intros missing _ Hno Hmiss.
    rewrite (proj2 (get_account_not_found _ _ _ Hkey) Hno).
    symmetry. apply (get_account_not_found _ _ _ Hkey).
    intros Hown. by apply owned_by_exists in Hown.
  - intros Hown. unfold get_account. rewrite fetchrow_filter.
    destruct (List.find _ _) as [a|] eqn:E.
    + apply find_some in E as [Hin E]. apply andb_true_iff in E as [E _].
      apply Z.eqb_eq in E. eauto.
    + destruct (proj1 (get_account_not_found d account_id name Hkey)); [|done].
      unfold get_account. by rewrite fetchrow_filter, E.
Qed.

(** ** Listing the transactions of an account *)

Lemma insert_desc_perm {A : Type} (key : A -> Z) x l :
  Permutation (insert_desc key x l) (x :: l).
Proof.
  induction l as [|y l IH]; [done|]. simpl.
  destruct (key x <? key y); [|done].
  rewrite IH. apply perm_swap.
Qed.

Lemma order_by_desc_perm {A : Type} (key : A -> Z) l :
  Permutation (order_by_desc key l) l.
Proof.
  induction l as [|x l IH]; [done|]. simpl.
  rewrite insert_desc_perm. by constructor.
Qed.

Lemma insert_desc_sorted {A : Type} (key : A -> Z) x l :
  Sorted (fun a b => key b <= key a) l ->
  Sorted (fun a b => key b <= key a) (insert_desc key x l).
Proof.
  induction 1 as [|y l Hs IH Hhd]; simpl.
  - repeat constructor.
  - destruct (Z.ltb_spec (key x) (key y)).
    + constructor; [exact IH|].
      destruct l as [|z l]; simpl.
      * constructor. lia.
      * inversion Hhd; subst. destruct (key x <? key z); constructor; lia.
    + constructor; [by constructor|]. constructor. lia.
Qed.

Lemma order_by_desc_sorted {A : Type} (key : A -> Z) l :
  Sorted (fun a b => key b <= key a) (order_by_desc key l).
Proof.
  induction l as [|x l IH]; simpl; [constructor|].
  by apply insert_desc_sorted.
Qed.

Lemma Sorted_map {A B : Type} (f : A -> B) (R : B -> B -> Prop) l :
  Sorted (fun a b => R (f a) (f b)) l -> Sorted R (map f l).
Proof.
  induction 1 as [|x l Hs IH Hhd]; simpl; constructor; [exact IH|].
  destruct Hhd; simpl; by constructor.
Qed.

Lemma filter_checked {A : Type} (p : A -> bool) (check : bool) l :
  List.filter (fun x => p x && check) l = if check then List.filter p l else [].
Proof.
  destruct check.
  - apply filter_ext. intros x. by rewrite andb_true_r.
  - induction l as [|x l IH]; [done|]. simpl. by rewrite andb_false_r.
Qed.

Lemma get_transactions_by_account_owned account_id name d :
  owned_by d account_id name ->
  get_transactions_by_account account_id name d =
    Return (map select_transaction
              (order_by_desc t_created_at
                 (List.filter (involves account_id) (transactions d)))).
Proof.
  intros Hown. pose proof Hown as Hcheck%account_check_spec.
  unfold get_transactions_by_account. cbv zeta.
  rewrite filter_checked, Hcheck.
  destruct (is_empty _); [|done].
  rewrite fetchrow_filter.
  destruct (List.find _ (accounts d)) eqn:E; [done|].
  destruct Hown as (a & u & Ha & Hu & H1 & H2 & H3).
  eapply find_none in E; [|exact Ha]. simpl in E.
  assert (joined_with_username d name a = true) as Hj
    by (apply joined_with_username_spec; eauto).
  rewrite Hj, andb_true_r in E. lia.
Qed.

(** The rows a [WHERE] clause keeps and the rows it drops make up the
    table. *)
Lemma filter_partition {A : Type} (p : A -> bool) (l : list A) :
  Permutation (List.filter p l ++ List.filter (fun x => negb (p x)) l) l.
Proof.
  induction l as [|x l IH]; [done|]. simpl.
  destruct (p x); simpl.
  - by constructor.
  - rewrite <- Permutation_middle. by constructor.
Qed.

Lemma select_transaction_shows rows :
  Forall2 shows (map select_transaction rows) rows.
Proof.
  induction rows as [|row rows IH]; simpl; constructor; [|exact IH].
  by repeat split.
Qed.

(** C8. Listing the transactions of an account.  When the caller owns
    the account the call returns one entry for each logged transaction
    that has the account as source or destination, and for no other:
    the log splits into the listed rows, each with the account as an
    endpoint, and the remaining rows, none with it, and the entries of
    the result carry, in order, the source, destination, amount and
    time of the listed rows.  The entries come newest first; with no
    such transaction the result is the empty list and not an error.
    When the account does not exist or is not the caller's, the answer
    is 404 "Account not found". *)
Theorem list_for_account account_id name d :
  (owned_by d account_id name ->
     exists result rows others,
       get_transactions_by_account account_id name d = Return result /\
       Forall2 shows result rows /\
       Permutation (rows ++ others) (transactions d) /\
       Forall (endpoint account_id) rows /\
       Forall (fun row => ~ endpoint account_id row) others /\
       newest_first result /\
       ((forall row, In row (transactions d) -> ~ endpoint account_id row) ->
          result = [])) /\
  (~ owned_by d account_id name ->
     get_transactions_by_account account_id name d =
       Raise (HTTPException NOT_FOUND "Account not found")).
Proof.
  split.
  - intros Hown.
    exists (map select_transaction
              (order_by_desc t_created_at
                 (List.filter (involves account_id) (transactions d)))),
           (order_by_desc t_created_at
              (List.filter (involves account_id) (transactions d))),
           (List.filter (fun row => negb (involves account_id row)) (transactions d)).
    pose proof (order_by_desc_perm t_created_at
                  (List.filter (involves account_id) (transactions d))) as Hperm.
    split; [by apply get_transactions_by_account_owned|].
    split; [apply select_transaction_shows|].
    split; [|split; [|split; [|split]]].
    + rewrite Hperm. apply filter_partition.
    + apply List.Forall_forall. intros row Hin.
      apply (Permutation_in _ Hperm) in Hin.
      apply filter_In in Hin as [_ Hinv]. by apply involves_spec.
    + apply List.Forall_forall. intros row Hin.
      apply filter_In in Hin as [_ Hinv]. rewrite <- involves_spec.
      by destruct (involves account_id row).
    + apply Sorted_map. apply (order_by_desc_sorted t_created_at).
    + intros Hnone.
      assert (List.filter (involves account_id) (transactions d) = []) as ->; [|done].
      destruct (List.filter _ _) as [|row l] eqn:E; [done|].
      assert (In row (List.filter (involves account_id) (transactions d))) as Hin
        by (rewrite E; by left).
      apply filter_In in Hin as [Hin Hinv]. apply involves_spec in Hinv.
      by destruct (Hnone row Hin).
  - intros Hno%account_check_false. unfold get_transactions_by_account. cbv zeta.
    rewrite filter_checked, Hno. simpl. rewrite fetchrow_filter.
    destruct (List.find _ (accounts d)) as [a|] eqn:E; [|done].
    apply find_some in E as [Hin E].
    assert (account_check d account_id name = true); [|congruence].
    unfold account_check. apply existsb_exists. eauto.
Qed.

(** ** Invariants of the store *)

Lemma create_withdrawal_cases now request name d :
  create_withdrawal now request name d =
    let d2 := fst (withdrawal_statement now (withdrawal_account_id request)
                     (withdrawal_amount request) name d) in
    match visible_source d (withdrawal_account_id request) name with
    | None => (rollback d d2, Raise (HTTPException NOT_FOUND "Account not found"))
    | Some a =>
        if a_balance a + - withdrawal_amount request <? 0 then
          (rollback d d2,
           Raise (HTTPException BAD_REQUEST "Insufficient funds in this account"))
        else (d2, Return tt)
    end.
Proof.
  unfold create_withdrawal, transaction, withdrawal_statement, visible_source.
  cbv zeta. unfold fst at 1 2 3.
  rewrite fetchrow_map, fetchrow_returning.
  destruct (account_check d (withdrawal_account_id request) name).
  - rewrite find_checked.
    destruct (List.find _ (accounts d)) as [a|]; simpl; [|done].
    by destruct (a_balance a + - withdrawal_amount request <? 0).
  - assert (List.find (fun a => (a_id a =? withdrawal_account_id request) && false)
              (accounts d) = None) as ->; [|done].
    induction (accounts d) as [|x l IH]; [done|]. simpl. by rewrite andb_false_r.
Qed.

Lemma create_deposit_cases now request name d :
  create_deposit now request name d =
    let d2 := fst (deposit_statement now (deposit_account_id request)
                     (deposit_amount request) name d) in
    match visible_source d (deposit_account_id request) name with
    | None => (rollback d d2, Raise (HTTPException NOT_FOUND "Account not found"))
    | Some a => (d2, Return tt)
    end.
Proof.
  unfold create_deposit, transaction, deposit_statement, visible_source.
  cbv zeta. unfold fst at 1 2.
  rewrite fetchrow_map, fetchrow_returning.
  destruct (account_check d (deposit_account_id request) name).
  - rewrite find_checked. by destruct (List.find _ (accounts d)) as [a|].
  - assert (List.find (fun a => (a_id a =? deposit_account_id request) && false)
              (accounts d) = None) as ->; [|done].
    induction (accounts d) as [|x l IH]; [done|]. simpl. by rewrite andb_false_r.
Qed.

Lemma withdrawal_statement_accounts now account_id amount name d :
  accounts (fst (withdrawal_statement now account_id amount name d)) =
  update_accounts (fun a => (a_id a =? account_id) && account_check d account_id name)
    (- amount) (accounts d).
Proof.
  unfold withdrawal_statement. cbv zeta. unfold fst at 1.
  by rewrite insert_transaction_accounts.
Qed.

Lemma deposit_statement_accounts now account_id amount name d :
  accounts (fst (deposit_statement now account_id amount name d)) =
  update_accounts (fun a => (a_id a =? account_id) && account_check d account_id name)
    amount (accounts d).
Proof.
  unfold deposit_statement. cbv zeta. unfold fst at 1.
  by rewrite insert_transaction_accounts.
Qed.

Lemma deposit_statement_frame now account_id amount name d :
  users (fst (deposit_statement now account_id amount name d)) = users d /\
  accounts_id_seq (fst (deposit_statement now account_id amount name d)) =
    accounts_id_seq d.
Proof.
  unfold deposit_statement. cbv zeta. unfold fst.
  by rewrite insert_transaction_users, insert_transaction_accounts_id_seq.
Qed.

Lemma withdrawal_statement_frame now account_id amount name d :
  users (fst (withdrawal_statement now account_id amount name d)) = users d /\
  accounts_id_seq (fst (withdrawal_statement now account_id amount name d)) =
    accounts_id_seq d.
Proof.
  unfold withdrawal_statement. cbv zeta. unfold fst.
  by rewrite insert_transaction_users, insert_transaction_accounts_id_seq.
Qed.

Lemma transfer_statement_frame now from_ to amount name d :
  users (fst (transfer_statement now from_ to amount name d)) = users d /\
  accounts_id_seq (fst (transfer_statement now from_ to amount name d)) =
    accounts_id_seq d.
Proof.
  unfold transfer_statement. cbv zeta. unfold fst.
  by rewrite insert_transaction_users, insert_transaction_accounts_id_seq.
Qed.

(** No money movement touches [users] or the sequence of [accounts]. *)
Lemma perform_frame now m name d :
  users (fst (perform now m name d)) = users d /\
  accounts_id_seq (fst (perform now m name d)) = accounts_id_seq d.
Proof.
  destruct m as [body|body|body]; simpl;
    unfold post_deposit, post_withdrawal, post_transfer.
  - destruct (CreateDepositRequest_validate body); [|done].
    rewrite create_deposit_cases. cbv zeta.
    destruct (deposit_statement_frame now (deposit_account_id body)
                (deposit_amount body) name d).
    by destruct (visible_source _ _ _).
  - destruct (CreateWithdrawalRequest_validate body); [|done].
    rewrite create_withdrawal_cases. cbv zeta.
    destruct (withdrawal_statement_frame now (withdrawal_account_id body)
                (withdrawal_amount body) name d).
    destruct (visible_source _ _ _) as [a|];
      [destruct (a_balance a + - withdrawal_amount body <? 0)|]; done.
  - destruct (CreateTransferRequest_validate body); [|done].
    rewrite create_transfer_cases. cbv zeta.
    destruct (transfer_statement_frame now (from_ body) (to body)
                (transfer_amount body) name d).
    destruct (visible_source _ _ _) as [a|],
      (List.find (fun a => a_id a =? to body) (accounts d));
      [destruct (a_balance a + - transfer_amount body <? 0)| | |]; done.
Qed.

Lemma accounts_pkey_same_ids d d' :
  map a_id (accounts d') = map a_id (accounts d) ->
  accounts_id_seq d' = accounts_id_seq d ->
  accounts_pkey d -> accounts_pkey d'.
Proof.
  intros Hids Hseq [Hnd Hlt]. split; [by rewrite Hids|].
  intros a Hin. apply (in_map a_id) in Hin. rewrite Hids in Hin.
  apply in_map_iff in Hin as (a0 & <- & Hin0). rewrite Hseq. by apply Hlt.
Qed.

Lemma update_accounts_non_negative cond delta rows :
  (forall a, In a rows -> 0 <= a_balance a) ->
  (forall a, In a rows -> cond a = true -> 0 <= a_balance a + delta) ->
  forall a, In a (update_accounts cond delta rows) -> 0 <= a_balance a.
Proof.
  intros Hold Hnew a' Hin. unfold update_accounts in Hin.
  apply in_map_iff in Hin as (a & <- & Hin).
  destruct (cond a) eqn:E; [by apply Hnew|by apply Hold].
Qed.

(** Under the primary key, the row an update keyed on [id] touches is
    the row found with that id. *)
Lemma keyed_row_is_found d account_id (check : bool) a a0 :
  accounts_pkey d ->
  List.find (fun a => a_id a =? account_id) (accounts d) = Some a0 ->
  In a (accounts d) ->
  (a_id a =? account_id) && check = true ->
  a = a0.
Proof.
  intros [Hnd _] Hfind Hin Hcond. apply andb_true_iff in Hcond as [Hid _].
  apply Z.eqb_eq in Hid. apply find_some in Hfind as [Hin0 Hid0].
  apply Z.eqb_eq in Hid0.
  eapply NoDup_map_eq; eauto. congruence.
Qed.

(** Every money movement, accepted or refused, keeps the primary key of
    [accounts] and leaves every balance non-negative. *)
Lemma perform_preserves now m name d :
  accounts_pkey d -> balances_non_negative d ->
  accounts_pkey (fst (perform now m name d)) /\
  balances_non_negative (fst (perform now m name d)).
Proof.
  intros Hkey Hbal.
  destruct (perform_frame now m name d) as [_ Hseq].
  destruct (snd (perform now m name d)) as [[]|e] eqn:Hout.
  2:{ destruct (perform_raise_tables _ _ _ _ _ Hout) as (_ & Hacc & _).
      split.
      - apply (accounts_pkey_same_ids d); [by rewrite Hacc|done|done].
      - unfold balances_non_negative. by rewrite Hacc. }
  destruct m as [body|body|body]; cbn [perform] in *;
    unfold post_deposit, post_withdrawal, post_transfer in *.
  - unfold CreateDepositRequest_validate, Gt_0 in *.
    destruct (Z.ltb_spec 0 (deposit_amount body)) as [Hpos|]; [|done].
    rewrite create_deposit_cases in *. cbv zeta in *.
    destruct (visible_source _ _ _) as [a0|]; [|done]. cbn [fst snd] in *.
    split.
    + apply (accounts_pkey_same_ids d); [|done|done].
      by rewrite deposit_statement_accounts, update_accounts_ids.
    + unfold balances_non_negative. rewrite deposit_statement_accounts.
      apply update_accounts_non_negative; [done|].
      intros a Hin _. specialize (Hbal a Hin). lia.
  - unfold CreateWithdrawalRequest_validate, Gt_0 in *.
    destruct (Z.ltb_spec 0 (withdrawal_amount body)) as [Hpos|]; [|done].
    rewrite create_withdrawal_cases in *. cbv zeta in *.
    destruct (visible_source _ _ _) as [a0|] eqn:Hsrc; [|done].
    destruct (Z.ltb_spec (a_balance a0 + - withdrawal_amount body) 0); [done|].
    cbn [fst snd] in *. apply visible_source_Some in Hsrc as [_ Hfind].
    split.
    + apply (accounts_pkey_same_ids d); [|done|done].
      by rewrite withdrawal_statement_accounts, update_accounts_ids.
    + unfold balances_non_negative. rewrite withdrawal_statement_accounts.
      apply update_accounts_non_negative; [done|].
      intros a Hin Hcond.
      by rewrite (keyed_row_is_found _ _ _ _ _ Hkey Hfind Hin Hcond).
  - destruct (CreateTransferRequest_validate body) eqn:Hvalid; [|done].
    apply CreateTransferRequest_valid_inv in Hvalid as [Hpos Hne].
    rewrite create_transfer_cases in *. cbv zeta in *.
    destruct (visible_source _ _ _) as [a0|] eqn:Hsrc;
      destruct (List.find (fun a => a_id a =? to body) (accounts d));
      try done.
    destruct (Z.ltb_spec (a_balance a0 + - transfer_amount body) 0); [done|].
    cbn [fst snd] in *. apply visible_source_Some in Hsrc as [_ Hfind].
    split.
    + apply (accounts_pkey_same_ids d); [|done|done].
      by rewrite transfer_statement_accounts, !update_accounts_ids.
    + unfold balances_non_negative. rewrite transfer_statement_accounts.
      apply update_accounts_non_negative.
      * apply update_accounts_non_negative; [done|].
        intros x Hin Hcond.
        by rewrite (keyed_row_is_found _ _ _ _ _ Hkey Hfind Hin Hcond).
      * intros x Hin _.
        assert (0 <= a_balance x); [|lia]. revert x Hin.
        apply update_accounts_non_negative; [done|].
        intros x Hin Hcond.
        by rewrite (keyed_row_is_found _ _ _ _ _ Hkey Hfind Hin Hcond).
Qed.

(** ** Opening an account *)

Lemma insert_accounts_spec now owners next :
  snd (insert_accounts now owners next) = next + Z.of_nat (length owners) /\
  (forall a, In a (fst (insert_accounts now owners next)) ->
     next <= a_id a < next + Z.of_nat (length owners) /\ a_balance a = 0) /\
  NoDup (map a_id (fst (insert_accounts now owners next))) /\
  map a_user_id (fst (insert_accounts now owners next)) = owners.
Proof.
  revert next. induction owners as [|owner owners IH]; intros next.
  - simpl. split; [lia|]. split; [done|]. split; [constructor|done].
  - cbn [insert_accounts]. specialize (IH (next + 1)).
    destruct (insert_accounts now owners (next + 1)) as [rows next'].
    cbn [fst snd] in *. destruct IH as (Hnext & Hrows & Hnd & Howners).
    cbn [length]. rewrite Nat2Z.inj_succ. split; [lia|]. split; [|split].
    + intros a [<-|Hin]; simpl; [lia|].
      destruct (Hrows a Hin). lia.
    + simpl. constructor; [|done]. rewrite list_elem_of_In.
      intros Hin. apply in_map_iff in Hin as (a & Hid & Hin).
      destruct (Hrows a Hin). lia.
    + simpl. by rewrite Howners.
Qed.

Lemma create_account_frame now name d :
  users (fst (create_account now name d)) = users d /\
  transactions (fst (create_account now name d)) = transactions d.
Proof.
  unfold create_account. destruct (insert_accounts _ _ _) as [rows next].
  by destruct (fetchrow rows).
Qed.

Lemma create_account_preserves now name d :
  accounts_pkey d -> balances_non_negative d ->
  accounts_pkey (fst (create_account now name d)) /\
  balances_non_negative (fst (create_account now name d)).
Proof.
  intros [Hnd Hlt] Hbal. unfold create_account.
  pose proof (insert_accounts_spec now
    (map u_id (List.filter (fun u => String.eqb (u_username u) name) (users d)))
    (accounts_id_seq d)) as (Hnext & Hrows & Hnd' & _).
  destruct (insert_accounts _ _ _) as [rows next]. cbn [fst snd] in *.
  assert (accounts_pkey
            {| users := users d; accounts := accounts d ++ rows;
               transactions := transactions d; users_id_seq := users_id_seq d;
               accounts_id_seq := next;
               transactions_id_seq := transactions_id_seq d |} /\
          balances_non_negative
            {| users := users d; accounts := accounts d ++ rows;
               transactions := transactions d; users_id_seq := users_id_seq d;
               accounts_id_seq := next;
               transactions_id_seq := transactions_id_seq d |}) as H.
  { split; [split|]; simpl.
    - rewrite map_app. apply NoDup_app. split; [done|]. split; [|done].
      intros i Hi Hi'. rewrite list_elem_of_In in Hi, Hi'.
      apply in_map_iff in Hi as (a & <- & Ha).
      apply in_map_iff in Hi' as (a' & Heq & Ha').
      specialize (Hlt a Ha). destruct (Hrows a' Ha'). lia.
    - intros a Hin. apply in_app_iff in Hin as [Hin|Hin].
      + specialize (Hlt a Hin). lia.
      + destruct (Hrows a Hin). lia.
    - intros a Hin. simpl in Hin. apply in_app_iff in Hin as [Hin|Hin].
      + by apply Hbal.
      + destruct (Hrows a Hin). lia. }
  by destruct (fetchrow rows).
Qed.

(** When a user row carries the name, the INSERT ... SELECT of
    [create_account] returns a row. *)
Lemma create_account_returns now name d :
  identity_exists d name ->
  exists response, snd (create_account now name d) = Return response /\
                   balance response = 0.
Proof.
  intros (u & Hin & Hname). unfold create_account.
  pose proof (insert_accounts_spec now
    (map u_id (List.filter (fun u => String.eqb (u_username u) name) (users d)))
    (accounts_id_seq d)) as (_ & Hrows & _ & Howners).
  destruct (insert_accounts _ _ _) as [rows next]. cbn [fst snd] in *.
  destruct rows as [|row rows]; simpl.
  - assert (In u (List.filter (fun u => String.eqb (u_username u) name) (users d)))
      as Hu by (apply filter_In; split; [done|]; by apply String.eqb_eq).
    apply (in_map u_id) in Hu. by rewrite <- Howners in Hu.
  - eexists. split; [done|]. simpl. by apply Hrows; left.
Qed.

(** ** Registration *)

Lemma existsb_username d name :
  existsb (fun u => String.eqb (u_username u) name) (users d) = true <->
  identity_exists d name.
Proof.
  unfold identity_exists. rewrite existsb_exists.
  split; intros (u & Hin & H); exists u; (split; [done|]); by apply String.eqb_eq.
Qed.

Lemma insert_user_users name d :
  users (fst (insert_user name d)) =
  if existsb (fun u => String.eqb (u_username u) name) (users d)
  then users d
  else users d ++ [ {| u_id := users_id_seq d; u_username := name |} ].
Proof. unfold insert_user. by destruct (existsb _ _). Qed.

Lemma insert_user_frame name d :
  accounts (fst (insert_user name d)) = accounts d /\
  transactions (fst (insert_user name d)) = transactions d /\
  accounts_id_seq (fst (insert_user name d)) = accounts_id_seq d.
Proof. unfold insert_user. by destruct (existsb _ _). Qed.

Lemma insert_user_identity name d :
  identity_exists (fst (insert_user name d)) name.
Proof.
  unfold identity_exists. rewrite insert_user_users.
  destruct (existsb _ _) eqn:E.
  - by apply existsb_username.
  - eexists. split; [apply in_app_iff; right; by left|done].
Qed.

Lemma insert_user_monotone name d other :
  identity_exists d other -> identity_exists (fst (insert_user name d)) other.
Proof.
  intros (u & Hin & H). exists u. split; [|done]. rewrite insert_user_users.
  destruct (existsb _ _); [done|]. apply in_app_iff. by left.
Qed.

Lemma insert_user_key name d :
  users_username_key d -> users_username_key (fst (insert_user name d)).
Proof.
  unfold users_username_key. rewrite insert_user_users.
  destruct (existsb _ _) eqn:E; [done|]. intros Hnd.
  rewrite map_app. apply NoDup_app. split; [done|]. split; [|repeat constructor].
  - intros n Hn Hn'. rewrite list_elem_of_In in Hn, Hn'.
    destruct Hn' as [<-|[]]. simpl in Hn.
    apply in_map_iff in Hn as (u & Hname & Hin).
    assert (existsb (fun u => String.eqb (u_username u) name) (users d) = true)
      by (apply existsb_username; exists u; auto).
    congruence.
  - rewrite list_elem_of_In. by intros [].
Qed.

Section Process.

Variable hashpw : string -> string -> string.
Variable checkpw : string -> string -> bool.

Lemma register_cases salt request s :
  register hashpw salt request s =
    let d' := fst (insert_user (username request) (db s)) in
    match _users s !! username request with
    | Some _ =>
        ({| db := d'; _users := _users s |},
         Raise (HTTPException BAD_REQUEST "Username already exists"))
    | None =>
        ({| db := d';
            _users := <[username request :=
                          hash_password hashpw salt (password request)]> (_users s) |},
         Return tt)
    end.
Proof.
  unfold register, register_user, insert_user.
  destruct (existsb _ _); simpl; by destruct (_users s !! username request).
Qed.

Lemma verify_credentials_registered credentials s name :
  verify_credentials checkpw credentials s = Return name ->
  name = credentials_username credentials /\ is_Some (_users s !! name).
Proof.
  unfold verify_credentials.
  destruct (_users s !! credentials_username credentials) as [hashed|] eqn:E;
    [|done].
  destruct (verify_password _ _ _); [|done].
  intros [= <-]. split; [done|]. by rewrite E.
Qed.

Lemma register_db salt request s :
  db (fst (register hashpw salt request s)) =
  fst (insert_user (username request) (db s)).
Proof.
  rewrite register_cases. cbv zeta. by destruct (_users s !! username request).
Qed.

(** What the store of the next state is made of. *)
Lemma serve_db e s :
  db (serve hashpw checkpw e s) = db s \/
  (exists name, db (serve hashpw checkpw e s) = fst (insert_user name (db s))) \/
  (exists now name,
     db (serve hashpw checkpw e s) = fst (create_account now name (db s))) \/
  (exists now m name, db (serve hashpw checkpw e s) = fst (perform now m name (db s))).
Proof.
  destruct e; cbn [serve]; unfold with_auth.
  - by left.
  - right; left. eexists. apply register_db.
  - destruct (authenticate _ _ _) as [name|]; [|by left].
    right; right; left. by exists now, name.
  - destruct (authenticate _ _ _) as [name|]; [|by left].
    right; right; right. by exists now, (Deposit body), name.
  - destruct (authenticate _ _ _) as [name|]; [|by left].
    right; right; right. by exists now, (Withdrawal body), name.
  - destruct (authenticate _ _ _) as [name|]; [|by left].
    right; right; right. by exists now, (Transfer body), name.
Qed.

Lemma serve_ledger_sound e s :
  ledger_sound (db s) -> ledger_sound (db (serve hashpw checkpw e s)).
Proof.
  intros [Hkey Hbal].
  destruct (serve_db e s) as [->|[(name & ->)|[(now & name & ->)|(now & m & name & ->)]]].
  - done.
  - destruct (insert_user_frame name (db s)) as (Hacc & _ & Hseq). split.
    + apply (accounts_pkey_same_ids (db s)); [by rewrite Hacc|done|done].
    + unfold balances_non_negative. by rewrite Hacc.
  - by apply create_account_preserves.
  - by apply perform_preserves.
Qed.

Lemma serve_users_username_key e s :
  users_username_key (db s) -> users_username_key (db (serve hashpw checkpw e s)).
Proof.
  intros Hkey.
  destruct (serve_db e s) as [->|[(name & ->)|[(now & name & ->)|(now & m & name & ->)]]].
  - done.
  - by apply insert_user_key.
  - unfold users_username_key.
    by destruct (create_account_frame now name (db s)) as [-> _].
  - unfold users_username_key.
    by destruct (perform_frame now m name (db s)) as [-> _].
Qed.

Lemma serve_identity_exists e s name :
  identity_exists (db s) name -> identity_exists (db (serve hashpw checkpw e s)) name.
Proof.
  intros Hid.
  destruct (serve_db e s) as [->|[(n & ->)|[(now & n & ->)|(now & m & n & ->)]]].
  - done.
  - by apply insert_user_monotone.
  - unfold identity_exists.
    by destruct (create_account_frame now n (db s)) as [-> _].
  - unfold identity_exists.
    by destruct (perform_frame now m n (db s)) as [-> _].
Qed.

(** The credential map after one event: emptied by a start of the
    process, extended by an accepted registration, otherwise kept. *)
Lemma serve_credentials_backed e s :
  credentials_backed s -> credentials_backed (serve hashpw checkpw e s).
Proof.
  intros Hback name Hsome.
  destruct e; cbn [serve] in Hsome;
    try (unfold with_auth in Hsome;
         destruct (authenticate _ _ _); cbn [_users] in Hsome;
         by apply serve_identity_exists, Hback).
  - simpl in Hsome. destruct Hsome as [x Hx]. by rewrite lookup_empty in Hx.
  - cbn [serve]. rewrite register_db.
    rewrite register_cases in Hsome. cbv zeta in Hsome.
    destruct (_users s !! username request) eqn:E; cbn [fst _users] in Hsome.
    + by apply insert_user_monotone, Hback.
    + destruct (decide (name = username request)) as [->|Hne].
      * apply insert_user_identity.
      * rewrite lookup_insert_ne in Hsome by done.
        by apply insert_user_monotone, Hback.
Qed.

(** A property kept by every event is kept along every history. *)
Lemma run_invariant (P : state -> Prop) history s :
  (forall e s, P s -> P (serve hashpw checkpw e s)) ->
  P s -> P (run hashpw checkpw history s).
Proof.
  intros Hstep. revert s.
  induction history as [|e history IH]; intros s Hs; [done|].
  simpl. by apply IH, Hstep.
Qed.

Lemma run_ledger_sound history s :
  ledger_sound (db s) -> ledger_sound (db (run hashpw checkpw history s)).
Proof.
  apply (run_invariant (fun s => ledger_sound (db s))).
  intros e s'. apply serve_ledger_sound.
Qed.

Lemma run_users_username_key history s :
  users_username_key (db s) ->
  users_username_key (db (run hashpw checkpw history s)).
Proof.
  apply (run_invariant (fun s => users_username_key (db s))).
  intros e s'. apply serve_users_username_key.
Qed.

Lemma run_credentials_backed history s :
  credentials_backed s -> credentials_backed (run hashpw checkpw history s).
Proof. apply run_invariant. intros e s'. apply serve_credentials_backed. Qed.

Lemma lifespan_credentials_backed s : credentials_backed (lifespan s).
Proof. intros name [x Hx]. simpl in Hx. by rewrite lookup_empty in Hx. Qed.

Lemma empty_database_sound : ledger_sound empty_database.
Proof. split; [split; [constructor|by intros a []]|by intros a []]. Qed.

(** ** Non-negative balances *)

Lemma overdrawing_movement_raises now m name d source b :
  movement_source m = Some source ->
  balance_of d source = Some b ->
  b < movement_amount m ->
  exists e, snd (perform now m name d) = Raise e.
Proof.
  intros Hsrc Hb Hlt. apply balance_of_find in Hb as (a & Hfind & Ha).
  destruct m as [body|body|body]; [done| |]; injection Hsrc as <-;
    cbn [perform movement_amount] in *;
    unfold post_withdrawal, post_transfer.
  - destruct (CreateWithdrawalRequest_validate body); [|eauto].
    rewrite create_withdrawal_cases. cbv zeta.
    destruct (visible_source _ _ _) as [a'|] eqn:E; [|eauto].
    apply visible_source_Some in E as [_ E]. rewrite Hfind in E.
    injection E as <-.
    assert ((a_balance a + - withdrawal_amount body <? 0) = true) as ->
      by (apply Z.ltb_lt; lia).
    eauto.
  - destruct (CreateTransferRequest_validate body); [|eauto].
    rewrite create_transfer_cases. cbv zeta.
    destruct (visible_source _ _ _) as [a'|] eqn:E;
      destruct (List.find (fun a => a_id a =? to body) (accounts d)); eauto.
    apply visible_source_Some in E as [_ E]. rewrite Hfind in E.
    injection E as <-.
    assert ((a_balance a + - transfer_amount body <? 0) = true) as ->
      by (apply Z.ltb_lt; lia).
    eauto.
Qed.

(** C1. After any history of requests (registrations, restarts, account
    openings, deposits, withdrawals, transfers; accepted or refused), no
    account has a negative balance: from the empty store, and from any
    store in which the account ids are distinct and below their
    sequence and the balances are non-negative.  And in any store, a
    withdrawal or a transfer whose amount exceeds the balance of its
    source account is refused, and the [accounts] table, so the balance
    of the source too, is left as it was. *)
Theorem non_negativity :
  (forall history a,
     In a (accounts (db (run hashpw checkpw history initial_state))) ->
     0 <= a_balance a) /\
  (forall history s a,
     accounts_pkey (db s) -> balances_non_negative (db s) ->
     In a (accounts (db (run hashpw checkpw history s))) ->
     0 <= a_balance a) /\
  (forall now m name d source b,
     movement_source m = Some source ->
     balance_of d source = Some b ->
     b < movement_amount m ->
     (exists e, snd (perform now m name d) = Raise e) /\
     accounts (fst (perform now m name d)) = accounts d /\
     balance_of (fst (perform now m name d)) source = Some b).
Proof.
  split; [|split].
  - intros history.
    exact (proj2 (run_ledger_sound history initial_state empty_database_sound)).
  - intros history s a Hkey Hbal.
    exact (proj2 (run_ledger_sound history s (conj Hkey Hbal)) a).
  - intros now m name d source b Hsrc Hb Hlt.
    destruct (overdrawing_movement_raises now m name d source b Hsrc Hb Hlt)
      as [e He].
    destruct (perform_raise_tables _ _ _ _ _ He) as (_ & Hacc & _).
    split; [eauto|]. split; [done|]. unfold balance_of in *. by rewrite Hacc.
Qed.

(** ** Registration and the credential map *)

(** C9, as the code has it.  Whether a registration is refused is
    decided by the in-memory credential map, in every state in which
    the names of the map have their row in [users]: a name that is in
    the map is refused with 400 "Username already exists" and neither
    the map nor [users] changes; a name that is not in the map is
    accepted and recorded in the map, and afterwards [users] has a row
    with that name: the row already there when the name had one (the
    unique violation is swallowed), a new row otherwise. *)
Theorem register_uniqueness salt request s :
  credentials_backed s ->
  let result := register hashpw salt request s in
  (is_Some (_users s !! username request) ->
     snd result = Raise (HTTPException BAD_REQUEST "Username already exists") /\
     _users (fst result) = _users s /\
     users (db (fst result)) = users (db s)) /\
  (_users s !! username request = None ->
     snd result = Return tt /\
     _users (fst result) !! username request =
       Some (hash_password hashpw salt (password request)) /\
     (forall other, other <> username request ->
        _users (fst result) !! other = _users s !! other) /\
     identity_exists (db (fst result)) (username request) /\
     (identity_exists (db s) (username request) ->
        users (db (fst result)) = users (db s)) /\
     (~ identity_exists (db s) (username request) ->
        users (db (fst result)) =
          users (db s) ++ [ {| u_id := users_id_seq (db s);
                               u_username := username request |} ])).
Proof.
  intros Hback result. subst result. rewrite register_cases. cbv zeta.
  split.
  - intros Hsome. pose proof (Hback _ Hsome) as Hid%existsb_username.
    destruct Hsome as [x ->]. cbn [fst snd db _users].
    by rewrite insert_user_users, Hid.
  - intros ->. cbn [fst snd db _users]. split; [done|].
    split; [by rewrite lookup_insert_eq|].
    split; [intros other Hne; by rewrite lookup_insert_ne|].
    split; [apply insert_user_identity|].
    rewrite insert_user_users. split.
    + by intros ->%existsb_username.
    + intros Hno.
      destruct (existsb _ _) eqn:E; [|done]. by apply existsb_username in E.
Qed.

(** C10. Start the process on any store ([lifespan] empties the
    credential map) and serve any history of requests.  For every
    caller that [verify_credentials] then accepts: the caller's name is
    in the credential map, a row of [users] carries that name, and
    [create_account] returns the row it inserted, a zero-balance
    account, so that the assertion on the returned row holds. *)
Theorem create_account_assertion s0 history credentials name now :
  let s := run hashpw checkpw history (lifespan s0) in
  verify_credentials checkpw credentials s = Return name ->
  is_Some (_users s !! name) /\
  identity_exists (db s) name /\
  (exists response,
     snd (create_account now name (db s)) = Return response /\
     balance response = 0) /\
  snd (create_account now name (db s)) <> Raise AssertionError.
Proof.
  intros s Hverify.
  apply verify_credentials_registered in Hverify as [_ Hsome].
  pose proof (run_credentials_backed history _ (lifespan_credentials_backed s0) _ Hsome)
    as Hid.
  fold s in Hid.
  destruct (create_account_returns now name _ Hid) as (response & Hr & Hb).
  split; [done|]. split; [done|]. split; [eauto|]. by rewrite Hr.
Qed.

End Process.

(** ** The theorems on the sample run *)

Lemma sample_database_reached : db sample_state = sample_database.
Proof. vm_compute. reflexivity. Qed.

Lemma sample_database_key : users_username_key sample_database.
Proof.
  rewrite <- sample_database_reached.
  apply run_users_username_key. constructor.
Qed.

Lemma alice_owns_1 : owned_by sample_database 1 "alice".
Proof. by apply account_check_spec. Qed.

Lemma alice_does_not_own_2 : ~ owned_by sample_database 2 "alice".
Proof. by apply account_check_false. Qed.

Lemma account_2_exists : account_exists sample_database 2.
Proof. apply find_id_Some. by eexists. Qed.

Lemma account_9_missing : ~ account_exists sample_database 9.
Proof. by apply find_id_None. Qed.

(** Withdrawing 500 from the 300 of account 1 is refused; nothing changes. *)
Lemma non_negativity_witness :
  (exists e, snd (perform 13
     (Withdrawal {| withdrawal_account_id := 1; withdrawal_amount := 500 |})
     "alice" sample_database) = Raise e) /\
  accounts (fst (perform 13
     (Withdrawal {| withdrawal_account_id := 1; withdrawal_amount := 500 |})
     "alice" sample_database)) = accounts sample_database /\
  balance_of (fst (perform 13
     (Withdrawal {| withdrawal_account_id := 1; withdrawal_amount := 500 |})
     "alice" sample_database)) 1 = Some 300.
Proof.
  apply (proj2 (proj2 (non_negativity toy_hashpw toy_checkpw)) 13
           (Withdrawal {| withdrawal_account_id := 1; withdrawal_amount := 500 |})
           "alice" sample_database 1 300).
  - reflexivity.
  - reflexivity.
  - reflexivity.
Defined.

(** A transfer of 50 out of the empty account 2 is refused; nothing changes. *)
Lemma rejected_movement_witness :
  users (fst (perform 13
     (Transfer {| from_ := 2; to := 1; transfer_amount := 50 |})
     "bob" sample_database)) = users sample_database /\
  accounts (fst (perform 13
     (Transfer {| from_ := 2; to := 1; transfer_amount := 50 |})
     "bob" sample_database)) = accounts sample_database /\
  (forall account_id,
     balance_of (fst (perform 13
       (Transfer {| from_ := 2; to := 1; transfer_amount := 50 |})
       "bob" sample_database)) account_id = balance_of sample_database account_id) /\
  transactions (fst (perform 13
     (Transfer {| from_ := 2; to := 1; transfer_amount := 50 |})
     "bob" sample_database)) = transactions sample_database.
Proof.
  apply (rejected_movement_leaves_tables 13
           (Transfer {| from_ := 2; to := 1; transfer_amount := 50 |})
           "bob" sample_database
           (HTTPException BAD_REQUEST "Insufficient funds in from account")).
  reflexivity.
Defined.

(** Alice sends 200 of her 300 to Bob: 100 and 200 afterwards, one row logged. *)
Lemma transfer_success_witness :
  let result := post_transfer 13 {| from_ := 1; to := 2; transfer_amount := 200 |}
                  "alice" sample_database in
  snd result = Return tt /\
  balance_of (fst result) 1 = Some 100 /\
  balance_of (fst result) 2 = Some 200 /\
  (forall other, other <> 1 -> other <> 2 ->
     balance_of (fst result) other = balance_of sample_database other) /\
  transactions (fst result) =
    transactions sample_database ++
    [ {| t_id := 2; t_from_account_id := Some 1; t_to_account_id := Some 2;
         t_amount := 200; t_created_at := 13 |} ].
Proof.
  apply (transfer_success 13 {| from_ := 1; to := 2; transfer_amount := 200 |}
           "alice" sample_database 300 0).
  - reflexivity.
  - discriminate.
  - exact alice_owns_1.
  - reflexivity.
  - reflexivity.
  - discriminate.
Defined.

(** Alice withdraws all of her 300: accepted, balance 0. *)
Lemma withdrawal_semantics_witness :
  snd (post_withdrawal 13 {| withdrawal_account_id := 1; withdrawal_amount := 300 |}
         "alice" sample_database) = Return tt /\
  balance_of
    (fst (post_withdrawal 13
            {| withdrawal_account_id := 1; withdrawal_amount := 300 |}
            "alice" sample_database)) 1 = Some 0.
Proof.
  apply (withdrawal_semantics 13
           {| withdrawal_account_id := 1; withdrawal_amount := 300 |}
           "alice" sample_database 300).
  - reflexivity.
  - exact alice_owns_1.
  - reflexivity.
  - reflexivity.
Defined.

(** A transfer of amount 0 is refused by the request model. *)
Lemma invalid_amount_witness :
  exists errors,
    perform 13 (Transfer {| from_ := 1; to := 2; transfer_amount := 0 |})
      "alice" sample_database =
      (sample_database, Raise (RequestValidationError errors)) /\
    In (greater_than "amount" 0) errors.
Proof.
  apply (invalid_amount_rejected 13
           (Transfer {| from_ := 1; to := 2; transfer_amount := 0 |})
           "alice" sample_database).
  discriminate.
Defined.

(** Bob's account 2 and the unissued id 9 look the same to Alice. *)
Lemma get_account_opacity_witness :
  get_account 2 "alice" sample_database = get_account 9 "alice" sample_database.
Proof.
  apply (proj1 (proj2 (proj2 (get_account_opacity 2 "alice" sample_database
                                sample_database_key)))).
  - exact account_2_exists.
  - exact alice_does_not_own_2.
  - exact account_9_missing.
Defined.


(** Alice's account 1 has one logged transaction, her deposit; the
    listing returns it. *)
Lemma list_for_account_witness :
  exists result rows others,
    get_transactions_by_account 1 "alice" sample_database = Return result /\
    Forall2 shows result rows /\
    Permutation (rows ++ others) (transactions sample_database) /\
    Forall (endpoint 1) rows /\
    Forall (fun row => ~ endpoint 1 row) others /\
    newest_first result /\
    ((forall row, In row (transactions sample_database) -> ~ endpoint 1 row) ->
       result = []).
Proof.
  apply (proj1 (list_for_account 1 "alice" sample_database)).
  exact alice_owns_1.
Defined.

(** In the sample state Alice is in the credential map: a second
    registration under her name is refused. *)
Lemma register_uniqueness_witness :
  snd (register toy_hashpw "salt3"
         {| username := "alice"; password := "again" |} sample_state) =
    Raise (HTTPException BAD_REQUEST "Username already exists").
Proof.
  apply (proj1 (register_uniqueness toy_hashpw "salt3"
                  {| username := "alice"; password := "again" |} sample_state
                  (run_credentials_backed toy_hashpw toy_checkpw sample_history _
                     (lifespan_credentials_backed initial_state)))).
  vm_compute. eauto.
Defined.

(** C9, as stated, fails.  After a restart of the process the user row
    of Alice is still in the store: the user lookup finds her name; yet
    a registration under that name is accepted, not refused, and no
    user row is created by it. *)
Lemma register_existing_username_accepted :
  let request := {| username := "alice"; password := "looking-glass" |} in
  let result := register toy_hashpw "salt3" request restarted_state in
  identity_exists (db restarted_state) (username request) /\
  get_user (username request) (db restarted_state) = Return tt /\
  snd result <> Raise (HTTPException BAD_REQUEST "Username already exists") /\
  snd result = Return tt /\
  users (db (fst result)) = users (db restarted_state).
Proof.
  cbv zeta. split.
  - apply existsb_username. reflexivity.
  - split; [reflexivity|]. split; [discriminate|]. split; reflexivity.
Qed.

(** Alice's credentials are accepted in the sample state, and her
    account is opened. *)
Lemma create_account_assertion_witness :
  snd (create_account 13 "alice" (db sample_state)) <> Raise AssertionError.
Proof.
  apply (create_account_assertion toy_hashpw toy_checkpw initial_state
           sample_history alice "alice" 13).
  reflexivity.
Defined.

(** * Further properties of the endpoints *)

(** ** Deposits *)

Lemma deposit_statement_transactions now account_id amount name d a :
  visible_source d account_id name = Some a ->
  transactions (fst (deposit_statement now account_id amount name d)) =
  transactions d ++
    [ {| t_id := transactions_id_seq d; t_from_account_id := None;
         t_to_account_id := Some account_id; t_amount := amount;
         t_created_at := now |} ].
Proof.
  unfold visible_source, deposit_statement. intros Hsrc. cbv zeta. unfold fst at 1.
  rewrite is_empty_fetchrow, fetchrow_returning.
  destruct (account_check d account_id name); [|done].
  rewrite find_checked, Hsrc. done.
Qed.

Lemma withdrawal_statement_transactions now account_id amount name d a :
  visible_source d account_id name = Some a ->
  transactions (fst (withdrawal_statement now account_id amount name d)) =
  transactions d ++
    [ {| t_id := transactions_id_seq d; t_from_account_id := Some account_id;
         t_to_account_id := None; t_amount := amount;
         t_created_at := now |} ].
Proof.
  unfold visible_source, withdrawal_statement. intros Hsrc. cbv zeta. unfold fst at 1.
  rewrite is_empty_fetchrow, fetchrow_returning.
  destruct (account_check d account_id name); [|done].
  rewrite find_checked, Hsrc. done.
Qed.

Lemma visible_source_owned d account_id name a :
  owned_by d account_id name ->
  List.find (fun a => a_id a =? account_id) (accounts d) = Some a ->
  visible_source d account_id name = Some a.
Proof.
  intros Hown%account_check_spec Hfind. unfold visible_source. by rewrite Hown.
Qed.

(** The balances after an update keyed on one id. *)
Lemma balance_after_keyed_update (check : bool) account_id delta rows i :
  a_balance <$>
    List.find (fun a => a_id a =? i)
      (update_accounts (fun a => (a_id a =? account_id) && check) delta rows) =
  (fun a => if (a_id a =? account_id) && check then a_balance a + delta
            else a_balance a) <$>
    List.find (fun a => a_id a =? i) rows.
Proof.
  rewrite find_update_accounts.
  destruct (List.find (fun a => a_id a =? i) rows) as [a|]; [|done]. simpl.
  by destruct ((a_id a =? account_id) && check).
Qed.

(** X1. A deposit of a positive amount into an account the caller owns,
    holding balance [b], succeeds: the balance becomes [b + amount], the
    other accounts keep theirs, and exactly one row is appended to the
    log, with [from_account_id] NULL, [to_account_id] the account and
    the amount. *)
Theorem deposit_success now body name d b :
  0 < deposit_amount body ->
  owned_by d (deposit_account_id body) name ->
  balance_of d (deposit_account_id body) = Some b ->
  let result := post_deposit now body name d in
  snd result = Return tt /\
  balance_of (fst result) (deposit_account_id body) = Some (b + deposit_amount body) /\
  (forall other, other <> deposit_account_id body ->
     balance_of (fst result) other = balance_of d other) /\
  transactions (fst result) =
    transactions d ++
    [ {| t_id := transactions_id_seq d;
         t_from_account_id := None;
         t_to_account_id := Some (deposit_account_id body);
         t_amount := deposit_amount body;
         t_created_at := now |} ].
Proof.
  intros Hpos Hown Hb result. subst result.
  destruct (balance_of_find _ _ _ Hb) as (a & Hfind & Ha).
  pose proof (visible_source_owned _ _ _ _ Hown Hfind) as Hsrc.
  pose proof Hown as Hcheck%account_check_spec.
  unfold post_deposit, CreateDepositRequest_validate. rewrite (Gt_0_valid _ Hpos).
  rewrite create_deposit_cases. cbv zeta. rewrite Hsrc. cbn [fst snd].
  split; [done|]. unfold balance_of.
  rewrite deposit_statement_accounts, Hcheck.
  rewrite (deposit_statement_transactions _ _ _ _ _ _ Hsrc).
  split; [|split; [|done]].
  - rewrite balance_after_keyed_update, Hfind. simpl.
    rewrite (find_id_eq _ _ _ Hfind), Z.eqb_refl. simpl. by rewrite Ha.
  - intros other Hother. rewrite balance_after_keyed_update.
    destruct (List.find (fun a0 => a_id a0 =? other) (accounts d)) as [x|] eqn:Ex;
      [|done].
    simpl. rewrite (find_id_eq _ _ _ Ex).
    by apply Z.eqb_neq in Hother as ->.
Qed.

(** X2. A deposit into, or a withdrawal from, an account that does not
    exist or belongs to another user is answered with 404 "Account not
    found", the same value in both cases, and the tables are left as
    they were. *)
Theorem unowned_account_not_found now account_id amount name d :
  0 < amount ->
  ~ owned_by d account_id name ->
  let deposit := post_deposit now
    {| deposit_account_id := account_id; deposit_amount := amount |} name d in
  let withdrawal := post_withdrawal now
    {| withdrawal_account_id := account_id; withdrawal_amount := amount |} name d in
  snd deposit = Raise (HTTPException NOT_FOUND "Account not found") /\
  snd withdrawal = Raise (HTTPException NOT_FOUND "Account not found") /\
  accounts (fst deposit) = accounts d /\
  transactions (fst deposit) = transactions d /\
  accounts (fst withdrawal) = accounts d /\
  transactions (fst withdrawal) = transactions d.
Proof.
  intros Hpos Hno%visible_source_None. cbv zeta.
  unfold post_deposit, post_withdrawal, CreateDepositRequest_validate,
    CreateWithdrawalRequest_validate. cbn [deposit_amount withdrawal_amount].
  rewrite (Gt_0_valid _ Hpos).
  rewrite create_deposit_cases, create_withdrawal_cases. cbv zeta.
  cbn [deposit_account_id withdrawal_account_id]. rewrite Hno. done.
Qed.

(** ** Transfers: what is refused, and with which answer *)

(** X3. The four ways a transfer of a positive amount between different
    accounts is refused by the handler, each with its own answer: source
    not the caller's and destination missing, 404 "From account and to
    account not found"; source not the caller's, destination there, 404
    "From account not found"; source the caller's, destination missing,
    404 "To account not found", even when the funds are short; source
    and destination there but funds short, 400 "Insufficient funds in
    from account". *)
Theorem transfer_refusals now body name d :
  0 < transfer_amount body ->
  from_ body <> to body ->
  let answer := snd (post_transfer now body name d) in
  (~ owned_by d (from_ body) name -> ~ account_exists d (to body) ->
     answer = Raise (HTTPException NOT_FOUND "From account and to account not found")) /\
  (~ owned_by d (from_ body) name -> account_exists d (to body) ->
     answer = Raise (HTTPException NOT_FOUND "From account not found")) /\
  (owned_by d (from_ body) name -> ~ account_exists d (to body) ->
     answer = Raise (HTTPException NOT_FOUND "To account not found")) /\
  (forall b,
     owned_by d (from_ body) name -> account_exists d (to body) ->
     balance_of d (from_ body) = Some b -> b < transfer_amount body ->
     answer = Raise (HTTPException BAD_REQUEST "Insufficient funds in from account")).
Proof.
  intros Hpos Hne answer. subst answer.
  unfold post_transfer. rewrite (CreateTransferRequest_valid _ Hpos Hne).
  rewrite create_transfer_cases. cbv zeta.
  destruct (visible_source d (from_ body) name) as [a|] eqn:Hsrc;
    destruct (List.find (fun a => a_id a =? to body) (accounts d)) as [x|] eqn:Hdst.
  - apply visible_source_Some in Hsrc as [Hown Hfa].
    assert (account_exists d (to body)) as Hex by (apply find_id_Some; eauto).
    split; [done|]. split; [done|]. split; [done|].
    intros b _ _ Hb Hlt. unfold balance_of in Hb. rewrite Hfa in Hb.
    injection Hb as Hb.
    assert ((a_balance a + - transfer_amount body <? 0) = true) as ->
      by (apply Z.ltb_lt; lia).
    done.
  - apply visible_source_Some in Hsrc as [Hown _]. apply find_id_None in Hdst.
    cbn [snd]. split; [done|]. split; [done|]. split; [done|]. done.
  - apply visible_source_None in Hsrc.
    assert (account_exists d (to body)) as Hex by (apply find_id_Some; eauto).
    cbn [snd]. split; [done|]. split; [done|]. split; [done|]. done.
  - apply visible_source_None in Hsrc. apply find_id_None in Hdst.
    cbn [snd]. split; [done|]. split; [done|]. split; [done|]. done.
Qed.

(** X4. A transfer whose source and destination are the same account is
    refused by the request model, before the handler and so before any
    statement: the report carries the validator's message, together
    with the [amount] constraint when the amount is not positive either,
    and the store handed back is the store received. *)
Theorem same_account_rejected now body name d :
  from_ body = to body ->
  exists errors,
    post_transfer now body name d = (d, Raise (RequestValidationError errors)) /\
    In (value_error "to" "Cannot transfer to the same account.") errors /\
    (transfer_amount body <= 0 -> In (greater_than "amount" 0) errors) /\
    (0 < transfer_amount body ->
       errors = [value_error "to" "Cannot transfer to the same account."]).
Proof.
  intros Heq. unfold post_transfer, CreateTransferRequest_validate, _different_accounts.
  apply Z.eqb_eq in Heq as ->. simpl. eexists. split; [done|].
  split; [by left|]. split.
  - intros H. rewrite (Gt_0_invalid _ H). right. by left.
  - intros H. by rewrite (Gt_0_valid _ H).
Qed.

(** ** The total of the balances *)

Lemma update_accounts_ext cond cond' delta rows :
  (forall a, cond a = cond' a) ->
  update_accounts cond delta rows = update_accounts cond' delta rows.
Proof. intros H. apply map_ext. intros a. by rewrite H. Qed.

Lemma update_absent_id i delta rows :
  ~ In i (map a_id rows) ->
  update_accounts (fun a => a_id a =? i) delta rows = rows.
Proof.
  induction rows as [|a rows IH]; [done|]. simpl. intros Hno.
  destruct (Z.eqb_spec (a_id a) i) as [E|E]; [destruct Hno; by left|].
  f_equal. apply IH. intros H. apply Hno. by right.
Qed.

Lemma keyed_update_total i delta rows a :
  NoDup (map a_id rows) ->
  List.find (fun a => a_id a =? i) rows = Some a ->
  sum_Z (map a_balance (update_accounts (fun a => a_id a =? i) delta rows)) =
  sum_Z (map a_balance rows) + delta.
Proof.
  induction rows as [|x rows IH]; [done|]. simpl.
  intros Hnd Hfind. inversion Hnd as [|? ? Hx Hrows]; subst.
  rewrite list_elem_of_In in Hx.
  destruct (Z.eqb_spec (a_id x) i) as [E|E].
  - fold (update_accounts (fun a => a_id a =? i) delta rows).
    rewrite update_absent_id by (by rewrite <- E). simpl. lia.
  - fold (update_accounts (fun a => a_id a =? i) delta rows).
    rewrite (IH Hrows Hfind). lia.
Qed.

Lemma checked_update_total (check : bool) i delta rows a :
  NoDup (map a_id rows) ->
  List.find (fun a => a_id a =? i) rows = Some a ->
  sum_Z (map a_balance
           (update_accounts (fun a => (a_id a =? i) && check) delta rows)) =
  sum_Z (map a_balance rows) + (if check then delta else 0).
Proof.
  intros Hnd Hfind. destruct check.
  - rewrite (update_accounts_ext _ (fun a => a_id a =? i))
      by (intros x; apply andb_true_r).
    by apply (keyed_update_total _ _ _ a).
  - assert (update_accounts (fun a0 => (a_id a0 =? i) && false) delta rows = rows)
      as ->; [|lia].
    unfold update_accounts. rewrite <- (map_id rows) at 2. apply map_ext.
    intros x. by rewrite andb_false_r.
Qed.

(** X5. Conservation.  With distinct account ids, the total of all
    balances after a movement is the total before plus the amount of an
    accepted deposit, minus the amount of an accepted withdrawal; a
    transfer, accepted or refused, and every refused movement leave the
    total as it was. *)
Theorem movement_total now m name d :
  accounts_pkey d ->
  total_balance (fst (perform now m name d)) =
  total_balance d + net_effect m (snd (perform now m name d)).
Proof.
  intros [Hnd _]. unfold total_balance.
  destruct (snd (perform now m name d)) as [[]|e] eqn:Hout.
  2:{ destruct (perform_raise_tables _ _ _ _ _ Hout) as (_ & -> & _).
      simpl. lia. }
  destruct m as [body|body|body]; cbn [perform net_effect] in *;
    unfold post_deposit, post_withdrawal, post_transfer in *.
  - destruct (CreateDepositRequest_validate body); [|done].
    rewrite create_deposit_cases in *. cbv zeta in *.
    destruct (visible_source _ _ _) as [a|] eqn:Hsrc; [|done]. cbn [fst].
    rewrite deposit_statement_accounts.
    pose proof Hsrc as [Hown%account_check_spec Hfind]%visible_source_Some.
    rewrite Hown. by rewrite (checked_update_total true _ _ _ a).
  - destruct (CreateWithdrawalRequest_validate body); [|done].
    rewrite create_withdrawal_cases in *. cbv zeta in *.
    destruct (visible_source _ _ _) as [a|] eqn:Hsrc; [|done].
    destruct (a_balance a + - withdrawal_amount body <? 0); [done|]. cbn [fst].
    rewrite withdrawal_statement_accounts.
    pose proof Hsrc as [Hown%account_check_spec Hfind]%visible_source_Some.
    rewrite Hown. by rewrite (checked_update_total true _ _ _ a).
  - destruct (CreateTransferRequest_validate body); [|done].
    rewrite create_transfer_cases in *. cbv zeta in *.
    destruct (visible_source _ _ _) as [a|] eqn:Hsrc;
      destruct (List.find (fun a => a_id a =? to body) (accounts d)) as [x|] eqn:Hdst;
      try done.
    destruct (a_balance a + - transfer_amount body <? 0); [done|]. cbn [fst].
    rewrite transfer_statement_accounts.
    pose proof Hsrc as [Hown%account_check_spec Hfind]%visible_source_Some.
    rewrite Hown.
    rewrite (keyed_update_total _ _ _
               (if (a_id x =? from_ body) && true
                then add_balance (- transfer_amount body) x else x)).
    + rewrite (checked_update_total true _ _ _ a) by done. lia.
    + by rewrite update_accounts_ids.
    + by rewrite find_update_accounts, Hdst.
Qed.

(** ** What an accepted movement does *)

Lemma add_balance_0 a : add_balance 0 a = a.
Proof. destruct a. unfold add_balance. simpl. f_equal. lia. Qed.

Lemma sum_Z_app l x : sum_Z (l ++ [x]) = sum_Z l + x.
Proof. induction l as [|y l IH]; simpl; lia. Qed.

Lemma net_flow_app log t i :
  net_flow (log ++ [t]) i = net_flow log i + signed_amount i t.
Proof. unfold net_flow. rewrite map_app. exact (sum_Z_app _ _). Qed.

Lemma signed_amount_deposit i account_id amount now seq :
  signed_amount i
    {| t_id := seq; t_from_account_id := None; t_to_account_id := Some account_id;
       t_amount := amount; t_created_at := now |} =
  if i =? account_id then amount else 0.
Proof.
  unfold signed_amount. simpl.
  destruct (Z.eqb_spec i account_id); repeat case_decide; try lia; congruence.
Qed.

Lemma signed_amount_withdrawal i account_id amount now seq :
  signed_amount i
    {| t_id := seq; t_from_account_id := Some account_id; t_to_account_id := None;
       t_amount := amount; t_created_at := now |} =
  if i =? account_id then - amount else 0.
Proof.
  unfold signed_amount. simpl.
  destruct (Z.eqb_spec i account_id); repeat case_decide; try lia; congruence.
Qed.

Lemma signed_amount_transfer i from_ to amount now seq :
  from_ <> to ->
  signed_amount i
    {| t_id := seq; t_from_account_id := Some from_; t_to_account_id := Some to;
       t_amount := amount; t_created_at := now |} =
  if i =? from_ then - amount else if i =? to then amount else 0.
Proof.
  intros Hne. unfold signed_amount. simpl.
  destruct (Z.eqb_spec i from_), (Z.eqb_spec i to);
    repeat case_decide; try lia; congruence.
Qed.

(** An accepted movement appends one row to the log and changes every
    balance by what that row says; the row carries the request's
    amount, which is positive, the time of the request and the next id
    of the log, and its endpoints are different existing accounts. *)
Lemma perform_accepted now m name d :
  snd (perform now m name d) = Return tt ->
  exists t,
    transactions (fst (perform now m name d)) = transactions d ++ [t] /\
    accounts (fst (perform now m name d)) = map (apply_row t) (accounts d) /\
    t = movement_row (transactions_id_seq d) now m /\
    well_formed_row d t.
Proof.
  unfold well_formed_row.
  unfold movement_row.
  destruct m as [body|body|body];
    cbn [perform movement_amount movement_source movement_destination];
    unfold post_deposit, post_withdrawal, post_transfer.
  - unfold CreateDepositRequest_validate, Gt_0.
    destruct (Z.ltb_spec 0 (deposit_amount body)) as [Hpos|]; [|done].
    rewrite create_deposit_cases. cbv zeta.
    destruct (visible_source _ _ _) as [a|] eqn:Hsrc; [|done]. cbn [fst snd].
    intros _. eexists. split; [by apply (deposit_statement_transactions _ _ _ _ _ a)|].
    pose proof Hsrc as [Hown Hfind]%visible_source_Some.
    split; [|split; [done|]; split; [done|]; split; [done|]].
    + rewrite deposit_statement_accounts.
      apply account_check_spec in Hown as ->. apply map_ext. intros x.
      unfold apply_row. rewrite signed_amount_deposit, andb_true_r.
      destruct (a_id x =? deposit_account_id body); [done|].
      by rewrite add_balance_0.
    + intros i [H|H]; simpl in H; [done|]. injection H as <-.
      by apply (owned_by_exists _ _ name).
  - unfold CreateWithdrawalRequest_validate, Gt_0.
    destruct (Z.ltb_spec 0 (withdrawal_amount body)) as [Hpos|]; [|done].
    rewrite create_withdrawal_cases. cbv zeta.
    destruct (visible_source _ _ _) as [a|] eqn:Hsrc; [|done].
    destruct (a_balance a + - withdrawal_amount body <? 0); [done|]. cbn [fst snd].
    intros _. eexists.
    split; [by apply (withdrawal_statement_transactions _ _ _ _ _ a)|].
    pose proof Hsrc as [Hown Hfind]%visible_source_Some.
    split; [|split; [done|]; split; [done|]; split; [done|]].
    + rewrite withdrawal_statement_accounts.
      apply account_check_spec in Hown as ->. apply map_ext. intros x.
      unfold apply_row. rewrite signed_amount_withdrawal, andb_true_r.
      destruct (a_id x =? withdrawal_account_id body); [done|].
      by rewrite add_balance_0.
    + intros i [H|H]; simpl in H; [|done]. injection H as <-.
      by apply (owned_by_exists _ _ name).
  - destruct (CreateTransferRequest_validate body) eqn:Hvalid; [|done].
    apply CreateTransferRequest_valid_inv in Hvalid as [Hpos Hne].
    rewrite create_transfer_cases. cbv zeta.
    destruct (visible_source _ _ _) as [a|] eqn:Hsrc;
      destruct (List.find (fun a => a_id a =? to body) (accounts d)) as [x|] eqn:Hdst;
      try done.
    destruct (a_balance a + - transfer_amount body <? 0); [done|]. cbn [fst snd].
    intros _. eexists.
    split; [by apply (transfer_statement_transactions _ _ _ _ _ _ a x)|].
    pose proof Hsrc as [Hown Hfind]%visible_source_Some.
    split; [|split; [done|]; split; [done|]; split; [simpl; congruence|]].
    + rewrite transfer_statement_accounts.
      apply account_check_spec in Hown as ->.
      unfold update_accounts. rewrite map_map. apply map_ext. intros y.
      unfold apply_row. rewrite (signed_amount_transfer _ _ _ _ _ _ Hne), andb_true_r.
      destruct (Z.eqb_spec (a_id y) (from_ body)) as [E|E]; simpl.
      * rewrite E. by apply Z.eqb_neq in Hne as ->.
      * destruct (a_id y =? to body); [done|]. by rewrite add_balance_0.
    + intros i [H|H]; simpl in H; injection H as <-.
      * by apply (owned_by_exists _ _ name).
      * apply find_id_Some. eauto.
Qed.

(** ** What each kind of request does to the tables *)

Lemma insert_accounts_rows now owners next a :
  In a (fst (insert_accounts now owners next)) ->
  a_created_at a = now /\ In (a_user_id a) owners.
Proof.
  revert next. induction owners as [|owner owners IH]; intros next; [done|].
  cbn [insert_accounts]. specialize (IH (next + 1)).
  destruct (insert_accounts now owners (next + 1)) as [rows next'].
  cbn [fst] in *. intros [<-|Hin]; simpl; [auto|].
  destruct (IH Hin). auto.
Qed.

(** [create_account] appends its new rows, numbered from the sequence,
    empty, stamped with the time of the request and owned by users
    called [name]; it touches nothing else. *)
Lemma create_account_effect now name d :
  exists rows,
    accounts (fst (create_account now name d)) = accounts d ++ rows /\
    accounts_id_seq (fst (create_account now name d)) =
      accounts_id_seq d + Z.of_nat (length rows) /\
    users_id_seq (fst (create_account now name d)) = users_id_seq d /\
    NoDup (map a_id rows) /\
    (forall a, In a rows ->
       accounts_id_seq d <= a_id a < accounts_id_seq d + Z.of_nat (length rows) /\
       a_balance a = 0 /\ a_created_at a = now /\
       exists u, In u (users d) /\ u_id u = a_user_id a /\ u_username u = name).
Proof.
  unfold create_account.
  pose proof (insert_accounts_spec now
    (map u_id (List.filter (fun u => String.eqb (u_username u) name) (users d)))
    (accounts_id_seq d)) as (Hnext & Hrows & Hnd & Howners).
  pose proof (insert_accounts_rows now
    (map u_id (List.filter (fun u => String.eqb (u_username u) name) (users d)))
    (accounts_id_seq d)) as Hrows'.
  destruct (insert_accounts _ _ _) as [rows next]. cbn [fst snd] in *.
  exists rows.
  assert (length rows =
          length (map u_id (List.filter (fun u => String.eqb (u_username u) name)
                                        (users d)))) as Hlen
    by (rewrite <- Howners; by rewrite length_map).
  assert (forall a, In a rows ->
       accounts_id_seq d <= a_id a < accounts_id_seq d + Z.of_nat (length rows) /\
       a_balance a = 0 /\ a_created_at a = now /\
       exists u, In u (users d) /\ u_id u = a_user_id a /\ u_username u = name) as H.
  { intros a Hin. destruct (Hrows a Hin) as [Hid Hb]. destruct (Hrows' a Hin) as [Hc Hu].
    rewrite Hlen. split; [done|]. split; [done|]. split; [done|].
    apply in_map_iff in Hu as (u & Hu & Hin'). apply filter_In in Hin' as [? E].
    apply String.eqb_eq in E. eauto. }
  destruct (fetchrow rows); cbn [fst accounts accounts_id_seq users_id_seq];
    by rewrite Hnext, <- Hlen.
Qed.

Lemma apply_row_identity t a : account_identity (apply_row t a) = account_identity a.
Proof. done. Qed.

(** A movement changes balances only: the rows of [accounts] keep
    their id, owner and creation time, in the same order. *)
Lemma perform_identities now m name d :
  map account_identity (accounts (fst (perform now m name d))) =
  map account_identity (accounts d).
Proof.
  destruct (snd (perform now m name d)) as [[]|e] eqn:Hout.
  - destruct (perform_accepted _ _ _ _ Hout) as (t & _ & -> & _).
    rewrite map_map. by apply map_ext.
  - by destruct (perform_raise_tables _ _ _ _ _ Hout) as (_ & -> & _).
Qed.

Lemma identities_ids rows rows' :
  map account_identity rows' = map account_identity rows ->
  map a_id rows' = map a_id rows.
Proof.
  intros H.
  assert (forall l, map a_id l = map (fun p => fst (fst p)) (map account_identity l))
    as E by (intros l; rewrite map_map; by apply map_ext).
  by rewrite !E, H.
Qed.

Lemma identities_owners rows rows' :
  map account_identity rows' = map account_identity rows ->
  map a_user_id rows' = map a_user_id rows.
Proof.
  intros H.
  assert (forall l, map a_user_id l =
                    map (fun p => snd (fst p)) (map account_identity l))
    as E by (intros l; rewrite map_map; by apply map_ext).
  by rewrite !E, H.
Qed.

Lemma account_exists_ids d d' i :
  map a_id (accounts d') = map a_id (accounts d) ->
  account_exists d i -> account_exists d' i.
Proof.
  intros Hids (a & Hin & Hid). apply (in_map a_id) in Hin.
  rewrite <- Hids in Hin. apply in_map_iff in Hin as (a' & Hid' & Hin').
  exists a'. split; [done|congruence].
Qed.

(** The log after a movement: unchanged, or one row longer. *)
Lemma perform_log now m name d :
  transactions (fst (perform now m name d)) = transactions d \/
  exists t, transactions (fst (perform now m name d)) = transactions d ++ [t] /\
            well_formed_row d t.
Proof.
  destruct (snd (perform now m name d)) as [[]|e] eqn:Hout.
  - destruct (perform_accepted _ _ _ _ Hout) as (t & H & _ & _ & Hwf).
    right. eauto.
  - left. by destruct (perform_raise_tables _ _ _ _ _ Hout) as (_ & _ & ->).
Qed.

Lemma perform_users_id_seq now m name d :
  users_id_seq (fst (perform now m name d)) = users_id_seq d.
Proof.
  assert (forall guard f t amount x,
            users_id_seq (insert_transaction guard now f t amount x) = users_id_seq x)
    as Hins by (intros guard; by destruct guard).
  destruct m as [body|body|body]; cbn [perform];
    unfold post_deposit, post_withdrawal, post_transfer.
  - destruct (CreateDepositRequest_validate body); [|done].
    rewrite create_deposit_cases. cbv zeta.
    assert (users_id_seq (fst (deposit_statement now (deposit_account_id body)
              (deposit_amount body) name d)) = users_id_seq d) as H
      by (unfold deposit_statement; cbv zeta; unfold fst; by rewrite Hins).
    by destruct (visible_source _ _ _).
  - destruct (CreateWithdrawalRequest_validate body); [|done].
    rewrite create_withdrawal_cases. cbv zeta.
    assert (users_id_seq (fst (withdrawal_statement now (withdrawal_account_id body)
              (withdrawal_amount body) name d)) = users_id_seq d) as H
      by (unfold withdrawal_statement; cbv zeta; unfold fst; by rewrite Hins).
    destruct (visible_source _ _ _) as [a|];
      [destruct (a_balance a + - withdrawal_amount body <? 0)|]; done.
  - destruct (CreateTransferRequest_validate body); [|done].
    rewrite create_transfer_cases. cbv zeta.
    assert (users_id_seq (fst (transfer_statement now (from_ body) (to body)
              (transfer_amount body) name d)) = users_id_seq d) as H
      by (unfold transfer_statement; cbv zeta; unfold fst; by rewrite Hins).
    destruct (visible_source _ _ _) as [a|],
      (List.find (fun a => a_id a =? to body) (accounts d));
      [destruct (a_balance a + - transfer_amount body <? 0)| | |]; done.
Qed.

(** ** The balances and the log *)

Lemma net_flow_unreferenced log i :
  (forall t, In t log -> ~ endpoint i t) -> net_flow log i = 0.
Proof.
  unfold net_flow. induction log as [|t log IH]; [done|]. intros H. simpl.
  rewrite IH by (intros t' Hin; apply H; by right).
  assert (~ endpoint i t) as Hno by (apply H; by left).
  unfold signed_amount, endpoint in *.
  repeat case_decide; try lia; tauto.
Qed.

Lemma insert_user_books name d :
  books_balanced d -> books_balanced (fst (insert_user name d)).
Proof.
  unfold books_balanced.
  by destruct (insert_user_frame name d) as (-> & -> & ->).
Qed.

Lemma create_account_books now name d :
  books_balanced d -> books_balanced (fst (create_account now name d)).
Proof.
  intros [Hacc Hlog].
  destruct (create_account_effect now name d) as (rows & Ha & Hseq & _ & _ & Hrows).
  destruct (create_account_frame now name d) as [_ Ht].
  unfold books_balanced. rewrite Ha, Hseq, Ht. split.
  - intros a [Hin|Hin]%in_app_iff.
    + destruct (Hacc a Hin). split; [lia|done].
    + destruct (Hrows a Hin) as (Hid & Hb & _). split; [lia|].
      rewrite Hb. symmetry. apply net_flow_unreferenced.
      intros t Ht' Hend. specialize (Hlog t _ Ht' Hend). lia.
  - intros t i Hin Hend. specialize (Hlog t i Hin Hend). lia.
Qed.

Lemma perform_books now m name d :
  books_balanced d -> books_balanced (fst (perform now m name d)).
Proof.
  intros [Hacc Hlog]. unfold books_balanced.
  destruct (perform_frame now m name d) as [_ ->].
  destruct (snd (perform now m name d)) as [[]|e] eqn:Hout.
  - destruct (perform_accepted _ _ _ _ Hout)
      as (t & -> & -> & _ & _ & _ & Hend).
    split.
    + intros a' (a & <- & Hin)%in_map_iff. destruct (Hacc a Hin) as [Hid Hb].
      split; [done|]. rewrite net_flow_app. unfold apply_row. simpl. by rewrite Hb.
    + intros t' i [Hin|[<-|[]]]%in_app_iff Hi; [by apply (Hlog t')|].
      destruct (Hend i Hi) as (a & Hin & <-). by apply Hacc.
  - by destruct (perform_raise_tables _ _ _ _ _ Hout) as (_ & -> & ->).
Qed.

Section Histories.

Variable hashpw : string -> string -> string.
Variable checkpw : string -> string -> bool.

(** A property of the store kept by the three kinds of writes is kept
    along every history. *)
Lemma run_db_invariant (P : database -> Prop) history s :
  (forall name d, P d -> P (fst (insert_user name d))) ->
  (forall now name d, P d -> P (fst (create_account now name d))) ->
  (forall now m name d, P d -> P (fst (perform now m name d))) ->
  P (db s) -> P (db (run hashpw checkpw history s)).
Proof.
  intros Huser Haccount Hperform.
  apply (run_invariant hashpw checkpw (fun s => P (db s))).
  intros e s' H.
  destruct (serve_db hashpw checkpw e s')
    as [->|[(name & ->)|[(now & name & ->)|(now & m & name & ->)]]]; auto.
Qed.

(** X6. Reconciliation.  In every state reached from the empty store,
    and from any store whose books balance, the balance of each account
    is the net sum of its logged history: the amounts of the rows that
    have it as destination minus the amounts of the rows that have it
    as source. *)
Theorem balance_is_net_of_history history :
  (forall a,
     In a (accounts (db (run hashpw checkpw history initial_state))) ->
     a_balance a =
       net_flow (transactions (db (run hashpw checkpw history initial_state)))
                (a_id a)) /\
  (forall s a,
     books_balanced (db s) ->
     In a (accounts (db (run hashpw checkpw history s))) ->
     a_balance a =
       net_flow (transactions (db (run hashpw checkpw history s))) (a_id a)).
Proof.
  assert (forall s, books_balanced (db s) ->
                    books_balanced (db (run hashpw checkpw history s))) as H.
  { intros s. apply run_db_invariant.
    - apply insert_user_books.
    - apply create_account_books.
    - apply perform_books. }
  split.
  - intros a Hin. apply (H initial_state); [|done]. by split.
  - intros s a Hs Hin. by apply (H s Hs).
Qed.

Lemma well_formed_row_mono d d' t :
  (forall i, account_exists d i -> account_exists d' i) ->
  well_formed_row d t -> well_formed_row d' t.
Proof. intros H (? & ? & Hend). split; [done|]. split; [done|]. auto. Qed.

Lemma account_exists_app d d' rows i :
  accounts d' = accounts d ++ rows -> account_exists d i -> account_exists d' i.
Proof.
  intros Ha (a & Hin & Hid). exists a. split; [|done].
  rewrite Ha. apply in_app_iff. by left.
Qed.

Lemma log_well_formed_step (d d' : database) :
  (forall i, account_exists d i -> account_exists d' i) ->
  (transactions d' = transactions d \/
   exists t, transactions d' = transactions d ++ [t] /\ well_formed_row d t) ->
  (forall t, In t (transactions d) -> well_formed_row d t) ->
  forall t, In t (transactions d') -> well_formed_row d' t.
Proof.
  intros Hmono [->|(t0 & -> & H0)] Hwf t Hin.
  - by apply (well_formed_row_mono d), Hwf.
  - apply in_app_iff in Hin as [Hin|[<-|[]]]; apply (well_formed_row_mono d); auto.
Qed.

(** X7. The rows of the log are as the data model wants them, in every
    state reached from the empty store and from any store whose log is
    so: the amount is positive, the two endpoints are different, so
    that at least one is set, and every endpoint is an existing
    account. *)
Theorem log_rows_well_formed history :
  (forall t,
     In t (transactions (db (run hashpw checkpw history initial_state))) ->
     0 < t_amount t /\
     t_from_account_id t <> t_to_account_id t /\
     forall i, endpoint i t ->
       account_exists (db (run hashpw checkpw history initial_state)) i) /\
  (forall s,
     (forall t, In t (transactions (db s)) -> well_formed_row (db s) t) ->
     forall t,
       In t (transactions (db (run hashpw checkpw history s))) ->
       0 < t_amount t /\
       t_from_account_id t <> t_to_account_id t /\
       forall i, endpoint i t ->
         account_exists (db (run hashpw checkpw history s)) i).
Proof.
  assert (forall s,
            (forall t, In t (transactions (db s)) -> well_formed_row (db s) t) ->
            forall t, In t (transactions (db (run hashpw checkpw history s))) ->
                      well_formed_row (db (run hashpw checkpw history s)) t) as H.
  { intros s.
    apply (run_db_invariant
             (fun d => forall t, In t (transactions d) -> well_formed_row d t)).
    - intros name d. apply log_well_formed_step.
      + intros i. apply account_exists_ids.
        by destruct (insert_user_frame name d) as (-> & _).
      + left. by destruct (insert_user_frame name d) as (_ & -> & _).
    - intros now name d. apply log_well_formed_step.
      + intros i.
        destruct (create_account_effect now name d) as (rows & Ha & _).
        by apply (account_exists_app _ _ rows).
      + left. by destruct (create_account_frame now name d) as [_ ->].
    - intros now m name d. apply log_well_formed_step.
      + intros i. apply account_exists_ids, identities_ids, perform_identities.
      + apply perform_log. }
  split.
  - intros t. apply (H initial_state). by intros t' [].
  - exact H.
Qed.

Lemma serve_log e s :
  exists rows,
    transactions (db (serve hashpw checkpw e s)) = transactions (db s) ++ rows /\
    (length rows <= 1)%nat.
Proof.
  destruct (serve_db hashpw checkpw e s)
    as [->|[(name & ->)|[(now & name & ->)|(now & m & name & ->)]]].
  - exists []. rewrite app_nil_r. split; [done|simpl; lia].
  - exists []. rewrite app_nil_r. split; [|simpl; lia].
    by destruct (insert_user_frame name (db s)) as (_ & -> & _).
  - exists []. rewrite app_nil_r. split; [|simpl; lia].
    by destruct (create_account_frame now name (db s)) as [_ ->].
  - destruct (perform_log now m name (db s)) as [->|(t & -> & _)].
    + exists []. rewrite app_nil_r. split; [done|simpl; lia].
    + exists [t]. split; [done|simpl; lia].
Qed.

(** X8. The log is append-only.  After any history, from any state, the
    log is the log before followed by new rows, at most one for each
    request served: no row is ever changed, moved or removed. *)
Theorem log_append_only history s :
  exists rows,
    transactions (db (run hashpw checkpw history s)) =
      transactions (db s) ++ rows /\
    (length rows <= length history)%nat.
Proof.
  revert s. induction history as [|e history IH]; intros s.
  - exists []. rewrite app_nil_r. split; [done|simpl; lia].
  - destruct (serve_log e s) as (rows1 & H1 & Hlen1).
    destruct (IH (serve hashpw checkpw e s)) as (rows2 & H2 & Hlen2).
    exists (rows1 ++ rows2). cbn [run fold_left] in *. unfold run in H2.
    rewrite H2, H1, <- app_assoc. split; [done|].
    rewrite length_app. simpl. lia.
Qed.

(** X9. Nothing is deleted and no account changes hands.  After any
    history, from any state, [users] is the table before followed by
    new rows, and the rows of [accounts], their balances set aside,
    are those before, with the same id, owner and creation time and in
    the same order, followed by new rows. *)
Theorem users_and_accounts_kept history s :
  exists new_users new_accounts,
    users (db (run hashpw checkpw history s)) = users (db s) ++ new_users /\
    map account_identity (accounts (db (run hashpw checkpw history s))) =
      map account_identity (accounts (db s)) ++ new_accounts.
Proof.
  apply (run_db_invariant
           (fun d => exists new_users new_accounts,
              users d = users (db s) ++ new_users /\
              map account_identity (accounts d) =
                map account_identity (accounts (db s)) ++ new_accounts)).
  - intros name d (nu & na & Hu & Ha).
    destruct (insert_user_frame name d) as (-> & _).
    rewrite insert_user_users. destruct (existsb _ _); [by exists nu, na|].
    eexists (nu ++ _), na. by rewrite Hu, <- app_assoc.
  - intros now name d (nu & na & Hu & Ha).
    destruct (create_account_frame now name d) as [-> _].
    destruct (create_account_effect now name d) as (rows & -> & _).
    exists nu, (na ++ map account_identity rows).
    by rewrite map_app, Ha, <- app_assoc.
  - intros now m name d (nu & na & Hu & Ha).
    destruct (perform_frame now m name d) as [-> _].
    rewrite perform_identities. by exists nu, na.
  - exists [], []. by rewrite !app_nil_r.
Qed.

Lemma insert_user_users_id_seq name d :
  users_id_seq (fst (insert_user name d)) = users_id_seq d + 1.
Proof. unfold insert_user. by destruct (existsb _ _). Qed.

Lemma insert_user_schema name d :
  schema_constraints d -> schema_constraints (fst (insert_user name d)).
Proof.
  intros (Hids & Hlt & Hname & Hpkey & Hfk). unfold schema_constraints.
  destruct (insert_user_frame name d) as (Ha & _ & Hseq).
  rewrite insert_user_users_id_seq, Ha.
  assert (accounts_pkey (fst (insert_user name d))) as Hpkey'
    by (apply (accounts_pkey_same_ids d); [by rewrite Ha|done|done]).
  pose proof (insert_user_key name d Hname) as Hname'.
  rewrite insert_user_users in *. destruct (existsb _ _).
  - split; [done|]. split; [|done]. intros u Hu. specialize (Hlt u Hu). lia.
  - split; [|split; [|split; [done|split; [done|]]]].
    + rewrite map_app. apply NoDup_app. split; [done|].
      split; [|repeat constructor; rewrite list_elem_of_In; by intros []].
      intros i Hi Hi'. rewrite list_elem_of_In in Hi, Hi'.
      destruct Hi' as [<-|[]]. apply in_map_iff in Hi as (u & Hid & Hu).
      specialize (Hlt u Hu). simpl in Hid. lia.
    + intros u [Hu|[<-|[]]]%in_app_iff; [|simpl; lia]. specialize (Hlt u Hu). lia.
    + intros a Hin. destruct (Hfk a Hin) as (u & Hu & Hid).
      exists u. split; [|done]. apply in_app_iff. by left.
Qed.

Lemma create_account_schema now name d :
  schema_constraints d -> schema_constraints (fst (create_account now name d)).
Proof.
  intros (Hids & Hlt & Hname & [Hnd Hbound] & Hfk).
  unfold schema_constraints, users_username_key, accounts_pkey.
  destruct (create_account_frame now name d) as [-> _].
  destruct (create_account_effect now name d)
    as (rows & -> & -> & -> & Hnd' & Hrows).
  do 3 (split; [done|]). split; [split|].
  - rewrite map_app. apply NoDup_app. split; [done|]. split; [|done].
    intros i Hi Hi'. rewrite list_elem_of_In in Hi, Hi'.
    apply in_map_iff in Hi as (a & <- & Ha).
    apply in_map_iff in Hi' as (a' & Heq & Ha').
    specialize (Hbound a Ha). destruct (Hrows a' Ha') as (? & _). lia.
  - intros a [Hin|Hin]%in_app_iff.
    + specialize (Hbound a Hin). lia.
    + destruct (Hrows a Hin) as (? & _). lia.
  - intros a [Hin|Hin]%in_app_iff; [by apply Hfk|].
    destruct (Hrows a Hin) as (_ & _ & _ & u & ? & ? & _). eauto.
Qed.

Lemma perform_schema now m name d :
  schema_constraints d -> schema_constraints (fst (perform now m name d)).
Proof.
  intros (Hids & Hlt & Hname & Hpkey & Hfk).
  unfold schema_constraints, users_username_key.
  destruct (perform_frame now m name d) as [-> Hseq].
  rewrite perform_users_id_seq.
  pose proof (perform_identities now m name d) as Hsame.
  do 3 (split; [done|]). split.
  - apply (accounts_pkey_same_ids d); [by apply identities_ids|done|done].
  - intros a' Hin'. apply (in_map a_user_id) in Hin'.
    rewrite (identities_owners _ _ Hsame) in Hin'.
    apply in_map_iff in Hin' as (a & <- & Hin). by apply Hfk.
Qed.

Lemma run_schema_constraints history s :
  schema_constraints (db s) ->
  schema_constraints (db (run hashpw checkpw history s)).
Proof.
  apply run_db_invariant.
  - apply insert_user_schema.
  - apply create_account_schema.
  - apply perform_schema.
Qed.

Lemma empty_database_schema : schema_constraints empty_database.
Proof.
  split; [constructor|]. split; [by intros u []|]. split; [constructor|].
  split; [split; [constructor|by intros a []]|by intros a []].
Qed.

(** X10. The keys of the schema hold in every state reached from the
    empty store, and from any store in which they hold: user ids and
    account ids are distinct and drawn from their sequences, user names
    are distinct, and the owner of every account is the id of a row of
    [users]. *)
Theorem schema_constraints_kept history :
  schema_constraints (db (run hashpw checkpw history initial_state)) /\
  (forall s, schema_constraints (db s) ->
             schema_constraints (db (run hashpw checkpw history s))).
Proof.
  split.
  - apply (run_schema_constraints history initial_state), empty_database_schema.
  - apply run_schema_constraints.
Qed.

End Histories.

(** ** Opening, reading and listing accounts *)

Lemma filter_unique_key {A B : Type} (f : A -> B) (p : A -> bool) (l : list A) x :
  NoDup (map f l) -> In x l -> (forall y, p y = true <-> f y = f x) ->
  List.filter p l = [x].
Proof.
  intros Hnd Hin Hp. induction l as [|z l IH]; [done|].
  inversion Hnd as [|? ? Hz Hl]; subst. rewrite list_elem_of_In in Hz. simpl.
  destruct (p z) eqn:E.
  - apply Hp in E. destruct Hin as [->|Hin].
    + f_equal. destruct (List.filter p l) as [|y l'] eqn:F; [done|].
      assert (In y (List.filter p l)) as Hy by (rewrite F; by left).
      apply filter_In in Hy as [Hy Hpy]. apply Hp in Hpy.
      destruct Hz. rewrite <- Hpy. by apply in_map.
    + destruct Hz. rewrite E. by apply in_map.
  - destruct Hin as [->|Hin]; [|by apply IH].
    assert (p x = true) by (by apply Hp). congruence.
Qed.

Lemma select_user_by_name d name u :
  users_username_key d -> In u (users d) -> u_username u = name ->
  List.filter (fun u => String.eqb (u_username u) name) (users d) = [u].
Proof.
  intros Hkey Hin Hname. apply (filter_unique_key u_username); [done|done|].
  intros y. by rewrite String.eqb_eq, Hname.
Qed.

Lemma find_app_fresh {A : Type} (p : A -> bool) (l : list A) x :
  (forall y, In y l -> p y = false) -> p x = true ->
  List.find p (l ++ [x]) = Some x.
Proof.
  intros Hl Hx. induction l as [|y l IH]; simpl; [by rewrite Hx|].
  rewrite (Hl y) by (by left). apply IH. intros z Hz. apply Hl. by right.
Qed.

(** X11. Opening an account and reading it back.  In a store that meets
    the keys of the schema, for a caller whose name has a user row,
    [create_account] appends exactly one row, with the next id of the
    sequence, the caller's user id as owner, balance 0 and the time of
    the request, and returns that id with balance 0; [get_account] on
    the returned id then gives the caller the same answer, and gives a
    caller with any other name 404. *)
Theorem create_then_get_account now name d u :
  schema_constraints d ->
  In u (users d) -> u_username u = name ->
  let result := create_account now name d in
  let response := {| id := accounts_id_seq d; balance := 0 |} in
  snd result = Return response /\
  accounts (fst result) =
    accounts d ++ [ {| a_id := accounts_id_seq d; a_user_id := u_id u;
                       a_balance := 0; a_created_at := now |} ] /\
  accounts_id_seq (fst result) = accounts_id_seq d + 1 /\
  get_account (id response) name (fst result) = Return response /\
  (forall other, other <> name ->
     get_account (id response) other (fst result) =
       Raise (HTTPException NOT_FOUND "Account not found")).
Proof.
  intros (Hids & _ & Hkey & [_ Hbound] & _) Hin Hname result response.
  subst result response. unfold create_account.
  rewrite (select_user_by_name _ _ _ Hkey Hin Hname). cbn.
  split; [done|]. split; [done|]. split; [done|].
  assert (forall y, In y (accounts d) -> (a_id y =? accounts_id_seq d) = false) as Hold
    by (intros y Hy; specialize (Hbound y Hy); apply Z.eqb_neq; lia).
  split.
  - unfold get_account, user_id_of. cbn [users accounts].
    rewrite (select_user_by_name _ _ _ Hkey Hin Hname). cbn [map fetchrow head].
    rewrite fetchrow_filter, find_app_fresh; [done| |].
    + intros y Hy. by rewrite (Hold y Hy).
    + simpl. by rewrite !Z.eqb_refl.
  - intros other Hother. unfold get_account, user_id_of. cbn [users accounts].
    rewrite fetchrow_filter.
    destruct (List.find _ (accounts d ++ _)) as [a|] eqn:E; [|done].
    apply find_some in E as [Ha E]. apply andb_true_iff in E as [Eid Eowner].
    apply Z.eqb_eq in Eid. apply in_app_iff in Ha as [Ha|[<-|[]]].
    + specialize (Hbound a Ha). lia.
    + simpl in Eowner. rewrite fetchrow_map, fetchrow_filter in Eowner.
      destruct (List.find _ (users d)) as [u'|] eqn:Eu; [|done].
      apply find_some in Eu as [Hu' Eu]. apply String.eqb_eq in Eu.
      simpl in Eowner. apply Z.eqb_eq in Eowner.
      assert (u = u') as <- by (by apply (NoDup_map_eq u_id (users d))).
      congruence.
Qed.

(** X12. For a name without a user row, [create_account] inserts
    nothing, draws no id, and fails on its assertion. *)
Theorem create_account_unknown_user now name d :
  ~ identity_exists d name ->
  snd (create_account now name d) = Raise AssertionError /\
  users (fst (create_account now name d)) = users d /\
  accounts (fst (create_account now name d)) = accounts d /\
  transactions (fst (create_account now name d)) = transactions d /\
  accounts_id_seq (fst (create_account now name d)) = accounts_id_seq d.
Proof.
  intros Hno. unfold create_account.
  assert (List.filter (fun u => String.eqb (u_username u) name) (users d) = []) as ->.
  { destruct (List.filter _ _) as [|u l] eqn:E; [done|].
    assert (In u (List.filter (fun u => String.eqb (u_username u) name) (users d)))
      as Hin by (rewrite E; by left).
    apply filter_In in Hin as [Hin Hname]. apply String.eqb_eq in Hname.
    destruct Hno. by exists u. }
  simpl. by rewrite app_nil_r.
Qed.

Lemma scalar_subquery_is_join d name a :
  users_username_key d ->
  eq_nullable (a_user_id a) (user_id_of d name) = joined_with_username d name a.
Proof.
  intros Hkey.
  destruct (joined_with_username d name a) eqn:J.
  - apply joined_with_username_spec in J as (u & Hu & Hid & Hname).
    assert (user_id_of d name = Some (u_id u)) as ->
      by (apply (user_id_of_spec _ _ _ Hkey); eauto).
    by apply Z.eqb_eq.
  - unfold eq_nullable. destruct (user_id_of d name) as [x|] eqn:E; [|done].
    apply (user_id_of_spec _ _ _ Hkey) in E as (u & Hu & Hname & Hid).
    apply Z.eqb_neq. intros Heq.
    assert (joined_with_username d name a = true); [|congruence].
    apply joined_with_username_spec. exists u. split; [done|]. split; congruence.
Qed.

(** X13. Listing the caller's accounts.  With distinct user names,
    [get_accounts] never fails and returns, newest first, the accounts
    whose owner is the user called as the caller: all of them, each
    once for each of its rows, and no other; they are the accounts that
    the join of the transaction endpoints accepts as the caller's, and
    each of them can be read with [get_account].  A caller who owns
    nothing gets the empty list. *)
Theorem get_accounts_lists_own_accounts name d :
  users_username_key d ->
  exists rows,
    get_accounts name d =
      Return (map (fun a => {| id := a_id a; balance := a_balance a |}) rows) /\
    Permutation rows (List.filter (joined_with_username d name) (accounts d)) /\
    (forall a, In a rows <-> In a (accounts d) /\ owner_is d name a) /\
    Sorted (fun x y => a_created_at y <= a_created_at x) rows /\
    (forall a, In a rows ->
       owned_by d (a_id a) name /\
       get_account (a_id a) name d <>
         Raise (HTTPException NOT_FOUND "Account not found")) /\
    ((forall a, In a (accounts d) -> ~ owner_is d name a) -> rows = []).
Proof.
  intros Hkey. unfold get_accounts. cbv zeta.
  rewrite (filter_ext _ (joined_with_username d name))
    by (intros a; by apply scalar_subquery_is_join).
  eexists. split; [done|].
  pose proof (order_by_desc_perm a_created_at
                (List.filter (joined_with_username d name) (accounts d))) as Hperm.
  assert (forall a,
            In a (order_by_desc a_created_at
                    (List.filter (joined_with_username d name) (accounts d))) <->
            In a (accounts d) /\ owner_is d name a) as Hin.
  { intros a. split.
    - intros H. apply (Permutation_in _ Hperm) in H.
      apply filter_In in H as [H J]. by apply joined_with_username_spec in J.
    - intros [H J]. apply (Permutation_in _ (Permutation_sym Hperm)).
      apply filter_In. split; [done|]. by apply joined_with_username_spec. }
  split; [done|]. split; [done|]. split; [apply order_by_desc_sorted|]. split.
  - intros a [Ha (u & Hu & Hid & Hname)]%Hin.
    assert (owned_by d (a_id a) name) as Hown by (exists a, u; auto).
    split; [done|]. intros H. by apply (get_account_not_found _ _ _ Hkey) in H.
  - intros Hnone.
    destruct (order_by_desc _ _) as [|a l] eqn:E; [done|].
    assert (In a (accounts d) /\ owner_is d name a) as [Ha Ho]
      by (apply Hin; by left).
    by destruct (Hnone a Ha).
Qed.

(** ** Users and credentials *)

(** X14. [get_user] answers 404 "User not found" exactly for the names
    without a user row; and once a name has been sent to [register],
    whether the registration was accepted or refused, [get_user] finds
    it. *)
Theorem get_user_finds_registered :
  (forall name d,
     get_user name d = Raise (HTTPException NOT_FOUND "User not found") <->
     ~ identity_exists d name) /\
  (forall name d, get_user name d = Return tt <-> identity_exists d name) /\
  (forall hashpw salt request s,
     get_user (username request) (db (fst (register hashpw salt request s))) =
       Return tt).
Proof.
  assert (forall name d, get_user name d = Return tt <-> identity_exists d name) as H.
  { intros name d. unfold get_user. rewrite fetchrow_filter.
    destruct (List.find _ _) as [u|] eqn:E.
    - split; [|done]. intros _. apply find_some in E as [Hin E].
      apply String.eqb_eq in E. by exists u.
    - split; [done|]. intros (u & Hin & Hname).
      eapply find_none in E; [|exact Hin]. simpl in E.
      rewrite Hname, String.eqb_refl in E. done. }
  split; [|split; [exact H|]].
  - intros name d. rewrite <- H. unfold get_user.
    destruct (fetchrow _); split; intros; congruence.
  - intros hashpw salt request s. apply H.
    rewrite register_db. apply insert_user_identity.
Qed.

Section Credentials.

Variable hashpw : string -> string -> string.
Variable checkpw : string -> string -> bool.

(** X15. [verify_credentials] returns the caller's name exactly when the
    name is in the credential map and bcrypt accepts the password
    against the stored hash; every refusal is the same exception, 401
    "Incorrect username or password", whether the name is unknown or
    the password is wrong. *)
Theorem verify_credentials_accepts credentials s :
  (forall name,
     verify_credentials checkpw credentials s = Return name <->
     name = credentials_username credentials /\
     exists hashed,
       _users s !! name = Some hashed /\
       checkpw (credentials_password credentials) hashed = true) /\
  (forall e,
     verify_credentials checkpw credentials s = Raise e ->
     e = HTTPException UNAUTHORIZED "Incorrect username or password").
Proof.
  unfold verify_credentials, verify_password.
  destruct (_users s !! credentials_username credentials) as [hashed|] eqn:E.
  - destruct (checkpw (credentials_password credentials) hashed) eqn:C.
    + split; [|done]. intros name. split.
      * intros [= <-]. split; [done|]. eauto.
      * by intros [-> _].
    + split; [|by intros e [= <-]]. intros name. split; [done|].
      intros [-> (h & Hh & Hc)]. congruence.
  - split; [|by intros e [= <-]]. intros name. split; [done|].
    intros [-> (h & Hh & _)]. congruence.
Qed.

(** X16. Registering, then logging in.  When bcrypt accepts a password
    against the hash it made of it, a name that is not in the
    credential map can be registered and its credentials are accepted
    afterwards; the registration changes the answer of
    [verify_credentials] for no other name. *)
Theorem register_then_verify salt request s :
  checkpw (password request) (hashpw (password request) salt) = true ->
  _users s !! username request = None ->
  let s' := fst (register hashpw salt request s) in
  snd (register hashpw salt request s) = Return tt /\
  verify_credentials checkpw
    {| credentials_username := username request;
       credentials_password := password request |} s' =
    Return (username request) /\
  (forall credentials,
     credentials_username credentials <> username request ->
     verify_credentials checkpw credentials s' =
     verify_credentials checkpw credentials s).
Proof.
  intros Hbcrypt Hfree s'. subst s'. rewrite register_cases. cbv zeta.
  rewrite Hfree. cbn [fst snd]. split; [done|].
  unfold verify_credentials, verify_password, hash_password.
  cbn [_users credentials_username credentials_password]. split.
  - by rewrite lookup_insert_eq, Hbcrypt.
  - intros credentials Hne. by rewrite lookup_insert_ne.
Qed.

(** X17. A start of the process logs everybody out and keeps the store.
    After [lifespan] every credential is refused with 401, so that any
    history of requests without a registration, whatever credentials
    they carry, leaves the state as [lifespan] made it. *)
Theorem restart_refuses_everyone s :
  db (lifespan s) = db s /\
  (forall credentials, exists detail,
     authenticate checkpw credentials (lifespan s) =
       Raise (HTTPException UNAUTHORIZED detail)) /\
  (forall history,
     (forall e salt request, In e history -> e <> PostRegister salt request) ->
     run hashpw checkpw history (lifespan s) = lifespan s).
Proof.
  split; [done|].
  assert (forall credentials, exists detail,
            authenticate checkpw credentials (lifespan s) =
              Raise (HTTPException UNAUTHORIZED detail)) as Hauth.
  { intros credentials. unfold authenticate, verify_credentials.
    destruct credentials as [c|]; [|eauto].
    cbn [lifespan clear_users _users]. rewrite lookup_empty. eauto. }
  split; [exact Hauth|].
  induction history as [|e history IH]; intros Hreg; [done|].
  cbn [run fold_left].
  assert (serve hashpw checkpw e (lifespan s) = lifespan s) as ->.
  { destruct e as [|salt request|now c|now c body|now c body|now c body];
      cbn [serve]; unfold with_auth;
      try (destruct (Hauth c) as [detail ->]; done).
    - done.
    - destruct (Hreg _ salt request (or_introl eq_refl)). done. }
  apply IH. intros e' salt request Hin. apply Hreg. by right.
Qed.

End Credentials.

(** ** Movements, one after the other *)

Lemma owned_by_kept d d' i name :
  users d' = users d ->
  map account_identity (accounts d') = map account_identity (accounts d) ->
  owned_by d i name -> owned_by d' i name.
Proof.
  intros Hu Hsame (a & u & Ha & Huser & Hid & Howner & Hname).
  apply (in_map account_identity) in Ha. rewrite <- Hsame in Ha.
  apply in_map_iff in Ha as (a' & Heq & Ha').
  injection Heq as Hid' Howner' _.
  exists a', u. rewrite Hu. split; [done|]. split; [done|].
  split; [congruence|]. split; [congruence|done].
Qed.

Lemma perform_owned_by now m name d i reader :
  owned_by d i reader -> owned_by (fst (perform now m name d)) i reader.
Proof.
  apply owned_by_kept; [by destruct (perform_frame now m name d)|].
  apply perform_identities.
Qed.

Lemma find_apply_row t rows i :
  List.find (fun a => a_id a =? i) (map (apply_row t) rows) =
  apply_row t <$> List.find (fun a => a_id a =? i) rows.
Proof.
  induction rows as [|a rows IH]; [done|]. simpl.
  destruct (a_id a =? i); [done|exact IH].
Qed.

(** X18. A deposit followed by a withdrawal of the same amount, on an
    account the caller owns whose balance is not negative: both are
    accepted, the [accounts] table is back to what it was, row by row,
    and the log has grown by the two rows, the deposit first. *)
Theorem deposit_then_withdrawal now1 now2 account_id amount name d b :
  0 < amount ->
  owned_by d account_id name ->
  balance_of d account_id = Some b ->
  0 <= b ->
  let deposit := Deposit {| deposit_account_id := account_id;
                            deposit_amount := amount |} in
  let withdrawal := Withdrawal {| withdrawal_account_id := account_id;
                                  withdrawal_amount := amount |} in
  let d1 := fst (perform now1 deposit name d) in
  let d2 := fst (perform now2 withdrawal name d1) in
  snd (perform now1 deposit name d) = Return tt /\
  snd (perform now2 withdrawal name d1) = Return tt /\
  accounts d2 = accounts d /\
  transactions d2 =
    transactions d ++
    [ {| t_id := transactions_id_seq d; t_from_account_id := None;
         t_to_account_id := Some account_id; t_amount := amount;
         t_created_at := now1 |};
      {| t_id := transactions_id_seq d1; t_from_account_id := Some account_id;
         t_to_account_id := None; t_amount := amount;
         t_created_at := now2 |} ].
Proof.
  intros Hpos Hown Hb Hnonneg deposit withdrawal d1 d2.
  destruct (balance_of_find _ _ _ Hb) as (a & Hfind & Ha).
  assert (snd (perform now1 deposit name d) = Return tt) as Hout1.
  { subst deposit. cbn [perform]. unfold post_deposit, CreateDepositRequest_validate.
    cbn [deposit_amount]. rewrite (Gt_0_valid _ Hpos), create_deposit_cases.
    cbv zeta. cbn [deposit_account_id].
    by rewrite (visible_source_owned _ _ _ _ Hown Hfind). }
  destruct (perform_accepted _ _ _ _ Hout1) as (t1 & Hlog1 & Hacc1 & Ht1 & _).
  fold d1 in Hlog1, Hacc1.
  assert (owned_by d1 account_id name) as Hown1 by (by apply perform_owned_by).
  assert (List.find (fun a => a_id a =? account_id) (accounts d1) =
          Some (apply_row t1 a)) as Hfind1
    by (by rewrite Hacc1, find_apply_row, Hfind).
  assert (a_balance (apply_row t1 a) = b + amount) as Hb1.
  { unfold apply_row. simpl. rewrite Ht1. unfold movement_row. subst deposit. simpl.
    rewrite signed_amount_deposit, (find_id_eq _ _ _ Hfind), Z.eqb_refl. lia. }
  assert (snd (perform now2 withdrawal name d1) = Return tt) as Hout2.
  { subst withdrawal. cbn [perform].
    unfold post_withdrawal, CreateWithdrawalRequest_validate.
    cbn [withdrawal_amount]. rewrite (Gt_0_valid _ Hpos), create_withdrawal_cases.
    cbv zeta. cbn [withdrawal_account_id withdrawal_amount].
    rewrite (visible_source_owned _ _ _ _ Hown1 Hfind1), Hb1.
    assert ((b + amount + - amount <? 0) = false) as -> by (apply Z.ltb_ge; lia).
    done. }
  destruct (perform_accepted _ _ _ _ Hout2) as (t2 & Hlog2 & Hacc2 & Ht2 & _).
  fold d2 in Hlog2, Hacc2.
  split; [done|]. split; [done|]. split.
  - rewrite Hacc2, Hacc1, map_map. rewrite <- (map_id (accounts d)) at 2.
    apply map_ext. intros x. unfold apply_row. rewrite Ht1, Ht2.
    unfold movement_row. subst deposit withdrawal. simpl.
    rewrite signed_amount_deposit, signed_amount_withdrawal.
    destruct x as [xi xu xb xc]. unfold add_balance. simpl. f_equal.
    destruct (xi =? account_id); lia.
  - rewrite Hlog2, Hlog1, Ht1, Ht2, <- app_assoc. done.
Qed.

(** Whatever the order among rows of equal key, a row whose key is above
    every other comes first in a result sorted by decreasing key, and
    the rest of the result is the other rows. *)
Lemma sorted_desc_newest {A : Type} (key : A -> Z) (x : A) (l l' : list A) :
  Sorted (fun a b => key b <= key a) l' ->
  Permutation l' (x :: l) ->
  (forall y, In y l -> key y < key x) ->
  exists rest, l' = x :: rest /\ Permutation rest l.
Proof.
  intros Hsorted Hperm Hnewest.
  destruct l' as [|h rest].
  { by apply Permutation_nil_cons in Hperm. }
  assert (In h (x :: l)) as [<-|Hh]
    by (apply (Permutation_in _ Hperm); by left).
  - exists rest. split; [done|]. by apply Permutation_cons_inv in Hperm.
  - exfalso. pose proof (Hnewest h Hh) as Hlt.
    assert (In x (h :: rest)) as [->|Hx]
      by (apply (Permutation_in _ (Permutation_sym Hperm)); by left);
      [lia|].
    apply Sorted_StronglySorted in Hsorted; [|intros a b c; lia].
    apply StronglySorted_inv in Hsorted as [_ Hall].
    rewrite List.Forall_forall in Hall. specialize (Hall x Hx). lia.
Qed.

(** Two results sorted by decreasing key that hold the same rows are
    equal when no two rows have the same key. *)
Lemma sorted_desc_unique {A : Type} (key : A -> Z) (l1 l2 : list A) :
  Sorted (fun a b => key b <= key a) l1 ->
  Sorted (fun a b => key b <= key a) l2 ->
  Permutation l1 l2 ->
  NoDup (map key l1) ->
  l1 = l2.
Proof.
  revert l2. induction l1 as [|a l1 IH]; intros l2 Hs1 Hs2 Hperm Hnodup.
  { by apply Permutation_nil in Hperm. }
  destruct l2 as [|b l2].
  { apply Permutation_sym, Permutation_nil in Hperm. done. }
  apply NoDup_cons in Hnodup as [Hfresh Hnodup].
  assert (a = b) as <-.
  { assert (In a (b :: l2)) as [Hab|Ha]
      by (apply (Permutation_in _ Hperm); by left); [done|].
    assert (In b (a :: l1)) as [Hba|Hb]
      by (apply (Permutation_in _ (Permutation_sym Hperm)); by left); [done|].
    exfalso.
    apply Sorted_StronglySorted in Hs1; [|intros x y z; lia].
    apply Sorted_StronglySorted in Hs2; [|intros x y z; lia].
    apply StronglySorted_inv in Hs1 as [_ Hall1].
    apply StronglySorted_inv in Hs2 as [_ Hall2].
    rewrite List.Forall_forall in Hall1, Hall2.
    specialize (Hall1 b Hb). specialize (Hall2 a Ha).
    apply Hfresh. rewrite list_elem_of_In.
    replace (key a) with (key b) by lia. by apply in_map. }
  f_equal. apply IH.
  - by apply Sorted_inv in Hs1 as [? _].
  - by apply Sorted_inv in Hs2 as [? _].
  - by apply Permutation_cons_inv in Hperm.
  - done.
Qed.

(** X19. An accepted movement heads the listing of its accounts.  When
    a movement is accepted at a time later than every logged time, the
    listing of an account it takes from or gives to, asked by the owner
    of that account, starts with one new entry, the movement's source,
    destination, amount and time, and goes on with the entries of the
    listing before the movement, newest first, in whatever order the
    entries of equal time come; when the times of the earlier entries
    are distinct, it goes on with the earlier listing itself. *)
Theorem accepted_movement_listed_first now m name d i reader :
  snd (perform now m name d) = Return tt ->
  (forall row, In row (transactions d) -> t_created_at row < now) ->
  movement_source m = Some i \/ movement_destination m = Some i ->
  owned_by d i reader ->
  exists before rest,
    get_transactions_by_account i reader d = Return before /\
    get_transactions_by_account i reader (fst (perform now m name d)) =
      Return ({| from_account_id := movement_source m;
                 to_account_id := movement_destination m;
                 amount := movement_amount m;
                 created_at := now |} :: rest) /\
    Permutation rest before /\
    newest_first rest /\
    (NoDup (map created_at before) -> rest = before).
Proof.
  intros Hout Hlater Hend Hown.
  destruct (perform_accepted _ _ _ _ Hout) as (t & Hlog & _ & Ht & _).
  set (listed := List.filter (involves i) (transactions d)).
  assert (involves i t = true) as Hinv
    by (apply involves_spec; rewrite Ht; unfold endpoint; simpl; tauto).
  destruct (sorted_desc_newest t_created_at t listed
              (order_by_desc t_created_at (listed ++ [t])))
    as (rest & Hsorted & Hrest).
  { apply order_by_desc_sorted. }
  { rewrite order_by_desc_perm. symmetry. apply Permutation_cons_append. }
  { intros y [Hy _]%filter_In. rewrite Ht. simpl. by apply Hlater. }
  pose proof (order_by_desc_sorted t_created_at (listed ++ [t])) as Hnewest.
  rewrite Hsorted in Hnewest. apply Sorted_inv in Hnewest as [Hnewest _].
  assert (Permutation (map select_transaction rest)
            (map select_transaction (order_by_desc t_created_at listed))) as Hperm
    by (apply Permutation_map; by rewrite order_by_desc_perm).
  exists (map select_transaction (order_by_desc t_created_at listed)),
         (map select_transaction rest).
  split; [by apply get_transactions_by_account_owned|].
  split; [|split; [exact Hperm|split]].
  - rewrite (get_transactions_by_account_owned _ _ _
               (perform_owned_by now m name d i reader Hown)).
    rewrite Hlog, List.filter_app. simpl. rewrite Hinv. fold listed.
    rewrite Hsorted. simpl. by rewrite Ht.
  - by apply Sorted_map.
  - intros Hdistinct. apply (sorted_desc_unique created_at).
    + by apply Sorted_map.
    + apply Sorted_map. apply (order_by_desc_sorted t_created_at).
    + exact Hperm.
    + by rewrite Hperm.
Qed.

(** * The earlier revision *)

Lemma legacy_rollback_same d : Legacy.rollback d d = d.
Proof. by destruct d. Qed.

Lemma legacy_select_account account_id d :
  Legacy.select_account account_id d =
  List.find (fun a => a_id a =? account_id) (Legacy.accounts d).
Proof. apply fetchrow_filter. Qed.

(** X20. In the earlier revision every check comes before the first
    write: a deposit, withdrawal or transfer that is refused, for
    whatever reason, hands back the database it received, tables and
    sequences. *)
Theorem legacy_refusal_changes_nothing :
  (forall payload d e,
     snd (Legacy.create_deposit payload d) = Legacy.Raise e ->
     fst (Legacy.create_deposit payload d) = d) /\
  (forall payload d e,
     snd (Legacy.create_withdrawal payload d) = Legacy.Raise e ->
     fst (Legacy.create_withdrawal payload d) = d) /\
  (forall payload d e,
     snd (Legacy.create_transfer payload d) = Legacy.Raise e ->
     fst (Legacy.create_transfer payload d) = d).
Proof.
  split; [|split]; intros payload d e.
  - unfold Legacy.create_deposit, Legacy.transaction.
    destruct (_ <=? 0); [done|].
    destruct (Legacy.select_account _ d); simpl; [done|].
    intros _. apply legacy_rollback_same.
  - unfold Legacy.create_withdrawal, Legacy.transaction.
    destruct (_ <=? 0); [done|].
    destruct (Legacy.select_account _ d) as [a|]; simpl.
    + destruct (a_balance a <? _); simpl; [|done].
      intros _. apply legacy_rollback_same.
    + intros _. apply legacy_rollback_same.
  - unfold Legacy.create_transfer, Legacy.transaction.
    destruct (_ <=? 0); [done|]. destruct (_ =? _); [done|].
    destruct (Legacy.select_account (Legacy.from_account_id payload) d) as [a|];
      destruct (Legacy.select_account (Legacy.to_account_id payload) d) as [b|];
      simpl; try (intros _; apply legacy_rollback_same).
    destruct (a_balance a <? _); simpl; [|done].
    intros _. apply legacy_rollback_same.
Qed.

(** X21. The guards of the earlier revision: an amount that is zero or
    negative is refused with 400 and the message of the handler, and so
    is a transfer from an account to itself; the database is handed
    back as received. *)
Theorem legacy_guards :
  (forall payload d,
     Legacy.deposit_amount payload <= 0 ->
     Legacy.create_deposit payload d =
       (d, Legacy.Raise (Legacy.HTTPException BAD_REQUEST
                           "Deposit amount must be positive"))) /\
  (forall payload d,
     Legacy.withdrawal_amount payload <= 0 ->
     Legacy.create_withdrawal payload d =
       (d, Legacy.Raise (Legacy.HTTPException BAD_REQUEST
                           "Withdrawal amount must be positive"))) /\
  (forall payload d,
     Legacy.transfer_amount payload <= 0 ->
     Legacy.create_transfer payload d =
       (d, Legacy.Raise (Legacy.HTTPException BAD_REQUEST
                           "Transfer amount must be positive"))) /\
  (forall payload d,
     0 < Legacy.transfer_amount payload ->
     Legacy.from_account_id payload = Legacy.to_account_id payload ->
     Legacy.create_transfer payload d =
       (d, Legacy.Raise (Legacy.HTTPException BAD_REQUEST
                           "Cannot transfer to the same account"))).
Proof.
  split; [|split; [|split]]; intros payload d H.
  - unfold Legacy.create_deposit. by apply Z.leb_le in H as ->.
  - unfold Legacy.create_withdrawal. by apply Z.leb_le in H as ->.
  - unfold Legacy.create_transfer. by apply Z.leb_le in H as ->.
  - intros Heq. unfold Legacy.create_transfer.
    apply Z.leb_gt in H as ->. by apply Z.eqb_eq in Heq as ->.
Qed.

Lemma legacy_balance_after_update change account_id d i :
  Legacy.balance_of (Legacy.update_balance change account_id d) i =
  (fun b => if i =? account_id then b + change else b) <$> Legacy.balance_of d i.
Proof.
  unfold Legacy.balance_of. rewrite !legacy_select_account.
  cbn [Legacy.update_balance Legacy.accounts]. rewrite find_update_accounts.
  destruct (List.find _ (Legacy.accounts d)) as [a|] eqn:E; [|done]. simpl.
  rewrite (find_id_eq _ _ _ E). by destruct (i =? account_id).
Qed.

(** X22. A withdrawal of the earlier revision, of a positive amount
    from an existing account with balance [b]: when [b] is less than
    the amount the answer is 400 "Insufficient funds" and nothing
    changes; otherwise the balance becomes [b - amount] (0 when they are
    equal), the other balances are kept, and one row of type
    "withdrawal" with the account and the amount is appended to the log
    and returned. *)
Theorem legacy_withdrawal_semantics payload d b :
  0 < Legacy.withdrawal_amount payload ->
  Legacy.balance_of d (Legacy.withdrawal_account_id payload) = Some b ->
  let result := Legacy.create_withdrawal payload d in
  let row := {| Legacy.t_id := Legacy.transactions_id_seq d;
                Legacy.t_account_id := Legacy.withdrawal_account_id payload;
                Legacy.t_amount := Legacy.withdrawal_amount payload;
                Legacy.t_transaction_type := "withdrawal" |} in
  (b < Legacy.withdrawal_amount payload ->
     result = (d, Legacy.Raise (Legacy.HTTPException BAD_REQUEST
                                  "Insufficient funds"))) /\
  (Legacy.withdrawal_amount payload <= b ->
     snd result = Legacy.Return row /\
     Legacy.transactions (fst result) = Legacy.transactions d ++ [row] /\
     Legacy.balance_of (fst result) (Legacy.withdrawal_account_id payload) =
       Some (b - Legacy.withdrawal_amount payload) /\
     (forall other, other <> Legacy.withdrawal_account_id payload ->
        Legacy.balance_of (fst result) other = Legacy.balance_of d other)).
Proof.
  intros Hpos Hb result row. subst result row.
  unfold Legacy.create_withdrawal, Legacy.transaction.
  apply Z.leb_gt in Hpos as ->.
  pose proof Hb as Hb'. unfold Legacy.balance_of in Hb'.
  destruct (Legacy.select_account _ d) as [a|] eqn:E; [|done].
  injection Hb' as Ha. split.
  - intros Hlt. assert ((a_balance a <? Legacy.withdrawal_amount payload) = true)
      as -> by (apply Z.ltb_lt; lia).
    by rewrite legacy_rollback_same.
  - intros Hle. assert ((a_balance a <? Legacy.withdrawal_amount payload) = false)
      as -> by (apply Z.ltb_ge; lia).
    cbn [fst snd Legacy.insert_transaction]. split; [done|]. split; [done|].
    assert (forall i,
      Legacy.balance_of
        {| Legacy.users := Legacy.users d;
           Legacy.accounts :=
             update_accounts (fun a => a_id a =? Legacy.withdrawal_account_id payload)
               (- Legacy.withdrawal_amount payload) (Legacy.accounts d);
           Legacy.transactions := Legacy.transactions d ++
             [ {| Legacy.t_id := Legacy.transactions_id_seq d;
                  Legacy.t_account_id := Legacy.withdrawal_account_id payload;
                  Legacy.t_amount := Legacy.withdrawal_amount payload;
                  Legacy.t_transaction_type := Legacy.WITHDRAWAL |} ];
           Legacy.users_id_seq := Legacy.users_id_seq d;
           Legacy.accounts_id_seq := Legacy.accounts_id_seq d;
           Legacy.transactions_id_seq := Legacy.transactions_id_seq d + 1 |} i =
      Legacy.balance_of
        (Legacy.update_balance (- Legacy.withdrawal_amount payload)
           (Legacy.withdrawal_account_id payload) d) i) as Hsame by done.
    split.
    + cbn [Legacy.update_balance Legacy.users Legacy.accounts Legacy.transactions
           Legacy.users_id_seq Legacy.accounts_id_seq Legacy.transactions_id_seq].
      rewrite Hsame, legacy_balance_after_update, Hb. simpl.
      rewrite Z.eqb_refl. f_equal; lia.
    + intros other Hother.
      cbn [Legacy.update_balance Legacy.users Legacy.accounts Legacy.transactions
           Legacy.users_id_seq Legacy.accounts_id_seq Legacy.transactions_id_seq].
      rewrite Hsame, legacy_balance_after_update.
      apply Z.eqb_neq in Hother as ->. by destruct (Legacy.balance_of d other).
Qed.

Lemma legacy_balance_of_accounts d d' i :
  Legacy.accounts d' = Legacy.accounts d ->
  Legacy.balance_of d' i = Legacy.balance_of d i.
Proof.
  intros H. unfold Legacy.balance_of. by rewrite !legacy_select_account, H.
Qed.

Lemma legacy_balance_of_find d i b :
  Legacy.balance_of d i = Some b ->
  exists a, Legacy.select_account i d = Some a /\ a_balance a = b.
Proof.
  unfold Legacy.balance_of. destruct (Legacy.select_account i d) as [a|]; [|done].
  intros [= <-]. eauto.
Qed.

(** X23. A transfer of the earlier revision, of a positive amount
    between two different existing accounts, the source holding at
    least the amount: the source balance goes down and the destination
    balance up by the amount, the others are kept, and two rows are
    appended to the log and returned, a "withdrawal" for the source
    followed by a "deposit" for the destination, both with the amount.
    The source is not checked against any caller. *)
Theorem legacy_transfer_success payload d b c :
  0 < Legacy.transfer_amount payload ->
  Legacy.from_account_id payload <> Legacy.to_account_id payload ->
  Legacy.balance_of d (Legacy.from_account_id payload) = Some b ->
  Legacy.balance_of d (Legacy.to_account_id payload) = Some c ->
  Legacy.transfer_amount payload <= b ->
  let result := Legacy.create_transfer payload d in
  let from_row := {| Legacy.t_id := Legacy.transactions_id_seq d;
                     Legacy.t_account_id := Legacy.from_account_id payload;
                     Legacy.t_amount := Legacy.transfer_amount payload;
                     Legacy.t_transaction_type := "withdrawal" |} in
  let to_row := {| Legacy.t_id := Legacy.transactions_id_seq d + 1;
                   Legacy.t_account_id := Legacy.to_account_id payload;
                   Legacy.t_amount := Legacy.transfer_amount payload;
                   Legacy.t_transaction_type := "deposit" |} in
  snd result = Legacy.Return (from_row, to_row) /\
  Legacy.transactions (fst result) = Legacy.transactions d ++ [from_row; to_row] /\
  Legacy.balance_of (fst result) (Legacy.from_account_id payload) =
    Some (b - Legacy.transfer_amount payload) /\
  Legacy.balance_of (fst result) (Legacy.to_account_id payload) =
    Some (c + Legacy.transfer_amount payload) /\
  (forall other,
     other <> Legacy.from_account_id payload ->
     other <> Legacy.to_account_id payload ->
     Legacy.balance_of (fst result) other = Legacy.balance_of d other).
Proof.
  intros Hpos Hne Hb Hc Hle result from_row to_row. subst result from_row to_row.
  destruct (legacy_balance_of_find _ _ _ Hb) as (a & Ea & Ha).
  destruct (legacy_balance_of_find _ _ _ Hc) as (x & Ex & Hx).
  unfold Legacy.create_transfer, Legacy.transaction.
  apply Z.leb_gt in Hpos as ->. pose proof Hne as Hne'.
  apply Z.eqb_neq in Hne' as ->. rewrite Ea, Ex.
  assert ((a_balance a <? Legacy.transfer_amount payload) = false) as ->
    by (apply Z.ltb_ge; lia).
  cbn [Legacy.transfer_operations_loop Legacy.insert_transaction fst snd app].
  split; [done|]. split.
  - cbn [Legacy.transactions Legacy.update_balance Legacy.transactions_id_seq].
    by rewrite <- app_assoc.
  - assert (forall i,
      Legacy.balance_of
        (Legacy.update_balance (Legacy.transfer_amount payload)
           (Legacy.to_account_id payload)
           (Legacy.update_balance (- Legacy.transfer_amount payload)
              (Legacy.from_account_id payload) d)) i =
      (fun v => if i =? Legacy.from_account_id payload
                then v - Legacy.transfer_amount payload
                else if i =? Legacy.to_account_id payload
                     then v + Legacy.transfer_amount payload else v) <$>
        Legacy.balance_of d i) as Hbal.
    { intros i. rewrite !legacy_balance_after_update.
      destruct (Legacy.balance_of d i) as [v|]; [|done]. simpl. f_equal.
      destruct (Z.eqb_spec i (Legacy.from_account_id payload)) as [->|E1].
      - apply Z.eqb_neq in Hne as ->. lia.
      - by destruct (i =? Legacy.to_account_id payload). }
    assert (forall i,
      Legacy.balance_of
        {| Legacy.users := Legacy.users d;
           Legacy.accounts :=
             update_accounts (fun a => a_id a =? Legacy.to_account_id payload)
               (Legacy.transfer_amount payload)
               (update_accounts (fun a => a_id a =? Legacy.from_account_id payload)
                  (- Legacy.transfer_amount payload) (Legacy.accounts d));
           Legacy.transactions :=
             (Legacy.transactions d ++
              [ {| Legacy.t_id := Legacy.transactions_id_seq d;
                   Legacy.t_account_id := Legacy.from_account_id payload;
                   Legacy.t_amount := Legacy.transfer_amount payload;
                   Legacy.t_transaction_type := Legacy.WITHDRAWAL |} ]) ++
              [ {| Legacy.t_id := Legacy.transactions_id_seq d + 1;
                   Legacy.t_account_id := Legacy.to_account_id payload;
                   Legacy.t_amount := Legacy.transfer_amount payload;
                   Legacy.t_transaction_type := Legacy.DEPOSIT |} ];
           Legacy.users_id_seq := Legacy.users_id_seq d;
           Legacy.accounts_id_seq := Legacy.accounts_id_seq d;
           Legacy.transactions_id_seq := Legacy.transactions_id_seq d + 1 + 1 |} i =
      Legacy.balance_of
        (Legacy.update_balance (Legacy.transfer_amount payload)
           (Legacy.to_account_id payload)
           (Legacy.update_balance (- Legacy.transfer_amount payload)
              (Legacy.from_account_id payload) d)) i) as Hsame
      by (intros i; by apply legacy_balance_of_accounts).
    cbn [Legacy.update_balance Legacy.users Legacy.accounts Legacy.transactions
         Legacy.users_id_seq Legacy.accounts_id_seq Legacy.transactions_id_seq].
    rewrite !Hsame, !Hbal, Hb, Hc. simpl. rewrite !Z.eqb_refl.
    assert ((Legacy.to_account_id payload =? Legacy.from_account_id payload) = false)
      as -> by (apply Z.eqb_neq; congruence).
    split; [done|]. split; [done|].
    intros other H1 H2. rewrite Hsame, Hbal.
    apply Z.eqb_neq in H1 as ->. apply Z.eqb_neq in H2 as ->.
    by destruct (Legacy.balance_of d other).
Qed.

(** X24. What the handler of the earlier revision refuses in a transfer
    of a positive amount between different ids: when either account is
    missing, 404 "One or both accounts not found"; when both exist and
    the source holds less than the amount, 400 "Insufficient funds in
    the source account". *)
Theorem legacy_transfer_refusals payload d :
  0 < Legacy.transfer_amount payload ->
  Legacy.from_account_id payload <> Legacy.to_account_id payload ->
  (Legacy.balance_of d (Legacy.from_account_id payload) = None \/
   Legacy.balance_of d (Legacy.to_account_id payload) = None ->
     Legacy.create_transfer payload d =
       (d, Legacy.Raise (Legacy.HTTPException NOT_FOUND
                           "One or both accounts not found"))) /\
  (forall b c,
     Legacy.balance_of d (Legacy.from_account_id payload) = Some b ->
     Legacy.balance_of d (Legacy.to_account_id payload) = Some c ->
     b < Legacy.transfer_amount payload ->
     Legacy.create_transfer payload d =
       (d, Legacy.Raise (Legacy.HTTPException BAD_REQUEST
                           "Insufficient funds in the source account"))).
Proof.
  intros Hpos Hne. unfold Legacy.create_transfer, Legacy.transaction, Legacy.balance_of.
  apply Z.leb_gt in Hpos as ->. apply Z.eqb_neq in Hne as ->.
  destruct (Legacy.select_account (Legacy.from_account_id payload) d) as [a|];
    destruct (Legacy.select_account (Legacy.to_account_id payload) d) as [x|];
    simpl; (split; [intros [H|H]; try done; by rewrite legacy_rollback_same|]);
    try done.
  intros b c [= <-] _ Hlt.
  assert ((a_balance a <? Legacy.transfer_amount payload) = true) as ->
    by (by apply Z.ltb_lt).
  by rewrite legacy_rollback_same.
Qed.

Lemma legacy_unique_row d account_id a x :
  NoDup (map a_id (Legacy.accounts d)) ->
  Legacy.select_account account_id d = Some a ->
  In x (Legacy.accounts d) -> (a_id x =? account_id) = true -> x = a.
Proof.
  intros Hnd Hsel Hin Hid. rewrite legacy_select_account in Hsel.
  apply find_some in Hsel as [Hin' Hid']. apply Z.eqb_eq in Hid, Hid'.
  eapply NoDup_map_eq; eauto. congruence.
Qed.

(** X25. The earlier revision keeps balances non-negative as well, by
    checking before it writes: with distinct account ids, whatever a
    deposit, a withdrawal or a transfer is asked and whatever it
    answers, no balance is negative afterwards if none was before. *)
Theorem legacy_non_negativity d :
  NoDup (map a_id (Legacy.accounts d)) ->
  Legacy.balances_non_negative d ->
  (forall payload,
     Legacy.balances_non_negative (fst (Legacy.create_deposit payload d))) /\
  (forall payload,
     Legacy.balances_non_negative (fst (Legacy.create_withdrawal payload d))) /\
  (forall payload,
     Legacy.balances_non_negative (fst (Legacy.create_transfer payload d))).
Proof.
  intros Hnd Hbal. split; [|split]; intros payload.
  - unfold Legacy.create_deposit, Legacy.transaction.
    destruct (Z.leb_spec (Legacy.deposit_amount payload) 0); [done|].
    destruct (Legacy.select_account _ d) as [a|]; [|done].
    cbn [fst Legacy.insert_transaction]. unfold Legacy.balances_non_negative.
    cbn [Legacy.accounts Legacy.update_balance].
    apply update_accounts_non_negative; [done|].
    intros x Hx _. specialize (Hbal x Hx). lia.
  - unfold Legacy.create_withdrawal, Legacy.transaction.
    destruct (Z.leb_spec (Legacy.withdrawal_amount payload) 0); [done|].
    destruct (Legacy.select_account _ d) as [a|] eqn:E; [|done].
    destruct (Z.ltb_spec (a_balance a) (Legacy.withdrawal_amount payload)); [done|].
    cbn [fst Legacy.insert_transaction]. unfold Legacy.balances_non_negative.
    cbn [Legacy.accounts Legacy.update_balance].
    apply update_accounts_non_negative; [done|].
    intros x Hx Hid. rewrite (legacy_unique_row _ _ _ _ Hnd E Hx Hid). lia.
  - unfold Legacy.create_transfer, Legacy.transaction.
    destruct (Z.leb_spec (Legacy.transfer_amount payload) 0); [done|].
    destruct (_ =? _); [done|].
    destruct (Legacy.select_account (Legacy.from_account_id payload) d)
      as [a|] eqn:E;
      destruct (Legacy.select_account (Legacy.to_account_id payload) d) as [x|];
      try done.
    destruct (Z.ltb_spec (a_balance a) (Legacy.transfer_amount payload)); [done|].
    cbn [fst Legacy.transfer_operations_loop Legacy.insert_transaction].
    unfold Legacy.balances_non_negative.
    cbn [Legacy.accounts Legacy.update_balance].
    apply update_accounts_non_negative.
    + apply update_accounts_non_negative; [done|].
      intros y Hy Hid. rewrite (legacy_unique_row _ _ _ _ Hnd E Hy Hid). lia.
    + intros y Hy _. assert (0 <= a_balance y); [|lia]. revert y Hy.
      apply update_accounts_non_negative; [done|].
      intros y Hy Hid. rewrite (legacy_unique_row _ _ _ _ Hnd E Hy Hid). lia.
Qed.

(** X26. Creating a user in the earlier revision.  A name that has a
    row is refused with 400 "Username already exists" and the tables are
    kept; a name that has none gets a row with the next id, which is
    returned, and which [get_user] finds under that id when no user has
    an id as large as the sequence. *)
Theorem legacy_create_user_unique name d :
  let result := Legacy.create_user name d in
  let row := {| u_id := Legacy.users_id_seq d; u_username := name |} in
  ((exists u, In u (Legacy.users d) /\ u_username u = name) ->
     snd result = Legacy.Raise (Legacy.HTTPException BAD_REQUEST
                                  "Username already exists") /\
     Legacy.users (fst result) = Legacy.users d /\
     Legacy.accounts (fst result) = Legacy.accounts d /\
     Legacy.transactions (fst result) = Legacy.transactions d) /\
  (~ (exists u, In u (Legacy.users d) /\ u_username u = name) ->
     snd result = Legacy.Return row /\
     Legacy.users (fst result) = Legacy.users d ++ [row] /\
     ((forall u, In u (Legacy.users d) -> u_id u < Legacy.users_id_seq d) ->
        Legacy.get_user (u_id row) (fst result) = Legacy.Return row)).
Proof.
  cbv zeta. unfold Legacy.create_user, Legacy.insert_user.
  destruct (existsb _ _) eqn:E; cbn [fst snd].
  - split; [done|]. intros []. apply existsb_exists in E as (u & Hu & E).
    apply String.eqb_eq in E. eauto.
  - split.
    + intros (u & Hu & Hname).
      assert (existsb (fun u => String.eqb (u_username u) name) (Legacy.users d)
              = true); [|congruence].
      apply existsb_exists. exists u. split; [done|]. by apply String.eqb_eq.
    + intros _. split; [done|]. split; [done|]. intros Hlt.
      unfold Legacy.get_user. cbn [Legacy.users u_id].
      rewrite fetchrow_filter, find_app_fresh; [done| |].
      * intros u Hu. specialize (Hlt u Hu). apply Z.eqb_neq. lia.
      * simpl. apply Z.eqb_refl.
Qed.

(** X27. The listing of the earlier revision never fails, for any id:
    it returns the rows of the log with that account id, each as often
    as it is logged, by decreasing row id; an id without rows, that of
    an account or not, gets the empty list. *)
Theorem legacy_listing account_id d :
  exists rows,
    Legacy.get_transactions_by_account account_id d = Legacy.Return rows /\
    Permutation rows
      (List.filter (fun t => Legacy.t_account_id t =? account_id)
                   (Legacy.transactions d)) /\
    (forall t, In t rows <->
       In t (Legacy.transactions d) /\ Legacy.t_account_id t = account_id) /\
    Sorted (fun x y => Legacy.t_id y <= Legacy.t_id x) rows /\
    ((forall t, In t (Legacy.transactions d) ->
        Legacy.t_account_id t <> account_id) -> rows = []).
Proof.
  unfold Legacy.get_transactions_by_account. eexists. split; [done|].
  pose proof (order_by_desc_perm Legacy.t_id
    (List.filter (fun t => Legacy.t_account_id t =? account_id)
                 (Legacy.transactions d))) as Hperm.
  assert (forall t,
    In t (order_by_desc Legacy.t_id
            (List.filter (fun t => Legacy.t_account_id t =? account_id)
                         (Legacy.transactions d))) <->
    In t (Legacy.transactions d) /\ Legacy.t_account_id t = account_id) as Hin.
  { intros t. split.
    - intros H. apply (Permutation_in _ Hperm) in H.
      apply filter_In in H as [H E]. by apply Z.eqb_eq in E.
    - intros [H E]. apply (Permutation_in _ (Permutation_sym Hperm)).
      apply filter_In. split; [done|]. by apply Z.eqb_eq. }
  split; [done|]. split; [done|]. split; [apply order_by_desc_sorted|].
  intros Hnone. destruct (order_by_desc _ _) as [|t l] eqn:E; [done|].
  assert (In t (Legacy.transactions d) /\ Legacy.t_account_id t = account_id)
    as [Ht Hid] by (apply Hin; by left).
  by destruct (Hnone t Ht).
Qed.

(** X28. Opening an account in the earlier revision.  For a user id
    that has a row, [create_account] appends one account with the next
    id of the sequence, that owner and balance 0 and returns it, and
    [get_account] then returns the same under that id when no account
    has an id as large as the sequence; for a user id without a row the
    foreign key is violated and no account is added. *)
Theorem legacy_create_account now owner d :
  let result := Legacy.create_account now owner d in
  let account := {| Legacy.id := Legacy.accounts_id_seq d;
                    Legacy.user_id := owner; Legacy.balance := 0 |} in
  ((exists u, In u (Legacy.users d) /\ u_id u = owner) ->
     snd result = Legacy.Return account /\
     Legacy.accounts (fst result) =
       Legacy.accounts d ++
       [ {| a_id := Legacy.accounts_id_seq d; a_user_id := owner;
            a_balance := 0; a_created_at := now |} ] /\
     ((forall a, In a (Legacy.accounts d) -> a_id a < Legacy.accounts_id_seq d) ->
        Legacy.get_account (Legacy.id account) (fst result) =
          Legacy.Return account)) /\
  (~ (exists u, In u (Legacy.users d) /\ u_id u = owner) ->
     snd result = Legacy.Raise Legacy.ForeignKeyViolationError /\
     Legacy.accounts (fst result) = Legacy.accounts d /\
     Legacy.users (fst result) = Legacy.users d).
Proof.
  cbv zeta. unfold Legacy.create_account, Legacy.insert_account.
  destruct (existsb _ _) eqn:E; cbn [fst snd].
  - split.
    + intros _. split; [done|]. split; [done|]. intros Hlt.
      unfold Legacy.get_account. rewrite legacy_select_account.
      cbn [Legacy.accounts Legacy.id].
      rewrite find_app_fresh; [done| |].
      * intros a Ha. specialize (Hlt a Ha). apply Z.eqb_neq. lia.
      * simpl. apply Z.eqb_refl.
    + intros []. apply existsb_exists in E as (u & Hu & E).
      apply Z.eqb_eq in E. eauto.
  - split; [|done]. intros (u & Hu & Hid).
    assert (existsb (fun u => u_id u =? owner) (Legacy.users d) = true);
      [|congruence].
    apply existsb_exists. exists u. split; [done|]. by apply Z.eqb_eq.
Qed.

(** X29. Reading accounts in the earlier revision asks for no caller:
    [get_account] answers 404 "Account not found" exactly when no
    account has the id, and returns the account to whoever asks
    otherwise; [get_accounts_by_user] returns [None], not the empty
    list, exactly when no account has that owner, and otherwise the
    accounts of that owner, newest first. *)
Theorem legacy_account_reads d :
  (forall account_id,
     Legacy.get_account account_id d =
       Legacy.Raise (Legacy.HTTPException NOT_FOUND "Account not found") <->
     ~ exists a, In a (Legacy.accounts d) /\ a_id a = account_id) /\
  (forall account_id a,
     Legacy.select_account account_id d = Some a ->
     Legacy.get_account account_id d =
       Legacy.Return {| Legacy.id := account_id; Legacy.user_id := a_user_id a;
                        Legacy.balance := a_balance a |}) /\
  (forall owner,
     Legacy.get_accounts_by_user owner d = Legacy.Return None <->
     ~ exists a, In a (Legacy.accounts d) /\ a_user_id a = owner) /\
  (forall owner accounts,
     Legacy.get_accounts_by_user owner d = Legacy.Return (Some accounts) ->
     exists rows,
       accounts = map Legacy.to_Account rows /\
       rows <> [] /\
       Permutation rows
         (List.filter (fun a => a_user_id a =? owner) (Legacy.accounts d)) /\
       Sorted (fun x y => a_created_at y <= a_created_at x) rows).
Proof.
  split; [|split; [|split]].
  - intros account_id. unfold Legacy.get_account. rewrite legacy_select_account.
    destruct (List.find _ _) as [a|] eqn:E.
    + split; [done|]. intros []. apply find_some in E as [Hin E].
      apply Z.eqb_eq in E. eauto.
    + split; [|done]. intros _ (a & Hin & Hid).
      eapply find_none in E; [|exact Hin]. simpl in E. lia.
  - intros account_id a Hsel. unfold Legacy.get_account. rewrite Hsel.
    rewrite legacy_select_account in Hsel. by rewrite <- (find_id_eq _ _ _ Hsel).
  - intros owner. unfold Legacy.get_accounts_by_user. cbv zeta.
    pose proof (order_by_desc_perm a_created_at
      (List.filter (fun a => a_user_id a =? owner) (Legacy.accounts d))) as Hperm.
    destruct (order_by_desc _ _) as [|a l] eqn:E; simpl.
    + split; [|done]. intros _ (a & Hin & Hid).
      assert (In a []) as []. apply (Permutation_in _ (Permutation_sym Hperm)).
      apply filter_In. split; [done|]. by apply Z.eqb_eq.
    + split; [done|]. intros [].
      assert (In a (List.filter (fun a => a_user_id a =? owner) (Legacy.accounts d)))
        as [Hin Hid]%filter_In
        by (apply (Permutation_in _ Hperm); by left).
      apply Z.eqb_eq in Hid. eauto.
  - intros owner accounts. unfold Legacy.get_accounts_by_user. cbv zeta.
    pose proof (order_by_desc_perm a_created_at
      (List.filter (fun a => a_user_id a =? owner) (Legacy.accounts d))) as Hperm.
    pose proof (order_by_desc_sorted a_created_at
      (List.filter (fun a => a_user_id a =? owner) (Legacy.accounts d))) as Hsort.
    destruct (order_by_desc _ _) as [|a l] eqn:E; simpl; [done|].
    intros [= <-]. by exists (a :: l).
Qed.

(** * The further properties on the sample run *)

Lemma sample_database_pkey : accounts_pkey sample_database.
Proof.
  rewrite <- sample_database_reached.
  apply (run_ledger_sound toy_hashpw toy_checkpw sample_history initial_state).
  apply empty_database_sound.
Qed.

Lemma sample_database_schema : schema_constraints sample_database.
Proof.
  rewrite <- sample_database_reached.
  apply (run_schema_constraints toy_hashpw toy_checkpw sample_history initial_state).
  apply empty_database_schema.
Qed.

Lemma bob_owns_2 : owned_by sample_database 2 "bob".
Proof. by apply account_check_spec. Qed.

(** Bob deposits 50 into his empty account. *)
Lemma deposit_success_witness :
  let result := post_deposit 13 {| deposit_account_id := 2; deposit_amount := 50 |}
                  "bob" sample_database in
  snd result = Return tt /\
  balance_of (fst result) 2 = Some 50 /\
  (forall other, other <> 2 ->
     balance_of (fst result) other = balance_of sample_database other) /\
  transactions (fst result) =
    transactions sample_database ++
    [ {| t_id := 2; t_from_account_id := None; t_to_account_id := Some 2;
         t_amount := 50; t_created_at := 13 |} ].
Proof.
  apply (deposit_success 13 {| deposit_account_id := 2; deposit_amount := 50 |}
           "bob" sample_database 0).
  - reflexivity.
  - exact bob_owns_2.
  - reflexivity.
Defined.

(** Alice cannot deposit into, or withdraw from, Bob's account. *)
Lemma unowned_account_not_found_witness :
  snd (post_deposit 13 {| deposit_account_id := 2; deposit_amount := 10 |}
         "alice" sample_database) =
    Raise (HTTPException NOT_FOUND "Account not found").
Proof.
  apply (unowned_account_not_found 13 2 10 "alice" sample_database).
  - reflexivity.
  - exact alice_does_not_own_2.
Defined.

(** Alice sends more than she has to an account that does not exist. *)
Lemma transfer_refusals_witness :
  snd (post_transfer 13 {| from_ := 1; to := 9; transfer_amount := 500 |}
         "alice" sample_database) =
    Raise (HTTPException NOT_FOUND "To account not found").
Proof.
  apply (proj1 (proj2 (proj2 (transfer_refusals 13
           {| from_ := 1; to := 9; transfer_amount := 500 |}
           "alice" sample_database eq_refl ltac:(discriminate))))).
  - exact alice_owns_1.
  - exact account_9_missing.
Defined.

Lemma same_account_rejected_witness :
  exists errors,
    post_transfer 13 {| from_ := 1; to := 1; transfer_amount := 5 |}
      "alice" sample_database =
      (sample_database, Raise (RequestValidationError errors)) /\
    In (value_error "to" "Cannot transfer to the same account.") errors /\
    (5 <= 0 -> In (greater_than "amount" 0) errors) /\
    (0 < 5 -> errors = [value_error "to" "Cannot transfer to the same account."]).
Proof.
  apply (same_account_rejected 13 {| from_ := 1; to := 1; transfer_amount := 5 |}
           "alice" sample_database).
  reflexivity.
Defined.

(** Alice sends 200 to Bob: the total stays 300. *)
Lemma movement_total_witness :
  total_balance
    (fst (perform 13 (Transfer {| from_ := 1; to := 2; transfer_amount := 200 |})
            "alice" sample_database)) =
  total_balance sample_database +
  net_effect (Transfer {| from_ := 1; to := 2; transfer_amount := 200 |})
    (snd (perform 13 (Transfer {| from_ := 1; to := 2; transfer_amount := 200 |})
            "alice" sample_database)).
Proof.
  apply (movement_total 13 (Transfer {| from_ := 1; to := 2; transfer_amount := 200 |})
           "alice" sample_database).
  exact sample_database_pkey.
Defined.

(** In the sample state the balance of Alice's account is the net of its log. *)
Lemma balance_is_net_of_history_witness :
  300 = net_flow (transactions (db sample_state)) 1.
Proof.
  apply (proj1 (balance_is_net_of_history toy_hashpw toy_checkpw sample_history)
           {| a_id := 1; a_user_id := 1; a_balance := 300; a_created_at := 10 |}).
  vm_compute. by left.
Defined.

(** The one row of the sample log, Alice's deposit, is well formed. *)
Lemma log_rows_well_formed_witness :
  0 < 300 /\
  None <> Some 1 /\
  forall i,
    endpoint i {| t_id := 1; t_from_account_id := None; t_to_account_id := Some 1;
                  t_amount := 300; t_created_at := 12 |} ->
    account_exists (db sample_state) i.
Proof.
  apply (proj1 (log_rows_well_formed toy_hashpw toy_checkpw sample_history)
           {| t_id := 1; t_from_account_id := None; t_to_account_id := Some 1;
              t_amount := 300; t_created_at := 12 |}).
  vm_compute. by left.
Defined.

(** Alice opens a second account and reads it back; Bob cannot. *)
Lemma create_then_get_account_witness :
  get_account 3 "alice" (fst (create_account 13 "alice" sample_database)) =
    Return {| id := 3; balance := 0 |}.
Proof.
  apply (create_then_get_account 13 "alice" sample_database
           {| u_id := 1; u_username := "alice" |} sample_database_schema).
  - by left.
  - reflexivity.
Defined.

Lemma create_account_unknown_user_witness :
  snd (create_account 13 "carol" sample_database) = Raise AssertionError.
Proof.
  apply (create_account_unknown_user 13 "carol" sample_database).
  intros H. apply existsb_username in H. discriminate.
Defined.

Lemma get_accounts_witness :
  exists rows,
    get_accounts "alice" sample_database =
      Return (map (fun a => {| id := a_id a; balance := a_balance a |}) rows) /\
    Permutation rows
      (List.filter (joined_with_username sample_database "alice")
                   (accounts sample_database)) /\
    (forall a, In a rows <->
       In a (accounts sample_database) /\ owner_is sample_database "alice" a) /\
    Sorted (fun x y => a_created_at y <= a_created_at x) rows /\
    (forall a, In a rows ->
       owned_by sample_database (a_id a) "alice" /\
       get_account (a_id a) "alice" sample_database <>
         Raise (HTTPException NOT_FOUND "Account not found")) /\
    ((forall a, In a (accounts sample_database) ->
        ~ owner_is sample_database "alice" a) -> rows = []).
Proof.
  apply (get_accounts_lists_own_accounts "alice" sample_database).
  exact sample_database_key.
Defined.

(** Carol registers in the sample state and logs in. *)
Lemma register_then_verify_witness :
  verify_credentials toy_checkpw
    {| credentials_username := "carol"; credentials_password := "secret" |}
    (fst (register toy_hashpw "salt4"
            {| username := "carol"; password := "secret" |} sample_state)) =
    Return "carol".
Proof.
  apply (register_then_verify toy_hashpw toy_checkpw "salt4"
           {| username := "carol"; password := "secret" |} sample_state).
  - reflexivity.
  - vm_compute. reflexivity.
Defined.

(** After a restart Alice's credentials are refused and her deposit changes nothing. *)
Lemma restart_refuses_everyone_witness :
  run toy_hashpw toy_checkpw
    [ PostDeposit 13 (Some alice) {| deposit_account_id := 1; deposit_amount := 5 |} ]
    (lifespan sample_state) = lifespan sample_state.
Proof.
  apply (proj2 (proj2 (restart_refuses_everyone toy_hashpw toy_checkpw sample_state))).
  intros e salt request [<-|[]]. discriminate.
Defined.

(** Alice deposits 40 and takes it back. *)
Lemma deposit_then_withdrawal_witness :
  accounts
    (fst (perform 14
            (Withdrawal {| withdrawal_account_id := 1; withdrawal_amount := 40 |})
            "alice"
            (fst (perform 13
                    (Deposit {| deposit_account_id := 1; deposit_amount := 40 |})
                    "alice" sample_database)))) =
  accounts sample_database.
Proof.
  apply (deposit_then_withdrawal 13 14 1 40 "alice" sample_database 300).
  - reflexivity.
  - exact alice_owns_1.
  - reflexivity.
  - discriminate.
Defined.

(** Alice's transfer to Bob heads the listing of Bob's account. *)
Lemma accepted_movement_listed_first_witness :
  exists before rest,
    get_transactions_by_account 2 "bob" sample_database = Return before /\
    get_transactions_by_account 2 "bob"
      (fst (perform 13 (Transfer {| from_ := 1; to := 2; transfer_amount := 200 |})
              "alice" sample_database)) =
      Return ({| from_account_id := Some 1; to_account_id := Some 2;
                 amount := 200; created_at := 13 |} :: rest) /\
    Permutation rest before /\
    newest_first rest /\
    (NoDup (map created_at before) -> rest = before).
Proof.
  apply (accepted_movement_listed_first 13
           (Transfer {| from_ := 1; to := 2; transfer_amount := 200 |})
           "alice" sample_database 2 "bob").
  - reflexivity.
  - intros row [<-|[]]. reflexivity.
  - by right.
  - exact bob_owns_2.
Defined.

(** The earlier revision on the sample store. *)
Lemma legacy_refusal_witness :
  fst (Legacy.create_withdrawal
         {| Legacy.withdrawal_account_id := 1; Legacy.withdrawal_amount := 500 |}
         legacy_sample_database) = legacy_sample_database.
Proof.
  apply (proj1 (proj2 legacy_refusal_changes_nothing)
           {| Legacy.withdrawal_account_id := 1; Legacy.withdrawal_amount := 500 |}
           legacy_sample_database
           (Legacy.HTTPException BAD_REQUEST "Insufficient funds")).
  reflexivity.
Defined.

Lemma legacy_guards_witness :
  Legacy.create_deposit
    {| Legacy.deposit_account_id := 1; Legacy.deposit_amount := 0 |}
    legacy_sample_database =
  (legacy_sample_database,
   Legacy.Raise (Legacy.HTTPException BAD_REQUEST "Deposit amount must be positive")).
Proof.
  apply (proj1 legacy_guards
           {| Legacy.deposit_account_id := 1; Legacy.deposit_amount := 0 |}
           legacy_sample_database).
  discriminate.
Defined.

Lemma legacy_withdrawal_witness :
  Legacy.balance_of
    (fst (Legacy.create_withdrawal
            {| Legacy.withdrawal_account_id := 1; Legacy.withdrawal_amount := 300 |}
            legacy_sample_database)) 1 = Some 0.
Proof.
  apply (proj2 (legacy_withdrawal_semantics
           {| Legacy.withdrawal_account_id := 1; Legacy.withdrawal_amount := 300 |}
           legacy_sample_database 300 eq_refl eq_refl)).
  discriminate.
Defined.

Lemma legacy_transfer_success_witness :
  Legacy.transactions
    (fst (Legacy.create_transfer
            {| Legacy.from_account_id := 1; Legacy.to_account_id := 2;
               Legacy.transfer_amount := 200 |} legacy_sample_database)) =
  Legacy.transactions legacy_sample_database ++
  [ {| Legacy.t_id := 2; Legacy.t_account_id := 1; Legacy.t_amount := 200;
       Legacy.t_transaction_type := "withdrawal" |};
    {| Legacy.t_id := 3; Legacy.t_account_id := 2; Legacy.t_amount := 200;
       Legacy.t_transaction_type := "deposit" |} ].
Proof.
  apply (legacy_transfer_success
           {| Legacy.from_account_id := 1; Legacy.to_account_id := 2;
              Legacy.transfer_amount := 200 |} legacy_sample_database 300 0).
  - reflexivity.
  - discriminate.
  - reflexivity.
  - reflexivity.
  - discriminate.
Defined.

Lemma legacy_transfer_refusals_witness :
  Legacy.create_transfer
    {| Legacy.from_account_id := 1; Legacy.to_account_id := 9;
       Legacy.transfer_amount := 20 |} legacy_sample_database =
  (legacy_sample_database,
   Legacy.Raise (Legacy.HTTPException NOT_FOUND "One or both accounts not found")).
Proof.
  apply (proj1 (legacy_transfer_refusals
           {| Legacy.from_account_id := 1; Legacy.to_account_id := 9;
              Legacy.transfer_amount := 20 |} legacy_sample_database
           eq_refl ltac:(discriminate))).
  by right.
Defined.

Lemma legacy_non_negativity_witness :
  Legacy.balances_non_negative
    (fst (Legacy.create_withdrawal
            {| Legacy.withdrawal_account_id := 1; Legacy.withdrawal_amount := 300 |}
            legacy_sample_database)).
Proof.
  apply (legacy_non_negativity legacy_sample_database).
  - repeat constructor; rewrite list_elem_of_In; simpl; intuition discriminate.
  - intros a [<-|[<-|[]]]; simpl; lia.
Defined.

Lemma legacy_create_user_witness :
  snd (Legacy.create_user "alice" legacy_sample_database) =
    Legacy.Raise (Legacy.HTTPException BAD_REQUEST "Username already exists").
Proof.
  apply (proj1 (legacy_create_user_unique "alice" legacy_sample_database)).
  eexists. split; [by left|reflexivity].
Defined.

Lemma legacy_create_account_witness :
  snd (Legacy.create_account 13 7 legacy_sample_database) =
    Legacy.Raise Legacy.ForeignKeyViolationError.
Proof.
  apply (proj2 (legacy_create_account 13 7 legacy_sample_database)).
  intros (u & [<-|[<-|[]]] & H); discriminate.
Defined.

Lemma legacy_account_reads_witness :
  Legacy.get_account 9 legacy_sample_database =
    Legacy.Raise (Legacy.HTTPException NOT_FOUND "Account not found").
Proof.
  apply (proj1 (legacy_account_reads legacy_sample_database)).
  intros (a & [<-|[<-|[]]] & H); discriminate.
Defined.

Lemma schema_constraints_kept_witness :
  schema_constraints
    (db (run toy_hashpw toy_checkpw
           [ PostAccounts 13 (Some alice) ] sample_state)).
Proof.
  apply (proj2 (schema_constraints_kept toy_hashpw toy_checkpw
                  [ PostAccounts 13 (Some alice) ]) sample_state).
  rewrite sample_database_reached. exact sample_database_schema.
Defined.

Lemma get_user_finds_registered_witness :
  get_user "carol" sample_database =
    Raise (HTTPException NOT_FOUND "User not found").
Proof.
  apply (proj1 get_user_finds_registered "carol" sample_database).
  intros H. apply existsb_username in H. discriminate.
Defined.

(** Alice's password is accepted in the sample state. *)
Lemma verify_credentials_accepts_witness :
  verify_credentials toy_checkpw alice sample_state = Return "alice".
Proof.
  apply (proj1 (verify_credentials_accepts toy_checkpw alice sample_state) "alice").
  split; [reflexivity|]. exists "wonderland". split; [|reflexivity].
  vm_compute. reflexivity.
Defined.
